(* ===== verification/_CoqProject ===== *)
-Q . S2P
Prelude.v
PyStr.v
PyVal.v
Ipv4.v
Loader.v
Yaml.v
Output.v
Hosts.v
Tables.v
Render.v
Configure.v
Cli.v
Scenario.v
Sink.v
Setup.v
