(* ===== verification/Prelude.v ===== *)
(** * A verification development for iftool (src/iftool.py)

    iftool reads a YAML description of a network (sections [global],
    [hosts], [tables], [templates]), picks the record of one host, renders
    Jinja2 templates for the device file, the route file, the rule file and
    one file per interface, and either writes them (option [--yes]) or
    prints a dry-run preview.  The program is one Python 2 module; this
    library models it as a shallow embedding.

    ** Parts of the program and how they interact

    - [say]/[verbose] (lines 44-63) print one line on stdout.
    - [CustomLoader] (lines 66-78) loads YAML and replaces every
      [!include] node by the document of the named file, recursively.
    - [configure] (lines 81-95) loads the template document, then calls
      [configure_device] only when [global.vlan] is truthy, then
      [configure_routes], [configure_rules] and [configure_interfaces].
    - each [configure_*] (lines 98-251) repeats the same host lookup (a
      [for ... else] loop with [sys.exit(1)]), builds its template
      context, renders a filename and a content template, and hands the
      pair to the same write-or-preview block.
    - [main] (lines 254-269) parses [argv] with docopt against the
      module docstring (lines 1-22), stores the three flags in globals and
      calls [configure]; run as a script (lines 272-273) it parses
      [sys.argv[1:]].
    - [src/setup.py] packages the module: its constants (lines 2-6) and
      the keyword arguments of [setup()] (lines 12-27); [scripts] decides
      the scripts distutils builds.
    - The program runs under Python 2: Jinja2 returns [unicode], so the
      filename and content lines the block prints go through [str()]
      (ASCII), [os.path.join] of the [str] destination and a [unicode]
      name decodes the destination with ASCII, and [file.write] of a
      [unicode] content on a ['wt'] file encodes it with ASCII.

    ** Files of the development (in _CoqProject order)

    - [Prelude]: this header, the error monad [res] (Python's exceptions
      as values) and the state-and-error monad [st] with their stdpp
      [MRet]/[MBind] instances and the [do c1 ;; c2] notation (scope
      [iftool_scope]), [for_each] and [res_for] (a [for] loop that stops
      at the first exception), the hint databases [iftool] and
      [iftool_run], and shared lemmas on these and on [merge_sort].
    - [PyStr] (Module [PyStr]): the string operations the code calls:
      [str.split], [s.split('.')[0]] ([short_name]), [unicode.splitlines],
      [os.path.join] and [os.path.split(p)[0]] (POSIX), the ASCII test of
      Python 2's implicit codec ([is_ascii]), [str()] of integers and of
      IPv4 addresses ([ipv4_str], with [Z.land] and [Z.shiftr] on the
      32-bit value).
    - [PyVal] (Module [PyVal]): Python values as the YAML loader builds
      them ([pyval]; a dict is an association list in insertion order),
      the exceptions ([exn]), [d[k]] ([getitem], with [True == 1]),
      dict assignment ([dict_setitem]), iteration, truthiness, Python 2's
      order of mixed values and [sorted()] (a stable insertion sort,
      proved equal for every permutation of distinct keys), [str()] and
      [repr()], [str()] of a unicode text ([str_unicode]) and
      [os.path.join] of a [str] and a [unicode] ([path_join_unicode]).
    - [Ipv4] (Module [Ipv4]): [ipaddress.IPv4Network(text)] in strict
      mode as line 231 calls it, and lines 231-233 ([subnet_values]).
    - [Loader] (Module [Loader]): [CustomLoader] (lines 66-78): PyYAML's
      construction of values from node trees with the [!include]
      constructor, resolving paths against the directory of the including
      file, recursively ([load_file]).
    - [Yaml] (Module [Yaml]): the typing of scalars [yaml.Loader] (the
      base class of [CustomLoader], line 66) performs between the
      composer and the constructor: regular expressions ([re], with an
      inductive semantics [in_re] and a Brzozowski-derivative matcher
      [re_matches]), the YAML 1.1 implicit resolvers of PyYAML's
      [resolver.py] in registration order ([resolve_plain]), the bool,
      int and null constructors ([construct_scalar], [construct_yaml_int]
      with [int(s, base)]), and the loader on composed nodes [rnode]
      ([construct_raw], [load_raw_file]), which reuses the item and pair
      loops of [Loader] but constructs nested nodes depth first, where
      PyYAML defers them: with several failing nodes the exception raised
      may differ.
    - [Output] (Module [Output]): [say] on a [str] or [unicode] text
      ([ptext], with [str()] raising [UnicodeEncodeError]), [verbose],
      [open(filename, 'wt')] and [file.write] ([write_file]: truncation,
      then the ASCII encoding of the content), the write-or-preview
      block ([emit], lines 115-123 and its three copies), the class
      [FileSystem] with its laws and the [gmap] instance [gfs]; the free
      monad [io] of the renderers (return, raise, print a line, hand a
      file to the sink) and its interpreter [run] into [st] under the
      flags; the lemmas [run_dry], [run_yes] and [run_yes_stops] give the
      whole effect of a program in each mode.
    - [Hosts] (Module [Hosts]): the host loop of lines 100-106.
    - [Tables] (Module [Tables]): the table list of lines 137-146 and
      the [ifnames] dict of lines 212-223.
    - [Render] (Module [Render]): the class [TemplateEngine] the renderers
      are proved against, and [interp_render] as its instance: Jinja2's
      interpolation and [for] loops (lexer, block parser, renderer), with
      the syntax errors of [not], [recursive] and [in] and the global
      names a missing variable resolves to.
    - [Configure] (Module [Configure]): [configure_device],
      [configure_table_file] (routes and rules), [configure_interfaces],
      [configure] and [main], each as the code composes them; the part of
      each renderer after the host loop is its own definition
      ([device_file], [table_file], [interfaces_files]), and
      [configure_resolved] is the variant that resolves the host once.
    - [Cli] (Module [Cli]): docopt 0.6 on the docstring of iftool: the
      option table of its [Options:] section, the tokenisation of [argv]
      ([parse_argv]: [--], long options with [=value] or a following
      value, unique prefixes, stacked short flags, unknown options), the
      [--help] exit, the match of the usage pattern ([docopt_match]), and
      [iftool_main], the whole of [main] on [argv]; [script_main], the
      [__main__] block.
    - [Scenario] (Module [Scenario]): a sample document with an include,
      the run of [main] on it, and the witnesses of the theorems of
      [Tables] and [Configure] on it.
    - [Sink] (Module [Sink]): the write-or-preview block of [Output]
      statement by statement: a step relation on configurations
      (program, pending actions of the block, world) with one step per
      [say], per [open(filename, 'wt')] (which truncates) and per
      [file.write], each with the exception its statement can raise.
    - [Setup] (Module [Setup]): [setup.py]: the constants and the keyword
      arguments ([setup_py]) and distutils' [build_scripts] on them.

    ** The theorems (claims C1-C32)

    - [Configure]: with ASCII paths and contents and writable paths,
      confirmed mode hands the sink the same files as the dry run and
      leaves in each the last content previewed (C1); the dry run never
      changes the file system and prints the previews up to the first
      line [str()] refuses (C2); an unknown host prints one line, writes
      nothing and exits with 1 (C3); the number of files is
      [vlan ? 1 : 0] + 2 + the number of interfaces (C4); a missing
      [vlan] raises before any output (C5); every file handed to the
      block is the destination joined with a rendered name, so the
      verbose message, which joins again, names a doubly joined path
      (C17); a write that fails stops the run, with [IOError] when
      [open] refuses the path and with [UnicodeEncodeError] after [open]
      emptied the file when the content is not ASCII (C22); resolving
      the host once gives the same program (C23).
    - [Hosts]: the loop is a first-match scan (C6), depends only on the
      short name (C7), an exact key has no priority (C8), and a
      non-string key reached before the match raises [AttributeError]
      (C18).
    - [Tables]: the table list is independent of the order of the
      [tables] section of any loaded document (C9) and is the sorted
      table names with the context of each (C10); [ifnames] keeps the
      last table naming an interface (C11).
    - [Ipv4]: the values of lines 231-233 on [a.b.c.d/p] text (C12), the
      printed form is canonical for the parser (C13), parsed networks are
      well formed (C14).
    - [Loader]: a document without include cycles loads for some fuel
      and every larger fuel gives the same result (C15); a self-include
      fails for every fuel (C16); every loaded document is well formed:
      its dicts, at every depth, have distinct hashable keys (C21).
    - [Output]: the dry-run preview loses line ends (C19).
    - [Render]: the engine implements plain interpolation: a template of
      text and [{{name}}] pieces renders to the text with the values
      substituted (C20); a [for] loop over a list renders its body once
      per item in order (C29).
    - [Cli]: the parse of a canonical command line gives back its
      arguments (C24); a repeated option or a first positional other
      than [configure] is a usage error before any effect (C25); [--help]
      anywhere prints the docstring and exits with 0 (C26).
    - [Yaml]: a plain scalar that reads as a name and is not a boolean or
      null word is a string (C27); an integer written in decimal is read
      back as itself (C32).
    - [Setup]: building the scripts of [setup.py] fails unless a file
      [iftool] sits beside it (C28).
    - [Sink]: at every step of a dry run the file system is unchanged and
      printed lines stay printed (C30); at every step each file holds its
      old content, nothing (opened, not yet written, or [file.write]
      failed) or a content the program emits for it (C31).

    ** Bounds and fuel

    Integers are [Z]; IPv4 values are proved to lie in [0, 2^32) and the
    netmask and prefix facts are checked on all 33 prefix lengths by
    evaluation.  The loader's fuel stands for Python's recursion limit:
    each [!include] level uses one unit.  [load_file_terminates] shows
    that a document whose include graph has no cycle ([loadable]) loads
    for some fuel and that more fuel changes nothing; the fuel needed is
    one more than the include depth, so the value 100 of [Scenario]
    (depth 2) is enough.  Cycles fail for every fuel, as they do in
    Python for every limit.  The step relation of [Sink] needs no fuel:
    its theorems are invariants of every reachable configuration.

    ** Not modelled

    The YAML text parser: PyYAML's reader, scanner, parser and composer
    (indentation, flow and block collections, quoting and escapes, block
    scalars, anchors and aliases) are a library the code only calls, and
    the model starts from the composed node tree, whose scalars keep
    their text and whether they were plain; of the typing, the float,
    timestamp, merge and value constructors give [NotModelled] (no
    iftool field needs them), as do [yaml.Loader]'s [python/*] tags.
    docopt's
    parser of usage texts (the option table and the pattern of
    [Cli] are those iftool's docstring yields; docopt's other pattern
    forms are not used by this docstring), Jinja2 beyond interpolation
    and [for] loops (other statements, the [loop] object, whitespace
    control, filters and comments give [NotModelled]), CPython 2's hash order of dicts (the
    model keeps insertion order, which changes only the printed form of
    a dict and the host scan order, stated for every order), path
    normalisation and symbolic links, Python 3 (where [unicode] at line
    231 does not exist), [open()] of a non-ASCII path (its encoding
    depends on the locale: [NotModelled]), Jinja2's global objects
    ([range], [dict], ...: [NotModelled]), and of [setup.py] the
    [PKG-INFO] metadata, [install_requires] and the installation of the
    module (data no code of the repository reads).
*)

From stdpp Require Export base list strings sorting.
From Stdlib Require Export ZArith.

Declare Scope iftool_scope.
Delimit Scope iftool_scope with ift.

(** ** The error monad *)

(** [Ok a] is a normal return, [Err e] an exception propagating. *)
Inductive res (E A : Type) : Type :=
| Ok (a : A)
| Err (e : E).
Arguments Ok {E A} a.
Arguments Err {E A} e.

#[export] Instance res_ret E : MRet (res E) := λ A a, Ok a.
#[export] Instance res_bind E : MBind (res E) :=
  λ A B f r, match r with Ok a => f a | Err e => Err e end.
#[export] Instance res_fmap E : FMap (res E) :=
  λ A B f r, match r with Ok a => Ok (f a) | Err e => Err e end.

(** ** The state and error monad

    A computation gets the world and returns the new world with a result;
    on an exception the world at the time of the raise is kept (Python
    does not roll back side effects). *)
Definition st (S E A : Type) : Type := S → S * res E A.

#[export] Instance st_ret S E : MRet (st S E) := λ A a s, (s, Ok a).
#[export] Instance st_bind S E : MBind (st S E) :=
  λ A B f c s,
    match c s with
    | (s', Ok a) => f a s'
    | (s', Err e) => (s', Err e)
    end.

Definition lift {S E A} (r : res E A) : st S E A := λ s, (s, r).
Definition raise {S E A} (e : E) : st S E A := λ s, (s, Err e).
Definition modify {S E} (f : S → S) : st S E unit := λ s, (f s, Ok ()).
Definition skip {S E} : st S E unit := λ s, (s, Ok ()).

Notation "'do' c1 ;; c2" := (c1 ≫= λ _, c2)
  (at level 100, c1 at next level, right associativity) : iftool_scope.
Open Scope iftool_scope.

(** Python [for x in xs: body] in a monad: runs [body] on each element
    in order, stopping at the first exception. *)
Fixpoint for_each {S E A} (xs : list A) (body : A → st S E unit) : st S E unit :=
  match xs with
  | [] => skip
  | x :: xs' => do body x ;; for_each xs' body
  end.

(** A [for] loop of pure steps that may raise. *)
Fixpoint res_for {E A B} (xs : list A) (f : A → res E B) : res E (list B) :=
  match xs with
  | [] => Ok []
  | x :: xs' => y ← f x; ys ← res_for xs' f; Ok (y :: ys)
  end.

#[export] Instance res_eq_dec {E A} `{EqDecision E, EqDecision A} : EqDecision (res E A).
Proof. solve_decision. Defined.

Create HintDb iftool discriminated.
Create Rewrite HintDb iftool_run.

(** ** Monad laws used as rewriting rules *)

Lemma res_bind_Ok {E A B} (a : A) (f : A → res E B) : (Ok a ≫= f) = f a.
Proof. reflexivity. Qed.

Lemma res_bind_Err {E A B} (e : E) (f : A → res E B) : (Err e ≫= f) = Err e.
Proof. reflexivity. Qed.

Lemma res_bind_inv {E A B} (r : res E A) (f : A → res E B) b :
  (r ≫= f) = Ok b → ∃ a, r = Ok a ∧ f a = Ok b.
Proof. destruct r; simpl; [eauto | discriminate]. Qed.

Lemma st_bind_run {S E A B} (c : st S E A) (f : A → st S E B) s :
  (c ≫= f) s = match c s with
               | (s', Ok a) => f a s'
               | (s', Err e) => (s', Err e)
               end.
Proof. reflexivity. Qed.

Lemma st_ret_run {S E A} (a : A) (s : S) : (mret a : st S E A) s = (s, Ok a).
Proof. reflexivity. Qed.

Lemma lift_run {S E A} (r : res E A) (s : S) : lift r s = (s, r).
Proof. reflexivity. Qed.

Lemma raise_run {S E A} (e : E) (s : S) : (raise e : st S E A) s = (s, Err e).
Proof. reflexivity. Qed.

#[export] Hint Rewrite @res_bind_Ok @res_bind_Err @st_bind_run @st_ret_run
  @lift_run @raise_run : iftool_run.

Lemma res_for_app {E A B} (l1 l2 : list A) (f : A → res E B) :
  res_for (l1 ++ l2) f = r1 ← res_for l1 f; r2 ← res_for l2 f; Ok (r1 ++ r2).
Proof.
  induction l1 as [|x l1 IH]; simpl.
  - by destruct (res_for l2 f).
  - rewrite IH. destruct (f x), (res_for l1 f), (res_for l2 f); done.
Qed.

(** [res_for] succeeds with one result per element. *)
Lemma res_for_length {E A B} (xs : list A) (f : A → res E B) ys :
  res_for xs f = Ok ys → length ys = length xs.
Proof.
  revert ys; induction xs as [|x xs IH]; intros ys H; simpl in H.
  - by injection H as <-.
  - destruct (f x); [|discriminate]; simpl in H.
    destruct (res_for xs f) eqn:Hr; [|discriminate].
    injection H as <-. simpl. by rewrite (IH _ eq_refl).
Qed.

Lemma res_for_Forall2 {E A B} (xs : list A) (f : A → res E B) ys :
  res_for xs f = Ok ys → Forall2 (λ x y, f x = Ok y) xs ys.
Proof.
  revert ys; induction xs as [|x xs IH]; intros ys H; simpl in H.
  - injection H as <-. constructor.
  - destruct (f x) eqn:Hf; [|discriminate]; simpl in H.
    destruct (res_for xs f) eqn:Hr; [|discriminate].
    injection H as <-. constructor; [done|]. by apply IH.
Qed.

Lemma res_for_ext {E A B} (xs : list A) (f g : A → res E B) :
  (∀ x, x ∈ xs → f x = g x) → res_for xs f = res_for xs g.
Proof.
  induction xs as [|x xs IH]; intros Hfg; simpl; [done|].
  rewrite Hfg by (by left). destruct (g x); simpl; [|done].
  by rewrite IH by (intros; apply Hfg; by right).
Qed.

Lemma res_for_Ok_map {E A B} (xs : list A) (g : A → B) :
  res_for (E:=E) xs (λ x, Ok (g x)) = Ok (map g xs).
Proof. induction xs as [|x xs IH]; simpl; [done|]. by rewrite IH. Qed.

(** A state-transformer invariant: a predicate on the world that every
    step of a loop body keeps is kept by the loop, exception or not. *)
Section for_each_invariant.
Context {S E A : Type} (P : S → Prop) (body : A → st S E unit).
Hypothesis body_keeps : ∀ x s, P s → P (fst (body x s)).

Lemma for_each_keeps xs s : P s → P (fst (for_each xs body s)).
Proof.
  revert s; induction xs as [|x xs IH]; intros s Hs; simpl; [done|].
  rewrite st_bind_run. pose proof (body_keeps x s Hs) as Hb.
  destruct (body x s) as [s' [[]|e]]; simpl in *; auto.
Qed.
End for_each_invariant.

(** ** Checking a property on a range of integers by computation *)
Lemma Z_range_Forall (P : Z → Prop) (lo : Z) (n : nat) :
  Forall P (map (λ i, (lo + Z.of_nat i)%Z) (seq 0 n)) →
  ∀ z, (lo ≤ z < lo + Z.of_nat n)%Z → P z.
Proof.
  intros HF z Hz. rewrite Forall_forall in HF.
  replace z with (lo + Z.of_nat (Z.to_nat (z - lo)))%Z by lia.
  apply HF, list_elem_of_In, in_map_iff. exists (Z.to_nat (z - lo)).
  split; [done|]. apply in_seq. lia.
Qed.

(** ** Sorting

    Python's [sorted] is a stable sort; on a total preorder whose
    equivalent elements are equal it has a unique result, which stdpp's
    [merge_sort] computes.  The lemma below is what makes the output of
    [sorted] independent of the order the input came in. *)
Section sorting.
Context {A : Type} (R : relation A) `{∀ x y, Decision (R x y)}
  `{!Transitive R} `{!Total R}.

Lemma merge_sort_perm_eq (l1 l2 : list A) :
  (∀ x y, x ∈ l1 → y ∈ l1 → R x y → R y x → x = y) →
  l1 ≡ₚ l2 → merge_sort R l1 = merge_sort R l2.
Proof.
  intros Hasym Hp. eapply (Sorted_unique_strong R).
  - intros x y Hx Hy ??. apply Hasym; [..|done|done].
    + by rewrite <-(merge_sort_Permutation R l1).
    + rewrite Hp. by rewrite <-(merge_sort_Permutation R l2).
  - apply Sorted_merge_sort; apply _.
  - apply Sorted_merge_sort; apply _.
  - by rewrite !merge_sort_Permutation.
Qed.

Lemma merge_sort_elem_of (l : list A) x : x ∈ merge_sort R l ↔ x ∈ l.
Proof. by rewrite merge_sort_Permutation. Qed.
End sorting.
