(* ===== verification/PyStr.v ===== *)
(** * The Python string and path operations iftool calls

    [py_split] is [str.split(sep)] for a one-character separator and
    [short_name] the expression [s.split('.')[0]] of the host lookup
    (src/iftool.py:101); [splitlines] is [unicode.splitlines()] used by the
    dry-run preview (line 121); [path_join] and [path_dirname] are
    [os.path.join] (line 112) and [os.path.split(...)[0]] (line 71) of
    Python 2's [posixpath].  Strings are Stdlib strings of 8-bit
    characters, read as the code points U+0000 to U+00FF. *)

From S2P Require Import Prelude.
From stdpp Require Import pretty.
From Stdlib Require Import Ascii.
Import String.

Local Open Scope string_scope.

Module PyStr.

(** ** [str.split(sep)] with a one-character separator *)

(** Every occurrence of [c] ends a field; the result always has at least
    one field (the empty string splits to one empty field). *)
Fixpoint py_split (c : ascii) (s : string) : list string :=
  match s with
  | EmptyString => [EmptyString]
  | String a s' =>
      let r := py_split c s' in
      if Ascii.eqb a c then EmptyString :: r
      else match r with
           | [] => [String a EmptyString]
           | x :: rs => String a x :: rs
           end
  end.

(** [s.split('.')[0]]: the list is never empty, so [[0]] never raises. *)
Definition short_name (s : string) : string :=
  match py_split "." s with
  | [] => EmptyString
  | x :: _ => x
  end.

(** The text before the first [c] (the whole string when there is none). *)
Fixpoint prefix_before (c : ascii) (s : string) : string :=
  match s with
  | EmptyString => EmptyString
  | String a s' => if Ascii.eqb a c then EmptyString else String a (prefix_before c s')
  end.

(** ** [unicode.splitlines()] *)

(** The line boundaries of [unicode.splitlines] among U+0000..U+00FF:
    LF, VT, FF, CR, FS, GS, RS and NEL (CR LF counts as one boundary). *)
Definition is_line_break (a : ascii) : bool :=
  match nat_of_ascii a with
  | 10 | 11 | 12 | 13 | 28 | 29 | 30 | 133 => true
  | _ => false
  end.

Fixpoint splitlines (s : string) : list string :=
  match s with
  | EmptyString => []
  | String a s' =>
      if Ascii.eqb a "013"%char then
        match s' with
        | String b s'' => if Ascii.eqb b "010"%char then EmptyString :: splitlines s''
                         else EmptyString :: splitlines s'
        | EmptyString => [EmptyString]
        end
      else if is_line_break a then EmptyString :: splitlines s'
      else match splitlines s' with
           | [] => [String a EmptyString]
           | l :: ls => String a l :: ls
           end
  end.

(** ** [posixpath] *)

Definition starts_with_slash (s : string) : bool :=
  match s with String a _ => Ascii.eqb a "/" | EmptyString => false end.

Fixpoint ends_with_slash (s : string) : bool :=
  match s with
  | EmptyString => false
  | String a EmptyString => Ascii.eqb a "/"
  | String _ s' => ends_with_slash s'
  end.

(** [os.path.join(a, b)] of Python 2's posixpath:
    [if b.startswith('/'): path = b
     elif path == '' or path.endswith('/'): path += b
     else: path += '/' + b] *)
Definition path_join (a b : string) : string :=
  if starts_with_slash b then b
  else if String.eqb a EmptyString || ends_with_slash a then a +:+ b
  else a +:+ "/" +:+ b.

(** [p[:i]] and [p[i:]] for [i = p.rfind('/') + 1]. *)
Fixpoint split_last_slash (s : string) : string * string :=
  match s with
  | EmptyString => (EmptyString, EmptyString)
  | String a s' =>
      let (h, t) := split_last_slash s' in
      if String.eqb h EmptyString then
        if Ascii.eqb a "/" then ("/", t) else (EmptyString, String a t)
      else (String a h, t)
  end.

Fixpoint all_slashes (s : string) : bool :=
  match s with
  | EmptyString => true
  | String a s' => Ascii.eqb a "/" && all_slashes s'
  end.

(** [head.rstrip('/')] *)
Fixpoint rstrip_slash (s : string) : string :=
  match s with
  | EmptyString => EmptyString
  | String a s' =>
      let r := rstrip_slash s' in
      if String.eqb r EmptyString && Ascii.eqb a "/" then EmptyString else String a r
  end.

(** [os.path.split(p)[0]]:
    [if head and head != '/'*len(head): head = head.rstrip('/')] *)
Definition path_dirname (p : string) : string :=
  let (head, _) := split_last_slash p in
  if negb (String.eqb head EmptyString) && negb (all_slashes head)
  then rstrip_slash head else head.

(** ** Python 2 text

    The texts of the program are byte strings ([str]: argv, the host
    name, the constants of the code) or unicode strings (every output of
    Jinja2 and every [%]-formatting of one).  A string of the model is a
    sequence of code points U+0000..U+00FF; converting a unicode string
    to bytes ([str(text)], [file.write]) uses Python 2's default ASCII
    codec, which accepts exactly the code points below 128. *)
Fixpoint is_ascii (s : string) : bool :=
  match s with
  | EmptyString => true
  | String a s' => Nat.ltb (nat_of_ascii a) 128 && is_ascii s'
  end.

(** ** [str()] of an integer: an optional minus sign and the decimal
    digits, as stdpp's [pretty] prints them. *)
Definition int_str (z : Z) : string := pretty z.

(** [sep.join(l)] *)
Fixpoint join_with (sep : string) (l : list string) : string :=
  match l with
  | [] => EmptyString
  | [x] => x
  | x :: l' => x +:+ sep +:+ join_with sep l'
  end.

(** The byte of a 32-bit value starting at bit [k]. *)
Definition octet (a k : Z) : Z := Z.land (Z.shiftr a k) 255.

(** [str(IPv4Address(a))] is ['.'.join(str(b) for b in packed)]: the
    four bytes of the value in decimal, most significant first. *)
Definition ipv4_str (a : Z) : string :=
  join_with "." (map (λ k, int_str (octet a k)) [24; 16; 8; 0]%Z).

(** [c not in s] *)
Fixpoint lacks (c : ascii) (s : string) : bool :=
  match s with
  | EmptyString => true
  | String a s' => negb (Ascii.eqb a c) && lacks c s'
  end.

(** ** Lemmas *)

Lemma lacks_app c s1 s2 : lacks c (s1 +:+ s2) = lacks c s1 && lacks c s2.
Proof.
  induction s1 as [|a s1 IH]; simpl; [done|]. by rewrite IH, andb_assoc.
Qed.

Lemma py_split_lacks c s : lacks c s = true → py_split c s = [s].
Proof.
  induction s as [|a s IH]; simpl; [done|].
  intros [Ha Hs]%andb_true_iff. apply negb_true_iff in Ha.
  by rewrite Ha, IH.
Qed.

(** Splitting at the first separator. *)
Lemma py_split_app c s1 s2 :
  lacks c s1 = true → py_split c (s1 +:+ String c s2) = s1 :: py_split c s2.
Proof.
  induction s1 as [|a s1 IH]; simpl.
  - by rewrite Ascii.eqb_refl.
  - intros [Ha Hs]%andb_true_iff. apply negb_true_iff in Ha.
    by rewrite Ha, IH.
Qed.

Lemma str_cons_app c s : String c EmptyString +:+ s = String c s.
Proof. reflexivity. Qed.

Lemma app_String_nonempty s1 c s2 : String.eqb (s1 +:+ String c s2) EmptyString = false.
Proof. by destruct s1. Qed.

(** Splitting a join at its separator gives the pieces back. *)
Lemma py_split_join c l :
  l ≠ [] → Forall (λ s, lacks c s = true) l →
  py_split c (join_with (String c EmptyString) l) = l.
Proof.
  induction l as [|x [|y l] IH]; intros Hne Hl; [done| |].
  - inversion Hl. by apply py_split_lacks.
  - inversion Hl; subst. simpl join_with. rewrite str_cons_app, py_split_app by done.
    f_equal. by apply IH.
Qed.

Lemma lacks_join c sep l :
  lacks c sep = true → Forall (λ s, lacks c s = true) l → lacks c (join_with sep l) = true.
Proof.
  intros Hsep. induction l as [|x [|y l] IH]; intros Hl; [done|by inversion Hl|].
  apply Forall_cons in Hl as [Hx Hl].
  change (join_with sep (x :: y :: l)) with (x +:+ sep +:+ join_with sep (y :: l)).
  by rewrite !lacks_app, Hx, Hsep, IH.
Qed.

(** The first field of [py_split] is the text before the first
    separator, whatever follows. *)
Lemma py_split_head c s : ∃ rest, py_split c s = prefix_before c s :: rest.
Proof.
  induction s as [|a s [rest IH]]; simpl; [by exists []|].
  rewrite IH. destruct (Ascii.eqb a c); eauto.
Qed.

Lemma short_name_prefix s : short_name s = prefix_before "." s.
Proof. unfold short_name. by destruct (py_split_head "." s) as [? ->]. Qed.

(** ** Appending and concatenating *)

Lemma string_app_assoc s1 s2 s3 : (s1 +:+ s2) +:+ s3 = s1 +:+ (s2 +:+ s3).
Proof. induction s1 as [|a s1 IH]; [done|]. exact (f_equal (String a) IH). Qed.

Lemma string_app_nil_r s : s +:+ EmptyString = s.
Proof. induction s as [|a s IH]; [done|]. exact (f_equal (String a) IH). Qed.

Lemma foldr_string_app l z : foldr String.append z l = foldr String.append EmptyString l +:+ z.
Proof.
  induction l as [|x l IH]; [done|]. simpl. rewrite IH. symmetry. apply string_app_assoc.
Qed.

(** [''.join(l)] *)
Lemma string_concat_empty l : String.concat EmptyString l = foldr String.append EmptyString l.
Proof.
  induction l as [|x [|y l] IH]; [done|simpl; by rewrite string_app_nil_r|].
  change (x +:+ (EmptyString +:+ String.concat EmptyString (y :: l)) =
          x +:+ foldr String.append EmptyString (y :: l)). by rewrite IH.
Qed.

Lemma chars_app s1 s2 :
  Stdlib.Strings.String.list_ascii_of_string (s1 +:+ s2) =
    (Stdlib.Strings.String.list_ascii_of_string s1 ++ Stdlib.Strings.String.list_ascii_of_string s2)%list.
Proof. induction s1 as [|a s1 IH]; [done|]. exact (f_equal (cons a) IH). Qed.

Lemma of_chars_app cs1 cs2 :
  Stdlib.Strings.String.string_of_list_ascii (cs1 ++ cs2)%list = Stdlib.Strings.String.string_of_list_ascii cs1 +:+ Stdlib.Strings.String.string_of_list_ascii cs2.
Proof. induction cs1 as [|a cs1 IH]; [done|]. exact (f_equal (String a) IH). Qed.

Lemma lacks_chars c s : Forall (λ a, a ≠ c) (Stdlib.Strings.String.list_ascii_of_string s) → lacks c s = true.
Proof.
  induction s as [|a s IH]; simpl; [done|]. intros [Ha Hs]%Forall_cons.
  apply andb_true_iff. split; [|by apply IH]. apply negb_true_iff. by apply Ascii.eqb_neq.
Qed.

(** A text without line boundaries is one line (or none when empty). *)
Lemma splitlines_plain s :
  Forall (λ a, is_line_break a = false) (Stdlib.Strings.String.list_ascii_of_string s) →
  splitlines s = if String.eqb s EmptyString then [] else [s].
Proof.
  induction s as [|a s IH]; [done|]. intros [Ha Hs]%Forall_cons. simpl.
  assert (Ascii.eqb a "013" = false) as Hcr by (apply Ascii.eqb_neq; intros ->; done).
  rewrite Hcr, Ha, IH by done. by destruct s.
Qed.

(** ** ASCII text *)

Lemma string_app_cons a s1 s2 : String a s1 +:+ s2 = String a (s1 +:+ s2).
Proof. reflexivity. Qed.

Lemma is_ascii_app s1 s2 : is_ascii (s1 +:+ s2) = is_ascii s1 && is_ascii s2.
Proof. induction s1 as [|a s1 IH]; simpl; [done|]. by rewrite IH, andb_assoc. Qed.

#[export] Hint Rewrite is_ascii_app : iftool_run.

(** Joining a relative name to a directory that does not end in [/]. *)
Lemma path_join_relative a b :
  a ≠ EmptyString → ends_with_slash a = false → starts_with_slash b = false →
  path_join a b = a +:+ "/" +:+ b.
Proof. intros Ha He Hb. unfold path_join. rewrite Hb, He. by destruct (String.eqb_spec a EmptyString). Qed.

Lemma starts_with_slash_app a b : a ≠ EmptyString → starts_with_slash (a +:+ b) = starts_with_slash a.
Proof. by destruct a. Qed.

Lemma is_ascii_path_join a b : is_ascii a = true → is_ascii b = true → is_ascii (path_join a b) = true.
Proof.
  intros Ha Hb. unfold path_join.
  destruct (starts_with_slash b); [done|]. destruct (_ || _); rewrite !is_ascii_app, ?Ha, ?Hb; done.
Qed.

Lemma is_ascii_Forall s :
  is_ascii s = true ↔ Forall (λ a, nat_of_ascii a < 128) (Stdlib.Strings.String.list_ascii_of_string s).
Proof.
  induction s as [|a s IH]; simpl; [split; [constructor|done]|].
  rewrite andb_true_iff, Nat.ltb_lt, Forall_cons, IH. done.
Qed.

(** Every character of a line of [s] is a character of [s]. *)
Lemma splitlines_chars (P : ascii → Prop) s :
  Forall P (Stdlib.Strings.String.list_ascii_of_string s) →
  Forall (λ l, Forall P (Stdlib.Strings.String.list_ascii_of_string l)) (splitlines s).
Proof.
  remember (String.length s) as n eqn:Hn. revert s Hn.
  induction n as [n IH] using lt_wf_ind. intros [|a s] Hn Hs; simpl; [constructor|].
  simpl in Hs. apply Forall_cons in Hs as [Ha Hs]. simpl in Hn.
  destruct (Ascii.eqb a "013"%char).
  - destruct s as [|b s'']; [repeat constructor|].
    simpl in Hs. apply Forall_cons in Hs as [Hb Hs''].
    destruct (Ascii.eqb b "010"%char); constructor; try constructor.
    + apply (IH (String.length s'')); [simpl in Hn; lia|done|done].
    + apply (IH (String.length (String b s''))); [lia|done|simpl; by constructor].
  - destruct (is_line_break a).
    + constructor; [constructor|]. apply (IH (String.length s)); [lia|done|done].
    + pose proof (IH (String.length s) ltac:(lia) s eq_refl Hs) as IHs.
      destruct (splitlines s) as [|l ls]; [by repeat constructor|].
      apply Forall_cons in IHs as [Hl Hls]. constructor; [|done]. simpl. by constructor.
Qed.

(** The lines of an ASCII text are ASCII. *)
Lemma splitlines_ascii s : is_ascii s = true → Forall (λ l, is_ascii l = true) (splitlines s).
Proof.
  intros Hs%is_ascii_Forall. eapply Forall_impl; [by apply splitlines_chars|].
  intros l Hl. by apply is_ascii_Forall.
Qed.

Definition lf : string := String "010"%char EmptyString.

(** A line feed after a last character that is not a line boundary adds
    no line. *)
Lemma splitlines_lf_end s c :
  is_line_break c = false → splitlines (s +:+ String c lf) = splitlines (s +:+ String c EmptyString).
Proof.
  intros Hc. assert (Ascii.eqb c "013"%char = false) as Hcr.
  { apply Ascii.eqb_neq. intros ->. discriminate. }
  remember (String.length s) as n eqn:Hn. revert s Hn.
  induction n as [n IH] using lt_wf_ind. intros [|a s] Hn; simpl.
  - by rewrite Hcr, Hc.
  - simpl in Hn. destruct (Ascii.eqb a "013"%char).
    + destruct s as [|b t]; rewrite ?string_app_cons.
      * simpl. assert (Ascii.eqb c "010"%char = false) as -> by (apply Ascii.eqb_neq; intros ->; discriminate).
        by rewrite Hcr, Hc.
      * destruct (Ascii.eqb b "010"%char).
        -- f_equal. apply (IH (String.length t)); [simpl in Hn; lia|done].
        -- f_equal. exact (IH (String.length (String b t)) ltac:(lia) (String b t) eq_refl).
    + destruct (is_line_break a).
      * f_equal. apply (IH (String.length s)); [lia|done].
      * by rewrite (IH (String.length s)) by (done || lia).
Qed.

(** [\n] written as [\r\n]. *)
Fixpoint lf_to_crlf (s : string) : string :=
  match s with
  | EmptyString => EmptyString
  | String a s' =>
      if Ascii.eqb a "010"%char then String "013"%char (String "010"%char (lf_to_crlf s'))
      else String a (lf_to_crlf s')
  end.

Lemma splitlines_crlf s :
  Forall (λ a, a ≠ "013"%char) (Stdlib.Strings.String.list_ascii_of_string s) →
  splitlines (lf_to_crlf s) = splitlines s.
Proof.
  induction s as [|a s IH]; simpl; [done|]. intros [Ha Hs]%Forall_cons.
  destruct (Ascii.eqb_spec a "010"%char) as [->|Hlf]; simpl; [by rewrite IH|].
  rewrite (proj2 (Ascii.eqb_neq _ _) Ha). destruct (is_line_break a); by rewrite IH.
Qed.

End PyStr.
