(* ===== verification/PyVal.v ===== *)
(** * Python values, exceptions and the built-ins iftool applies to them

    [pyval] is the Python object a YAML document loads to (None, bool, int,
    str, list, dict) plus the [IPv4Address] objects the interface renderer
    passes to its template.  A dict is the list of its (key, value) pairs
    in iteration order.  [getitem] is subscription [x[k]], [py_iter] the
    iteration of a [for] loop, [truthy] the truth value of an [if],
    [py_sorted] the built-in [sorted] under Python 2's ordering of the
    scalar values the code sorts (dict keys), and [py_str] the conversion
    [str()]/[unicode()] used by the template engine and by
    [unicode(ifnames[ifname]['subnet'])] (src/iftool.py:231).  Floats are
    not modelled. *)

From S2P Require Import Prelude PyStr.
From Stdlib Require Import Ascii.
Import String.

Local Open Scope string_scope.

Module PyVal.
Import PyStr.

#[warnings="-register-all"]
Inductive pyval : Type :=
| PNone
| PBool (b : bool)
| PInt (z : Z)
| PStr (s : string)
| PList (l : list pyval)
| PDict (d : list (pyval * pyval))
| PAddr (a : Z).

(** The exceptions the modelled code raises or lets through.
    [AddressValueError] and [NetmaskValueError] are those of
    [ipaddress]; [SystemExit] is [sys.exit]; [RecursionError] is the
    [RuntimeError] of an exhausted recursion limit; [NotModelled] marks
    an input outside the model (it never arises from the inputs the
    theorems quantify over); [DocoptExit] is docopt's usage error, a
    [SystemExit] whose message goes to stderr with exit status 1. *)
Inductive exn : Type :=
| KeyError (k : pyval)
| IndexError
| TypeError (msg : string)
| AttributeError (msg : string)
| AddressValueError (msg : string)
| NetmaskValueError (msg : string)
| ValueError (msg : string)
| IOError (path : string)
| SystemExit (code : Z)
| RecursionError
| TemplateError (msg : string)
| ConstructorError (msg : string)
| NotModelled (what : string)
| DocoptExit (msg : string)
| UnicodeEncodeError (text : string)
| UnicodeDecodeError (text : string).

#[export] Instance pyval_eq_dec : EqDecision pyval.
Proof.
  refine (fix go x y {struct x} : Decision (x = y) :=
    match x, y with
    | PNone, PNone => left _
    | PBool a, PBool b => cast_if (decide (a = b))
    | PInt a, PInt b => cast_if (decide (a = b))
    | PStr a, PStr b => cast_if (decide (a = b))
    | PAddr a, PAddr b => cast_if (decide (a = b))
    | PList a, PList b => cast_if (@list_eq_dec _ go a b)
    | PDict a, PDict b =>
        cast_if (@list_eq_dec _ (λ p q, @prod_eq_dec _ go _ go p q) a b)
    | _, _ => right _
    end); congruence.
Defined.

#[export] Instance exn_eq_dec : EqDecision exn.
Proof. solve_decision. Defined.

Abbreviation except := (res exn).

Abbreviation chars := Stdlib.Strings.String.list_ascii_of_string.
Abbreviation of_chars := Stdlib.Strings.String.string_of_list_ascii.

(** ** Equality of keys and hashing *)

(** bool is a subclass of int: [True == 1] and [hash(True) == hash(1)]. *)
Definition num_of (v : pyval) : option Z :=
  match v with
  | PBool b => Some (Z.b2z b)
  | PInt z => Some z
  | _ => None
  end.

Definition is_hashable (v : pyval) : bool :=
  match v with PList _ | PDict _ => false | _ => true end.

(** [x == y] on hashable values, the test a dict lookup makes. *)
Definition key_eqb (x y : pyval) : bool :=
  match num_of x, num_of y with
  | Some a, Some b => Z.eqb a b
  | Some _, None | None, Some _ => false
  | None, None =>
      match x, y with
      | PNone, PNone => true
      | PStr a, PStr b => String.eqb a b
      | PAddr a, PAddr b => Z.eqb a b
      | _, _ => false
      end
  end.

Fixpoint dict_lookup (d : list (pyval * pyval)) (k : pyval) : option pyval :=
  match d with
  | [] => None
  | (k', v) :: d' => if key_eqb k k' then Some v else dict_lookup d' k
  end.

(** [d[k] = v]: an existing equal key keeps its place and its key object,
    a new key goes at the end. *)
Fixpoint dict_setitem (d : list (pyval * pyval)) (k v : pyval) : list (pyval * pyval) :=
  match d with
  | [] => [(k, v)]
  | (k', v') :: d' =>
      if key_eqb k k' then (k', v) :: d' else (k', v') :: dict_setitem d' k v
  end.

(** ** Subscription [c[k]] *)

(** Python's sequence indexing: a negative index counts from the end. *)
Definition seq_index {A} (l : list A) (i : Z) : option A :=
  let j := if Z.ltb i 0 then (Z.of_nat (length l) + i)%Z else i in
  if Z.ltb j 0 then None else nth_error l (Z.to_nat j).

Definition getitem (c k : pyval) : except pyval :=
  match c with
  | PDict d =>
      if is_hashable k then
        match dict_lookup d k with Some v => Ok v | None => Err (KeyError k) end
      else Err (TypeError "unhashable type")
  | PList l =>
      match num_of k with
      | Some i => match seq_index l i with Some v => Ok v | None => Err IndexError end
      | None => Err (TypeError "list indices must be integers")
      end
  | PStr s =>
      match num_of k with
      | Some i =>
          match seq_index (chars s) i with
          | Some a => Ok (PStr (String a EmptyString))
          | None => Err IndexError
          end
      | None => Err (TypeError "string indices must be integers")
      end
  | _ => Err (TypeError "object has no attribute '__getitem__'")
  end.

(** [c['name']] for a literal key, as every subscript of the code is. *)
Definition getkey (c : pyval) (name : string) : except pyval := getitem c (PStr name).

(** ** Iteration: [for x in v] *)

Definition py_iter (v : pyval) : except (list pyval) :=
  match v with
  | PDict d => Ok (map fst d)
  | PList l => Ok l
  | PStr s => Ok (map (λ a, PStr (String a EmptyString)) (chars s))
  | _ => Err (TypeError "object is not iterable")
  end.

(** ** Truth value: [if v:] *)

Definition truthy (v : pyval) : bool :=
  match v with
  | PNone => false
  | PBool b => b
  | PInt z => negb (Z.eqb z 0)
  | PStr s => negb (String.eqb s EmptyString)
  | PList l => negb (bool_decide (l = []))
  | PDict d => negb (bool_decide (d = []))
  | PAddr _ => true
  end.

(** ** Python 2 ordering of scalars and [sorted]

    CPython 2 puts None first, then numbers (bool and int compared by
    value), then strings (compared byte by byte).  Lists, dicts and
    addresses are never sorted by the code: [py_sorted] refuses them. *)
Definition py_rank (v : pyval) : nat :=
  match v with
  | PNone => 0
  | PBool _ | PInt _ => 1
  | PStr _ => 2
  | _ => 3
  end.

Definition py_le (x y : pyval) : Prop :=
  py_rank x < py_rank y ∨
  (py_rank x = py_rank y ∧
   match num_of x, num_of y, x, y with
   | Some a, Some b, _, _ => (a ≤ b)%Z
   | _, _, PStr a, PStr b => String.le a b
   | _, _, _, _ => True
   end).

#[export] Instance py_le_dec : RelDecision py_le.
Proof.
  intros x y. unfold py_le.
  destruct (num_of x), (num_of y), x, y; apply _.
Defined.

Definition py_is_scalar (v : pyval) : bool := Nat.ltb (py_rank v) 3.

(** One step of a stable insertion sort: [x] goes after every element
    not greater than it. *)
Fixpoint insert_sorted (x : pyval) (l : list pyval) : list pyval :=
  match l with
  | [] => [x]
  | y :: l' => if decide (py_le y x) then y :: insert_sorted x l' else x :: y :: l'
  end.

Definition sort_values (l : list pyval) : list pyval :=
  fold_left (λ acc x, insert_sorted x acc) l [].

(** [sorted(v)]: iterate [v], then sort the elements. *)
Definition py_sorted (v : pyval) : except (list pyval) :=
  xs ← py_iter v;
  if forallb py_is_scalar xs then Ok (sort_values xs)
  else Err (NotModelled "sorted() of non-scalar values").

(** ** [str()] and [repr()] *)

Definition hex_digit (n : nat) : ascii :=
  ascii_of_nat (if Nat.ltb n 10 then 48 + n else 87 + n).

(** Python 2 [repr] of a byte string: single quotes unless the text has
    a single quote and no double quote; backslash escapes for the quote,
    the backslash, tab, newline and carriage return; [\xhh] for the other
    bytes outside 0x20..0x7e. *)
Definition repr_char (q : ascii) (a : ascii) : string :=
  let n := nat_of_ascii a in
  if Ascii.eqb a q || Ascii.eqb a "\" then String "\" (String a EmptyString)
  else if Nat.eqb n 9 then "\t"
  else if Nat.eqb n 10 then "\n"
  else if Nat.eqb n 13 then "\r"
  else if Nat.ltb n 32 || Nat.leb 127 n then
    String "\" (String "x" (String (hex_digit (n / 16)) (String (hex_digit (n mod 16)) EmptyString)))
  else String a EmptyString.

Definition str_repr (s : string) : string :=
  let cs := chars s in
  let dq := ascii_of_nat 34 in
  let q := if existsb (Ascii.eqb "'") cs && negb (existsb (Ascii.eqb dq) cs)
           then dq else "'"%char in
  String q (foldr (λ a acc, repr_char q a +:+ acc) (String q EmptyString) cs).

Definition bool_str (b : bool) : string := if b then "True" else "False".

Fixpoint py_repr (v : pyval) : string :=
  match v with
  | PNone => "None"
  | PBool b => bool_str b
  | PInt z => int_str z
  | PStr s => str_repr s
  | PList l => "[" +:+ join_with ", " (map py_repr l) +:+ "]"
  | PDict d =>
      "{" +:+ join_with ", " (map (λ kv, py_repr kv.1 +:+ ": " +:+ py_repr kv.2) d) +:+ "}"
  | PAddr a => "IPv4Address('" +:+ ipv4_str a +:+ "')"
  end.

(** [str(v)] (and [unicode(v)]): the text itself for strings, the
    dotted quad for addresses, [repr] otherwise. *)
Definition py_str (v : pyval) : string :=
  match v with
  | PStr s => s
  | PAddr a => ipv4_str a
  | _ => py_repr v
  end.

(** A dict as the YAML loader builds it: hashable keys, pairwise
    different under [==]. *)
Fixpoint keys_distinct (ks : list pyval) : bool :=
  match ks with
  | [] => true
  | k :: ks' => negb (existsb (key_eqb k) ks') && keys_distinct ks'
  end.

Definition dict_wf (d : list (pyval * pyval)) : bool :=
  forallb is_hashable (map fst d) && keys_distinct (map fst d).

(** A value as the YAML loader builds it: every dict in it, at any
    depth, has hashable keys pairwise different under [==]. *)
Fixpoint py_wf (v : pyval) : bool :=
  match v with
  | PList vs => forallb py_wf vs
  | PDict d => dict_wf d && forallb (λ '(_, x), py_wf x) d
  | _ => true
  end.

(** ** Python 2 bytes and unicode *)

(** [str(text)] of a unicode [text]: encoded with the ASCII codec. *)
Definition str_unicode (s : string) : except string :=
  if is_ascii s then Ok s else Err (UnicodeEncodeError s).

(** [os.path.join(a, b)] with [a] a byte string and [b] unicode: the
    concatenations of [posixpath.join] decode [a] with the ASCII codec,
    and there is none when [b] is absolute. *)
Definition path_join_unicode (a b : string) : except string :=
  if starts_with_slash b then Ok b
  else if is_ascii a then Ok (path_join a b) else Err (UnicodeDecodeError a).

Lemma str_unicode_ascii s : is_ascii s = true → str_unicode s = Ok s.
Proof. unfold str_unicode. by intros ->. Qed.

Lemma str_unicode_Ok s c : str_unicode s = Ok c → c = s.
Proof. unfold str_unicode. by destruct (is_ascii s); intros [=]. Qed.

Lemma path_join_unicode_ascii a b : is_ascii a = true → path_join_unicode a b = Ok (path_join a b).
Proof.
  unfold path_join_unicode, path_join. intros Ha. destruct (starts_with_slash b); [done|]. by rewrite Ha.
Qed.

(** ** Lemmas on key equality *)

Lemma key_eqb_sym x y : key_eqb x y = key_eqb y x.
Proof.
  destruct x, y; simpl; try done; try apply Z.eqb_sym.
  apply Stdlib.Strings.String.eqb_sym.
Qed.

Lemma existsb_key_eqb k ks y :
  y ∈ ks → key_eqb k y = true → existsb (key_eqb k) ks = true.
Proof. intros Hy Hk. apply existsb_exists. exists y. by rewrite <-list_elem_of_In. Qed.

Lemma keys_distinct_eq ks x y :
  keys_distinct ks = true → x ∈ ks → y ∈ ks → key_eqb x y = true → x = y.
Proof.
  induction ks as [|k ks IH]; simpl; [by intros _ ?%elem_of_nil|].
  intros [Hk Hd]%andb_true_iff Hx Hy Hxy. apply negb_true_iff in Hk.
  rewrite elem_of_cons in Hx, Hy.
  destruct Hx as [->|Hx], Hy as [->|Hy]; [done| | |by apply IH].
  - by rewrite (existsb_key_eqb _ _ y) in Hk.
  - rewrite key_eqb_sym in Hxy. by rewrite (existsb_key_eqb _ _ x) in Hk.
Qed.

Lemma key_eqb_trans x y z : key_eqb x y = true → key_eqb y z = true → key_eqb x z = true.
Proof.
  unfold key_eqb, num_of. destruct x, y, z; cbn; try done;
    rewrite ?Z.eqb_eq, ?Stdlib.Strings.String.eqb_eq; intros; subst; lia || done.
Qed.

Lemma existsb_perm {A} (f : A → bool) l1 l2 : l1 ≡ₚ l2 → existsb f l1 = existsb f l2.
Proof.
  induction 1; simpl; [done|by f_equal|by rewrite !orb_assoc, (orb_comm (f y))|congruence].
Qed.

Lemma forallb_perm {A} (f : A → bool) l1 l2 : l1 ≡ₚ l2 → forallb f l1 = forallb f l2.
Proof.
  induction 1; simpl; [done|by f_equal|by rewrite !andb_assoc, (andb_comm (f y))|congruence].
Qed.

Lemma keys_distinct_perm l1 l2 : l1 ≡ₚ l2 → keys_distinct l1 = keys_distinct l2.
Proof.
  induction 1 as [|x l1 l2 Hp IH|x y l|l1 l2 l3 _ IH1 _ IH2]; simpl.
  - done.
  - by rewrite (existsb_perm _ _ _ Hp), IH.
  - rewrite (key_eqb_sym y x).
    destruct (key_eqb x y), (existsb (key_eqb x) l), (existsb (key_eqb y) l); done.
  - congruence.
Qed.

(** In a dict with distinct keys, [d[k]] is the value paired with the
    one key equal to [k], wherever it is. *)
Lemma dict_lookup_Some d k v :
  keys_distinct (map fst d) = true →
  dict_lookup d k = Some v ↔ ∃ k', (k', v) ∈ d ∧ key_eqb k k' = true.
Proof.
  induction d as [|[k0 v0] d IH]; simpl.
  { split; [done|]. by intros (? & ?%elem_of_nil & _). }
  intros [Hk0 Hd]%andb_true_iff. apply negb_true_iff in Hk0.
  destruct (key_eqb k k0) eqn:Hkk0; setoid_rewrite elem_of_cons.
  - split; [intros [= <-]; eauto|].
    intros (k' & [[= -> ->]|Hin] & Hkk'); [done|].
    rewrite (existsb_key_eqb _ _ k') in Hk0; [done| |].
    + apply list_elem_of_In, in_map_iff. exists (k', v). split; [done|by apply list_elem_of_In].
    + apply (key_eqb_trans _ k); [by rewrite key_eqb_sym|done].
  - rewrite IH by done. split; [naive_solver|].
    intros (k' & [[= -> ->]|Hin] & Hkk'); [congruence|eauto].
Qed.

Lemma dict_lookup_None d k :
  dict_lookup d k = None ↔ ∀ k' v, (k', v) ∈ d → key_eqb k k' = false.
Proof.
  induction d as [|[k0 v0] d IH]; simpl.
  { split; [|done]. by intros _ ?? ?%elem_of_nil. }
  setoid_rewrite elem_of_cons. destruct (key_eqb k k0) eqn:Hkk0.
  - split; [done|]. intros H. by rewrite (H k0 v0) in Hkk0; [|left].
  - rewrite IH. naive_solver.
Qed.

Lemma dict_lookup_perm d1 d2 k :
  keys_distinct (map fst d1) = true → d1 ≡ₚ d2 → dict_lookup d1 k = dict_lookup d2 k.
Proof.
  intros Hd Hp.
  assert (keys_distinct (map fst d2) = true) as Hd2.
  { by rewrite <-(keys_distinct_perm _ _ (Permutation_map fst Hp)). }
  destruct (dict_lookup d2 k) as [v|] eqn:E2.
  - apply dict_lookup_Some; [done|]. apply dict_lookup_Some in E2 as (k' & Hin & ?); [|done].
    exists k'. split; [by rewrite Hp|done].
  - apply dict_lookup_None. intros k' v Hin. rewrite dict_lookup_None in E2.
    apply (E2 k' v). by rewrite <-Hp.
Qed.

(** Subscription and [sorted] do not see the order of a dict. *)
Lemma getitem_perm d1 d2 k :
  keys_distinct (map fst d1) = true → d1 ≡ₚ d2 →
  getitem (PDict d1) k = getitem (PDict d2) k.
Proof. intros. simpl. by rewrite (dict_lookup_perm d1 d2). Qed.

(** ** The order: a total preorder whose ties are equal keys *)

Lemma py_le_same_rank (x y : pyval) : py_rank x = py_rank y →
   (match num_of x, num_of y, x, y with
   | Some a, Some b, _, _ => (a ≤ b)%Z
   | _, _, PStr a, PStr b => String.le a b
   | _, _, _, _ => True
   end) → py_le x y.
Proof. by right. Qed.

Lemma py_le_num x y a b :
  num_of x = Some a → num_of y = Some b → py_le x y ↔ (a ≤ b)%Z.
Proof.
  destruct x, y; simpl; intros Hx Hy; simplify_eq; unfold py_le; simpl; lia.
Qed.

#[export] Instance py_le_trans : Transitive py_le.
Proof.
  intros x y z. unfold py_le.
  destruct x, y, z; simpl; try lia; intros H1 H2; right; split; try done;
   destruct H1 as [?|[_ ?]], H2 as [?|[_ ?]]; try lia; try done; etrans; eauto.
Qed.

#[export] Instance py_le_total : Total py_le.
Proof.
  intros x y.
  destruct (num_of x) as [a|] eqn:Hx, (num_of y) as [b|] eqn:Hy.
  { rewrite (py_le_num _ _ _ _ Hx Hy), (py_le_num _ _ _ _ Hy Hx). lia. }
  all: destruct (Nat.lt_total (py_rank x) (py_rank y)) as [?|[Heq|?]];
    [by left; left| |by right; left].
  all: destruct x, y; simpl in *; simplify_eq; try (left; by apply py_le_same_rank).
  destruct (total String.le s s0); [left|right]; by apply py_le_same_rank.
Qed.

Lemma py_le_antisym_key x y :
  py_is_scalar x = true → py_le x y → py_le y x → key_eqb x y = true.
Proof.
  unfold py_le, py_is_scalar.
  destruct x, y; simpl; try done; try lia; intros _ [?|[_ H1]] [?|[_ H2]]; try lia.
  all: try (apply Z.eqb_eq; lia).
  apply Stdlib.Strings.String.eqb_eq. by apply (anti_symm String.le).
Qed.

(** ** The insertion sort *)

Lemma insert_sorted_perm x l : insert_sorted x l ≡ₚ x :: l.
Proof.
  induction l as [|y l IH]; simpl; [done|].
  case_decide; [|done]. rewrite IH. by constructor.
Qed.

Lemma insert_sorted_HdRel y x l :
  py_le y x → HdRel py_le y l → HdRel py_le y (insert_sorted x l).
Proof.
  intros Hyx Hl. destruct l as [|z l]; simpl; [by constructor|].
  inversion Hl; subst. case_decide; by constructor.
Qed.

Lemma insert_sorted_Sorted x l : Sorted py_le l → Sorted py_le (insert_sorted x l).
Proof.
  induction 1 as [|y l Hl IH Hy]; simpl; [by repeat constructor|].
  case_decide as Hyx.
  - constructor; [done|]. by apply insert_sorted_HdRel.
  - destruct (total py_le y x); [contradiction|].
    constructor; by constructor.
Qed.

Lemma sort_values_spec l :
  Sorted py_le (sort_values l) ∧ sort_values l ≡ₚ l.
Proof.
  unfold sort_values.
  cut (∀ acc, Sorted py_le acc →
       Sorted py_le (fold_left (λ acc x, insert_sorted x acc) l acc) ∧
       fold_left (λ acc x, insert_sorted x acc) l acc ≡ₚ l ++ acc).
  { intros H. destruct (H [] (Sorted_nil _)) as [? Hp]. by rewrite app_nil_r in Hp. }
  induction l as [|x l IH]; intros acc Hacc; simpl; [done|].
  destruct (IH (insert_sorted x acc)) as [? Hp]; [by apply insert_sorted_Sorted|].
  split; [done|]. rewrite Hp, insert_sorted_perm. by rewrite Permutation_middle.
Qed.

(** Sorting keys that are pairwise different gives the one sorted
    arrangement of them, whatever order they came in. *)
Lemma sort_values_perm_eq l1 l2 :
  forallb py_is_scalar l1 = true → keys_distinct l1 = true → l1 ≡ₚ l2 →
  sort_values l1 = sort_values l2.
Proof.
  intros Hs Hd Hp.
  destruct (sort_values_spec l1) as [S1 P1], (sort_values_spec l2) as [S2 P2].
  apply (Sorted_unique_strong py_le); [|done|done|by rewrite P1, P2].
  intros x y Hx Hy Hxy Hyx. apply (keys_distinct_eq l1); [done| | |].
  - by rewrite <-P1.
  - by rewrite Hp, <-P2.
  - apply py_le_antisym_key; [|done..].
    rewrite forallb_forall in Hs. rewrite Hs; [done|].
    apply list_elem_of_In. by rewrite <-P1.
Qed.

Lemma py_sorted_perm d1 d2 :
  keys_distinct (map fst d1) = true → d1 ≡ₚ d2 →
  py_sorted (PDict d1) = py_sorted (PDict d2).
Proof.
  intros Hd Hp. pose proof (Permutation_map fst Hp) as Hk. unfold py_sorted. simpl.
  rewrite <-(forallb_perm _ _ _ Hk). destruct (forallb py_is_scalar (map fst d1)) eqn:Hs; [|done].
  simpl. f_equal. by apply sort_values_perm_eq.
Qed.

Lemma py_sorted_Sorted v names : py_sorted v = Ok names → Sorted py_le names.
Proof.
  unfold py_sorted. destruct (py_iter v); simpl; [|done].
  case_match; intros; simplify_eq. apply sort_values_spec.
Qed.

(** [sorted(v)] is a sorted arrangement of the items of [v]. *)
Lemma py_sorted_spec v names :
  py_sorted v = Ok names → ∃ xs, py_iter v = Ok xs ∧ names ≡ₚ xs ∧ Sorted py_le names.
Proof.
  unfold py_sorted. destruct (py_iter v) as [xs|]; simpl; [|done].
  case_match; intros; simplify_eq. exists xs. split; [done|]. apply and_comm, sort_values_spec.
Qed.

(** ** [d[k] = v] *)

(** After [d[k'] = v], [d[k]] is [v] when [k == k'], and what it was
    before otherwise: the replaced entry is the first key equal to [k'],
    which is also the first key equal to any [k] equal to [k']. *)
Lemma dict_lookup_setitem d k' v k :
  dict_lookup (dict_setitem d k' v) k = if key_eqb k k' then Some v else dict_lookup d k.
Proof.
  induction d as [|[k1 v1] d IH]; simpl.
  - by destruct (key_eqb k k').
  - destruct (key_eqb k' k1) eqn:H1; simpl.
    + destruct (key_eqb k k1) eqn:H2, (key_eqb k k') eqn:H3; try done.
      * rewrite (key_eqb_trans k k1 k') in H3; [done|done|by rewrite key_eqb_sym].
      * by rewrite (key_eqb_trans k k' k1) in H2.
    + destruct (key_eqb k k1) eqn:H2; [|done].
      destruct (key_eqb k k') eqn:H3; [|done].
      rewrite (key_eqb_trans k' k k1) in H1; [done| |done]. by rewrite key_eqb_sym.
Qed.

(** The value of [k] after a run of assignments: the last one whose key
    equals [k]. *)
Definition last_assigned (k : pyval) (assignments : list (pyval * pyval)) : option pyval :=
  fold_left (λ r kv, if key_eqb k kv.1 then Some kv.2 else r) assignments None.

Lemma last_assigned_from k assignments r :
  fold_left (λ r kv, if key_eqb k kv.1 then Some kv.2 else r) assignments r =
  match last_assigned k assignments with Some v => Some v | None => r end.
Proof.
  unfold last_assigned. revert r.
  induction assignments as [|[k1 v1] l IH]; intros r; simpl; [done|].
  rewrite (IH (if key_eqb k k1 then _ else _)), (IH (if key_eqb k k1 then _ else None)).
  by destruct (fold_left _ l None), (key_eqb k k1).
Qed.

Lemma dict_lookup_setitems d assignments k :
  dict_lookup (fold_left (λ acc kv, dict_setitem acc kv.1 kv.2) assignments d) k =
  match last_assigned k assignments with Some v => Some v | None => dict_lookup d k end.
Proof.
  revert d; induction assignments as [|[k1 v1] l IH]; intros d; simpl; [done|].
  rewrite IH, dict_lookup_setitem. unfold last_assigned at 2. simpl.
  rewrite (last_assigned_from k l (if key_eqb k k1 then _ else None)).
  by destruct (last_assigned k l), (key_eqb k k1).
Qed.

(** ** Well-formed dicts stay well formed under [d[k] = v] *)

Lemma dict_setitem_keys d k v :
  map fst (dict_setitem d k v) =
    if existsb (key_eqb k) (map fst d) then map fst d else (map fst d ++ [k])%list.
Proof.
  induction d as [|[k1 v1] d IH]; simpl; [done|].
  destruct (key_eqb k k1); simpl; [done|]. rewrite IH. by destruct (existsb _ _).
Qed.

Lemma keys_distinct_snoc ks k :
  keys_distinct ks = true → existsb (key_eqb k) ks = false → keys_distinct (ks ++ [k])%list = true.
Proof.
  induction ks as [|k1 ks IH]; simpl; [done|].
  intros [Hk1 Hd]%andb_true_iff [Hk Hks]%orb_false_iff.
  rewrite IH, existsb_app by done. simpl. rewrite key_eqb_sym, Hk, !orb_false_r. by rewrite andb_true_r.
Qed.

Lemma dict_setitem_wf d k v :
  dict_wf d = true → is_hashable k = true → dict_wf (dict_setitem d k v) = true.
Proof.
  unfold dict_wf. rewrite dict_setitem_keys. intros [Hh Hd]%andb_true_iff Hk.
  destruct (existsb (key_eqb k) (map fst d)) eqn:He; [by rewrite Hh, Hd|].
  rewrite forallb_app, Hh. simpl. rewrite Hk. simpl. by apply keys_distinct_snoc.
Qed.

Lemma dict_setitem_values d k v :
  forallb (λ '(_, x), py_wf x) d = true → py_wf v = true →
  forallb (λ '(_, x), py_wf x) (dict_setitem d k v) = true.
Proof.
  induction d as [|[k1 v1] d IH]; simpl; [by rewrite andb_true_r|].
  intros [H1 Hd]%andb_true_iff Hv. destruct (key_eqb k k1); simpl.
  - by rewrite Hv, Hd.
  - by rewrite H1, IH.
Qed.

Lemma dict_lookup_elem d k v : dict_lookup d k = Some v → ∃ k', (k', v) ∈ d.
Proof.
  induction d as [|[k1 v1] d IH]; simpl; [done|].
  destruct (key_eqb k k1).
  - intros [= <-]. exists k1. by left.
  - intros (k' & ?)%IH. exists k'. by right.
Qed.

(** A subscript of a well-formed value is well formed. *)
Lemma getitem_wf c k v : py_wf c = true → getitem c k = Ok v → py_wf v = true.
Proof.
  destruct c as [| | | |l|d|]; simpl; try done.
  - destruct (num_of k); [|done]. destruct (seq_index _ _); by intros _ [= <-].
  - destruct (num_of k) as [i|]; [|done]. unfold seq_index.
    destruct (_ <? 0)%Z; [done|]. destruct (nth_error l _) eqn:E; [|done].
    intros Hl [= <-]. apply nth_error_In in E. rewrite forallb_forall in Hl. by apply Hl.
  - intros [_ Hd]%andb_true_iff. destruct (is_hashable k); [|done].
    destruct (dict_lookup d k) as [x|] eqn:E; [|done]. intros [= <-].
    destruct (dict_lookup_elem _ _ _ E) as [k' Hin]. rewrite forallb_forall in Hd.
    apply (Hd (k', x)). by apply list_elem_of_In.
Qed.

End PyVal.
