(* ===== verification/Ipv4.v ===== *)
(** * [ipaddress.IPv4Network] as the interface renderer uses it

    src/iftool.py:231-233 builds [ipaddress.IPv4Network(unicode(subnet))]
    (strict mode, the default) and reads its [network_address] and
    [netmask].  This file models the path the constructor takes on a
    string argument in the [ipaddress] package the program depends on
    (the Python 2 backport): split on ['/'], parse the address octet by
    octet, read the prefix either as a length or as a dotted netmask or
    hostmask, build the netmask, and refuse host bits.  Addresses and
    masks are 32-bit values kept in [Z]. *)

From S2P Require Import Prelude PyStr PyVal.
From Stdlib Require Import Ascii.
Import String.

Local Open Scope string_scope.
Local Open Scope Z_scope.

Module Ipv4.
Import PyStr PyVal.

Definition max_prefixlen : Z := 32.
Definition ALL_ONES : Z := 2 ^ 32 - 1.

(** [_DECIMAL_DIGITS.issuperset(s)] *)
Definition is_digit (a : ascii) : bool :=
  (Nat.leb 48 (nat_of_ascii a) && Nat.leb (nat_of_ascii a) 57)%nat.
Definition all_digits (s : string) : bool := forallb is_digit (chars s).

(** [int(s, 10)] on a string of digits. *)
Definition decimal_value (s : string) : Z :=
  fold_left (λ acc a, acc * 10 + Z.of_nat (nat_of_ascii a - 48)) (chars s) 0.

(** [_parse_octet]; the error is the message of the [ValueError]. *)
Definition parse_octet (s : string) : res string Z :=
  if String.eqb s EmptyString then Err "Empty octet not permitted"
  else if negb (all_digits s) then Err "Only decimal digits permitted"
  else if Nat.ltb 3 (String.length s) then Err "At most 3 characters permitted"
  else
    let n := decimal_value s in
    if (7 <? n) && String.prefix "0" s then Err "Ambiguous (octal/decimal) value"
    else if 255 <? n then Err "Octet (> 255) not permitted"
    else Ok n.

(** [_compat_int_from_byte_vals(map(_parse_octet, octets), 'big')]:
    [map] is eager in Python 2, so the first bad octet raises. *)
Fixpoint octets_value (acc : Z) (octets : list string) : res string Z :=
  match octets with
  | [] => Ok acc
  | o :: os => n ← parse_octet o; octets_value (acc * 256 + n) os
  end.

(** [_ip_int_from_string] *)
Definition ip_int_from_string (s : string) : except Z :=
  if String.eqb s EmptyString then Err (AddressValueError "Address cannot be empty")
  else
    let octets := py_split "." s in
    if negb (Nat.eqb (length octets) 4) then Err (AddressValueError "Expected 4 octets")
    else match octets_value 0 octets with
         | Ok n => Ok n
         | Err msg => Err (AddressValueError msg)
         end.

(** [_prefix_from_prefix_string]: digits only, [int()] must succeed
    (the empty string fails), and the value must be at most 32. *)
Definition prefix_from_prefix_string (s : string) : except Z :=
  if negb (all_digits s) || String.eqb s EmptyString then Err (NetmaskValueError s)
  else let p := decimal_value s in
       if (0 <=? p) && (p <=? max_prefixlen) then Ok p else Err (NetmaskValueError s).

(** [_compat_bit_length] and [_count_righthand_zero_bits] *)
Definition bit_length (n : Z) : Z := if n =? 0 then 0 else Z.log2 n + 1.

Definition count_righthand_zero_bits (number bits : Z) : Z :=
  if number =? 0 then bits
  else Z.min bits (bit_length (Z.land (Z.lnot number) (number - 1))).

(** [_prefix_from_ip_int]: a netmask is ones followed by zeros. *)
Definition prefix_from_ip_int (ip_int : Z) : option Z :=
  let trailing_zeroes := count_righthand_zero_bits ip_int max_prefixlen in
  let prefixlen := max_prefixlen - trailing_zeroes in
  let leading_ones := Z.shiftr ip_int trailing_zeroes in
  let all_ones := Z.shiftl 1 prefixlen - 1 in
  if leading_ones =? all_ones then Some prefixlen else None.

(** [_prefix_from_ip_string]: a dotted netmask, else a dotted hostmask. *)
Definition prefix_from_ip_string (s : string) : except Z :=
  match ip_int_from_string s with
  | Err _ => Err (NetmaskValueError s)
  | Ok ip_int =>
      match prefix_from_ip_int ip_int with
      | Some p => Ok p
      | None =>
          match prefix_from_ip_int (Z.lxor ip_int ALL_ONES) with
          | Some p => Ok p
          | None => Err (NetmaskValueError s)
          end
      end
  end.

(** [_ip_int_from_prefix] *)
Definition ip_int_from_prefix (prefixlen : Z) : Z :=
  Z.lxor ALL_ONES (Z.shiftr ALL_ONES prefixlen).

Record ipv4_network := mk_network {
  network_address : Z;
  netmask : Z;
  prefixlen : Z
}.

(** The prefix length of [IPv4Network.__init__]: from the text after the
    ['/'] when there is one (as a length, else as a dotted mask), 32
    otherwise. *)
Definition netmask_prefixlen (addr : list string) : except Z :=
  match addr with
  | [_; m] =>
      match prefix_from_prefix_string m with
      | Err (NetmaskValueError _) => prefix_from_ip_string m
      | r => r
      end
  | _ => Ok max_prefixlen
  end.

(** [IPv4Network(address, strict=True)] on a string. *)
Definition IPv4Network (address : string) : except ipv4_network :=
  let addr := py_split "/" address in
  if Nat.ltb 2 (length addr) then Err (AddressValueError "Only one '/' permitted")
  else
    na ← ip_int_from_string (default EmptyString (head addr));
    p ← netmask_prefixlen addr;
    let nm := ip_int_from_prefix p in
    if negb (Z.land na nm =? na) then Err (ValueError "has host bits set")
    else Ok (mk_network (Z.land na nm) nm p).

(** The three lines of [configure_interfaces]:
    [subnet = ipaddress.IPv4Network(unicode(ifnames[ifname]['subnet']))],
    [network_address = subnet.network_address], [netmask = subnet.netmask]. *)
Definition subnet_values (subnet : pyval) : except (pyval * pyval) :=
  n ← IPv4Network (py_str subnet);
  Ok (PAddr (network_address n), PAddr (netmask n)).

(** ** Facts checked on every octet and every prefix length *)

Lemma octet_facts n : 0 ≤ n ≤ 255 →
  parse_octet (int_str n) = Ok n ∧ lacks "." (int_str n) = true ∧
  lacks "/" (int_str n) = true.
Proof.
  intros Hn.
  apply (Z_range_Forall (λ n, parse_octet (int_str n) = Ok n ∧ lacks "." (int_str n) = true ∧
    lacks "/" (int_str n) = true) 0 256); [|lia].
  apply (bool_decide_unpack _). vm_compute. reflexivity.
Qed.

Lemma prefix_facts p : 0 ≤ p ≤ 32 →
  prefix_from_prefix_string (int_str p) = Ok p ∧ lacks "/" (int_str p) = true ∧
  ip_int_from_prefix p = 2 ^ 32 - 2 ^ (32 - p) ∧
  prefix_from_ip_int (ip_int_from_prefix p) = Some p.
Proof.
  intros Hp.
  apply (Z_range_Forall (λ p, prefix_from_prefix_string (int_str p) = Ok p ∧
    lacks "/" (int_str p) = true ∧ ip_int_from_prefix p = 2 ^ 32 - 2 ^ (32 - p) ∧
    prefix_from_ip_int (ip_int_from_prefix p) = Some p) 0 33); [|lia].
  apply (bool_decide_unpack _). vm_compute. reflexivity.
Qed.

(** ** Octet arithmetic *)

Lemma div_mod_256 x : x / 256 * 256 + x mod 256 = x.
Proof. pose proof (Z.div_mod x 256). lia. Qed.

Lemma octet_range a k : 0 ≤ octet a k ≤ 255.
Proof.
  unfold octet.
  change (Z.land (Z.shiftr a k) 255) with (Z.land (Z.shiftr a k) (Z.ones 8)).
  rewrite Z.land_ones by lia.
  pose proof (Z.mod_pos_bound (Z.shiftr a k) (2 ^ 8) ltac:(lia)). lia.
Qed.

Lemma parse_octet_at a k : parse_octet (int_str (octet a k)) = Ok (octet a k).
Proof. apply octet_facts, octet_range. Qed.

Lemma octets_lack c a ks :
  c = "."%char ∨ c = "/"%char → Forall (λ s, lacks c s = true) (map (λ k, int_str (octet a k)) ks).
Proof.
  intros Hc. apply Forall_forall. intros s Hs.
  apply list_elem_of_In, in_map_iff in Hs as (k & <- & _).
  destruct (octet_facts _ (octet_range a k)) as (_ & ? & ?). by destruct Hc as [->| ->].
Qed.

(** The four bytes, read back in base 256, give the value. *)
Lemma ipv4_octets a : 0 ≤ a < 2 ^ 32 →
  ((octet a 24 * 256 + octet a 16) * 256 + octet a 8) * 256 + octet a 0 = a.
Proof.
  intros Ha. unfold octet. change 255 with (Z.ones 8). rewrite !Z.land_ones by lia.
  rewrite !Z.shiftr_div_pow2 by lia.
  replace (2 ^ 24) with (256 * 256 * 256) by reflexivity.
  replace (2 ^ 16) with (256 * 256) by reflexivity.
  replace (2 ^ 8) with 256 by reflexivity. rewrite Z.pow_0_r, Z.div_1_r.
  rewrite <-!Z.div_div by lia.
  assert (0 ≤ a / 256 / 256 / 256 < 256).
  { rewrite !Z.div_div by lia. split; [apply Z.div_pos | apply Z.div_lt_upper_bound]; lia. }
  rewrite (Z.mod_small (a / 256 / 256 / 256)) by done.
  by rewrite !div_mod_256.
Qed.

Lemma ipv4_str_split a :
  py_split "." (ipv4_str a) = map (λ k, int_str (octet a k)) [24; 16; 8; 0].
Proof. apply py_split_join; [done|]. apply octets_lack. by left. Qed.

Lemma ipv4_str_lacks_slash a : lacks "/" (ipv4_str a) = true.
Proof. apply lacks_join; [done|]. apply octets_lack. by right. Qed.

Lemma decimal_value_nonneg s : 0 ≤ decimal_value s.
Proof.
  unfold decimal_value.
  assert (∀ l acc, 0 ≤ acc →
    0 ≤ fold_left (λ acc a, acc * 10 + Z.of_nat (nat_of_ascii a - 48)) l acc) as H.
  { induction l as [|a l IH]; intros acc Hacc; simpl; [done|]. apply IH. lia. }
  by apply H.
Qed.

Lemma parse_octet_range o n : parse_octet o = Ok n → 0 ≤ n ≤ 255.
Proof.
  unfold parse_octet. intros H. repeat case_match; simplify_eq.
  pose proof (decimal_value_nonneg o). lia.
Qed.

(** [octets_value] reads base-256 digits: the result lies between the
    accumulator shifted by the number of octets and the next such value. *)
Lemma octets_value_bounds acc os n :
  0 ≤ acc → octets_value acc os = Ok n →
  acc * 256 ^ Z.of_nat (length os) ≤ n < (acc + 1) * 256 ^ Z.of_nat (length os).
Proof.
  revert acc; induction os as [|o os IH]; intros acc Hacc H; simpl in H.
  - injection H as <-. simpl. lia.
  - destruct (parse_octet o) as [m|] eqn:Ho; [|discriminate]. simpl in H.
    apply parse_octet_range in Ho.
    destruct (IH (acc * 256 + m)) as [Hlo Hhi]; [lia|done|].
    rewrite length_cons, Nat2Z.inj_succ, Z.pow_succ_r by lia. nia.
Qed.

Lemma count_righthand_zero_bits_range number : 0 ≤ count_righthand_zero_bits number 32 ≤ 32.
Proof.
  unfold count_righthand_zero_bits, bit_length.
  destruct (number =? 0); [lia|]. destruct (_ =? 0); [lia|].
  pose proof (Z.log2_nonneg (Z.land (Z.lnot number) (number - 1))). lia.
Qed.

Lemma prefix_from_ip_int_range ip p : prefix_from_ip_int ip = Some p → 0 ≤ p ≤ 32.
Proof.
  unfold prefix_from_ip_int. case_match; intros; simplify_eq.
  pose proof (count_righthand_zero_bits_range ip). unfold max_prefixlen. lia.
Qed.

(** Whichever way the prefix is written, its length is between 0 and 32. *)
Lemma netmask_prefixlen_range addr p : netmask_prefixlen addr = Ok p → 0 ≤ p ≤ 32.
Proof.
  unfold netmask_prefixlen, prefix_from_prefix_string, prefix_from_ip_string, max_prefixlen.
  repeat case_match; intros; simplify_eq; try lia;
    eauto using prefix_from_ip_int_range.
Qed.

Lemma ip_int_from_string_Ok s n :
  ip_int_from_string s = Ok n →
  length (py_split "." s) = 4%nat ∧ octets_value 0 (py_split "." s) = Ok n.
Proof.
  unfold ip_int_from_string. destruct (String.eqb s EmptyString); [discriminate|].
  destruct (Nat.eqb_spec (length (py_split "." s)) 4); [|discriminate]. simpl.
  case_match; intros; simplify_eq; auto.
Qed.

Lemma ipv4_str_nonempty a : String.eqb (ipv4_str a) EmptyString = false.
Proof.
  unfold ipv4_str.
  change (join_with "." _) with
    (int_str (octet a 24) +:+ "." +:+ join_with "." (map (λ k, int_str (octet a k)) [16; 8; 0])).
  rewrite str_cons_app. apply app_String_nonempty.
Qed.

Lemma IPv4Network_Ok address n :
  IPv4Network address = Ok n →
  ∃ na, ip_int_from_string (default EmptyString (head (py_split "/" address))) = Ok na ∧
    netmask_prefixlen (py_split "/" address) = Ok (prefixlen n) ∧
    netmask n = ip_int_from_prefix (prefixlen n) ∧
    Z.land na (netmask n) = na ∧ network_address n = na.
Proof.
  unfold IPv4Network. case_match; [discriminate|].
  destruct (ip_int_from_string _) as [na|] eqn:Hna; [|discriminate]. simpl.
  destruct (netmask_prefixlen _) as [p|] eqn:Hp; [|discriminate]. simpl.
  case_match eqn:Hland; [discriminate|]. intros; simplify_eq.
  apply negb_false_iff, Z.eqb_eq in Hland. simpl. eauto 10.
Qed.

(** ** Parsing: bounds and round trip *)

(** Every address the parser accepts is a 32-bit value. *)
Theorem ip_int_from_string_bounds s n : ip_int_from_string s = Ok n → 0 ≤ n < 2 ^ 32.
Proof.
  intros [Hl Hv]%ip_int_from_string_Ok.
  apply octets_value_bounds in Hv; [|lia]. rewrite Hl in Hv. simpl in Hv. lia.
Qed.

(** Parsing the printed form of a 32-bit address gives it back. *)
Lemma ipv4_str_parse a : 0 ≤ a < 2 ^ 32 → ip_int_from_string (ipv4_str a) = Ok a.
Proof.
  intros Ha. unfold ip_int_from_string. rewrite ipv4_str_nonempty, ipv4_str_split.
  cbn [map length Nat.eqb negb octets_value].
  rewrite !parse_octet_at. cbn [mbind res_bind]. f_equal.
  pose proof (ipv4_octets a Ha). lia.
Qed.

(** C13: The dotted-quad text is a canonical form of the parser: a value
    is the result of parsing some string exactly when parsing its
    printed form [ipv4_str] gives it back. *)
Theorem ipv4_str_roundtrip a :
  (∃ s, ip_int_from_string s = Ok a) ↔ ip_int_from_string (ipv4_str a) = Ok a.
Proof.
  split; [|eauto]. intros [s Hs]. apply ipv4_str_parse. by eapply ip_int_from_string_bounds.
Qed.

(** C14: What a network built from a string holds: a 32-bit network
    address with no host bits, a prefix length between 0 and 32, and the
    netmask of that many leading ones. *)
Theorem IPv4Network_wf address n :
  IPv4Network address = Ok n →
  0 ≤ network_address n < 2 ^ 32 ∧ 0 ≤ prefixlen n ≤ 32 ∧
  netmask n = 2 ^ 32 - 2 ^ (32 - prefixlen n) ∧
  Z.land (network_address n) (netmask n) = network_address n.
Proof.
  intros (na & Hna & Hp & Hnm & Hland & Hnw)%IPv4Network_Ok.
  apply ip_int_from_string_bounds in Hna. apply netmask_prefixlen_range in Hp.
  destruct (prefix_facts _ Hp) as (_ & _ & Hmask & _).
  rewrite Hnw, Hland, Hnm, Hmask. lia.
Qed.

(** On [a.b.c.d/n] text: the network of address [a] and prefix [p],
    or [ValueError] when [a] has bits outside the mask (strict mode). *)
Theorem IPv4Network_cidr a p :
  0 ≤ a < 2 ^ 32 → 0 ≤ p ≤ 32 →
  IPv4Network (ipv4_str a +:+ "/" +:+ int_str p) =
    if Z.land a (ip_int_from_prefix p) =? a
    then Ok (mk_network a (ip_int_from_prefix p) p)
    else Err (ValueError "has host bits set").
Proof.
  intros Ha Hp. destruct (prefix_facts p Hp) as (Hpre & Hsl & _ & _).
  unfold IPv4Network.
  rewrite str_cons_app, py_split_app, (py_split_lacks _ (int_str p)) by
    first [apply ipv4_str_lacks_slash | done].
  cbn [length Nat.ltb Nat.leb head default id].
  rewrite ipv4_str_parse by done. cbn [mbind res_bind].
  unfold netmask_prefixlen. rewrite Hpre. cbn [mbind res_bind].
  destruct (Z.land a _ =? a) eqn:E; cbn [negb]; [|done].
  apply Z.eqb_eq in E. by rewrite E.
Qed.

(** C12: Lines 231-233 on a subnet written [a.b.c.d/n]: the network
    address and the netmask handed to the interface template, or the
    [ValueError] of strict mode when the address has host bits. *)
Theorem subnet_values_cidr a p :
  0 ≤ a < 2 ^ 32 → 0 ≤ p ≤ 32 →
  subnet_values (PStr (ipv4_str a +:+ "/" +:+ int_str p)) =
    if Z.land a (ip_int_from_prefix p) =? a
    then Ok (PAddr a, PAddr (2 ^ 32 - 2 ^ (32 - p)))
    else Err (ValueError "has host bits set").
Proof.
  intros Ha Hp. unfold subnet_values, py_str. rewrite IPv4Network_cidr by done.
  destruct (prefix_facts p Hp) as (_ & _ & Hmask & _).
  destruct (_ =? a); cbn [mbind res_bind]; [by rewrite Hmask|done].
Qed.

Lemma subnet_values_cidr_witness :
  subnet_values (PStr "10.0.0.0/24") = Ok (PAddr 167772160, PAddr 4294967040) ∧
  ipv4_str 167772160 = "10.0.0.0"%string ∧ ipv4_str 4294967040 = "255.255.255.0"%string ∧
  subnet_values (PStr "10.0.0.1/24") = Err (ValueError "has host bits set").
Proof.
  split_and!; [| vm_compute; reflexivity | vm_compute; reflexivity |].
  - replace "10.0.0.0/24"%string with (ipv4_str 167772160 +:+ "/" +:+ int_str 24)
      by (vm_compute; reflexivity).
    rewrite (subnet_values_cidr 167772160 24) by lia. vm_compute. reflexivity.
  - replace "10.0.0.1/24"%string with (ipv4_str 167772161 +:+ "/" +:+ int_str 24)
      by (vm_compute; reflexivity).
    rewrite (subnet_values_cidr 167772161 24) by lia. vm_compute. reflexivity.
Defined.

Lemma IPv4Network_wf_witness :
  IPv4Network "10.0.0.0/24" = Ok (mk_network 167772160 4294967040 24) ∧
  0 ≤ 167772160 < 2 ^ 32 ∧ 0 ≤ 24 ≤ 32 ∧ 4294967040 = 2 ^ 32 - 2 ^ (32 - 24) ∧
  Z.land 167772160 4294967040 = 167772160.
Proof.
  assert (IPv4Network "10.0.0.0/24" = Ok (mk_network 167772160 4294967040 24)) as H
    by (vm_compute; reflexivity).
  split; [exact H|]. exact (IPv4Network_wf _ _ H).
Defined.

End Ipv4.
