(* ===== verification/Loader.v ===== *)
(** * The [!include] loader

    [CustomLoader] (src/iftool.py:66-78) is a PyYAML loader that remembers
    the directory of the file it reads ([self._root =
    os.path.split(stream.name)[0]]) and constructs a node tagged
    [!include] by loading the file [os.path.join(self._root, scalar)]
    with a new [CustomLoader], recursively.  The YAML text parser is the
    library's and is not modelled: [files] maps each path to the node
    tree PyYAML composes from it, with its scalars typed ([Yaml] types
    them and proves [load_file] equal to the loader on composed nodes).  [construct] is PyYAML's construction
    of Python objects from nodes (a mapping builds its dict key by key,
    refusing unhashable keys, a later duplicate key replacing the value
    of the earlier one); [load_file] opens a file and constructs its
    document with the include constructor.  Python's recursion limit is
    the [fuel]: an include chain deeper than it raises [RecursionError],
    as a cycle of includes does for every limit.  Anchors, aliases,
    merge keys and tags other than [!include] are not modelled. *)

From S2P Require Import Prelude PyStr PyVal.
From stdpp Require Import gmap.
Import String.

Module Loader.
Import PyStr PyVal.

#[warnings="-register-all"]
Inductive ynode : Type :=
| YNull
| YBool (b : bool)
| YInt (z : Z)
| YStr (s : string)
| YSeq (items : list ynode)
| YMap (pairs : list (ynode * ynode))
| YInclude (path : string).

(** [construct_sequence]: the items in order. *)
Fixpoint construct_items {A} (f : A → except pyval) (l : list A) : except (list pyval) :=
  match l with
  | [] => Ok []
  | n :: l' => v ← f n; vs ← construct_items f l'; Ok (v :: vs)
  end.

(** [construct_mapping]: for each pair, the key, its hashability, the
    value, then [mapping[key] = value]. *)
Fixpoint construct_pairs {A} (f : A → except pyval) (l : list (A * A))
    (acc : list (pyval * pyval)) : except (list (pyval * pyval)) :=
  match l with
  | [] => Ok acc
  | (kn, vn) :: l' =>
      k ← f kn;
      if is_hashable k then v ← f vn; construct_pairs f l' (dict_setitem acc k v)
      else Err (ConstructorError "found unhashable key")
  end.

(** [construct_object]; [include] is the [!include] constructor. *)
Fixpoint construct (include : string → except pyval) (node : ynode) : except pyval :=
  match node with
  | YNull => Ok PNone
  | YBool b => Ok (PBool b)
  | YInt z => Ok (PInt z)
  | YStr s => Ok (PStr s)
  | YSeq items => vs ← construct_items (construct include) items; Ok (PList vs)
  | YMap pairs => d ← construct_pairs (construct include) pairs []; Ok (PDict d)
  | YInclude s => include s
  end.

(** [yaml.load(open(filename), CustomLoader)], with [CustomLoader.include]
    loading [os.path.join(self._root, scalar)]. *)
Fixpoint load_file (fuel : nat) (files : gmap string ynode) (filename : string) : except pyval :=
  match fuel with
  | O => Err RecursionError
  | S fuel' =>
      match files !! filename with
      | None => Err (IOError filename)
      | Some doc =>
          construct (λ s, load_file fuel' files (path_join (path_dirname filename) s)) doc
      end
  end.

(** The [!include] arguments of a node, in document order. *)
Fixpoint node_includes (n : ynode) : list string :=
  match n with
  | YSeq items => flat_map node_includes items
  | YMap pairs => flat_map (λ kv, node_includes kv.1 ++ node_includes kv.2) pairs
  | YInclude s => [s]
  | _ => []
  end.

(** A file whose include graph is well founded: it is missing, or every
    file its document includes is [loadable].  A cycle of includes is
    not [loadable]. *)
Inductive loadable (files : gmap string ynode) : string → Prop :=
| loadable_missing p : files !! p = None → loadable files p
| loadable_doc p doc :
    files !! p = Some doc →
    (∀ s, s ∈ node_includes doc → loadable files (path_join (path_dirname p) s)) →
    loadable files p.

(** ** Induction on nodes *)

Section ynode_ind.
Context (P : ynode → Prop)
  (HNull : P YNull) (HBool : ∀ b, P (YBool b)) (HInt : ∀ z, P (YInt z))
  (HStr : ∀ s, P (YStr s)) (HSeq : ∀ items, Forall P items → P (YSeq items))
  (HMap : ∀ pairs, Forall (λ kv, P kv.1 ∧ P kv.2) pairs → P (YMap pairs))
  (HInclude : ∀ s, P (YInclude s)).

Fixpoint ynode_ind' (n : ynode) : P n :=
  match n with
  | YNull => HNull
  | YBool b => HBool b
  | YInt z => HInt z
  | YStr s => HStr s
  | YSeq items =>
      HSeq items ((fix go (l : list ynode) : Forall P l :=
                     match l with
                     | [] => List.Forall_nil _
                     | x :: l' => List.Forall_cons _ _ _ (ynode_ind' x) (go l')
                     end) items)
  | YMap pairs =>
      HMap pairs ((fix go (l : list (ynode * ynode)) : Forall (λ kv, P kv.1 ∧ P kv.2) l :=
                     match l with
                     | [] => List.Forall_nil _
                     | kv :: l' => List.Forall_cons _ kv l' (conj (ynode_ind' kv.1) (ynode_ind' kv.2)) (go l')
                     end) pairs)
  | YInclude s => HInclude s
  end.
End ynode_ind.

(** ** Fuel *)

(** [f] and [g] agree wherever [f] does not run out of recursion. *)
Definition agrees_outside_recursion {A B} (f g : A → except B) (x : A) : Prop :=
  f x ≠ Err RecursionError → g x = f x.

Lemma construct_items_mono {A} (f g : A → except pyval) l :
  Forall (agrees_outside_recursion f g) l →
  agrees_outside_recursion (construct_items f) (construct_items g) l.
Proof.
  unfold agrees_outside_recursion.
  induction 1 as [|x l Hx Hl IH]; simpl; [done|]. intros Hne.
  destruct (f x) as [v|e]; simpl in *; rewrite Hx by congruence; simpl; [|done].
  destruct (construct_items f l); simpl in *; by rewrite IH by congruence.
Qed.

Lemma construct_pairs_mono {A} (f g : A → except pyval) l :
  Forall (λ kv, agrees_outside_recursion f g kv.1 ∧ agrees_outside_recursion f g kv.2) l →
  ∀ acc, agrees_outside_recursion (construct_pairs f l) (construct_pairs g l) acc.
Proof.
  unfold agrees_outside_recursion.
  induction 1 as [|[kn vn] l [Hk Hv] Hl IH]; intros acc; simpl in *; [done|]. intros Hne.
  destruct (f kn) as [k|e]; simpl in *; rewrite Hk by congruence; simpl; [|done].
  destruct (is_hashable k); [|done].
  destruct (f vn) as [v|e]; simpl in *; rewrite Hv by congruence; simpl; [|done].
  by apply IH.
Qed.

(** Replacing the include constructor by one that agrees with it
    wherever it did not run out of recursion changes nothing in a
    construction that did not run out. *)
Lemma construct_mono (inc1 inc2 : string → except pyval) n :
  (∀ s, agrees_outside_recursion inc1 inc2 s) →
  agrees_outside_recursion (construct inc1) (construct inc2) n.
Proof.
  intros Hinc. unfold agrees_outside_recursion.
  induction n as [| | | |items Hitems|pairs Hpairs|s] using ynode_ind'; simpl; try done.
  - destruct (construct_items (construct inc1) items) eqn:E; simpl; intros Hne;
      rewrite (construct_items_mono (construct inc1)), E by (done || congruence); done.
  - destruct (construct_pairs (construct inc1) pairs []) eqn:E; simpl; intros Hne;
      rewrite (construct_pairs_mono (construct inc1)), E by (done || congruence); done.
  - apply Hinc.
Qed.

(** More fuel, that is a higher recursion limit, does not change a load
    that succeeded or failed for another reason than the limit. *)
Theorem load_file_fuel_mono files n m p :
  n ≤ m → load_file n files p ≠ Err RecursionError → load_file m files p = load_file n files p.
Proof.
  revert m p. induction n as [|n IH]; intros [|m] p Hle; simpl; try done; [lia|].
  destruct (files !! p) as [doc|]; [|done].
  apply construct_mono. intros s. unfold agrees_outside_recursion. apply IH. lia.
Qed.

(** Construction runs out of recursion only through an include. *)
Lemma construct_RecursionError inc n :
  construct inc n = Err RecursionError → ∃ s, s ∈ node_includes n ∧ inc s = Err RecursionError.
Proof.
  induction n as [| | | |items Hitems|pairs Hpairs|s] using ynode_ind'; simpl; try done.
  - intros H. destruct (construct_items (construct inc) items) as [vs|e] eqn:E; [done|].
    simpl in H; simplify_eq. clear - Hitems E. induction Hitems as [|x l Hx Hl IH]; simpl in *; [done|].
    destruct (construct inc x) as [v|e] eqn:Ex; simpl in E.
    + destruct (construct_items (construct inc) l); simpl in E; simplify_eq.
      destruct (IH eq_refl) as (s & ? & ?). exists s. rewrite elem_of_app. eauto.
    + simplify_eq. destruct (Hx eq_refl) as (s & ? & ?). exists s. rewrite elem_of_app. eauto.
  - intros H. destruct (construct_pairs (construct inc) pairs []) as [d|e] eqn:E; [done|].
    simpl in H; simplify_eq. clear - Hpairs E. revert E. generalize (@nil (pyval * pyval)) as acc.
    induction Hpairs as [|[kn vn] l [Hk Hv] Hl IH]; intros acc E; simpl in *; [done|].
    repeat setoid_rewrite elem_of_app.
    destruct (construct inc kn) as [k|e] eqn:Ek; simpl in E; [|simplify_eq; naive_solver].
    destruct (is_hashable k); [|done].
    destruct (construct inc vn) as [v|e] eqn:Ev; simpl in E; [|simplify_eq; naive_solver].
    destruct (IH _ E) as (s & ? & ?). naive_solver.
  - intros H. exists s. split; [by left|done].
Qed.

(** One fuel for all the files of a list, each of which has some. *)
Lemma load_file_fuel_list files (l : list string) :
  (∀ p, p ∈ l → ∃ n, load_file n files p ≠ Err RecursionError) →
  ∃ N, ∀ p, p ∈ l → load_file N files p ≠ Err RecursionError.
Proof.
  induction l as [|p l IH]; intros Hl; [exists 0; intros ? []%elem_of_nil|].
  destruct (Hl p) as [n Hn]; [by left|].
  destruct IH as [N HN]; [intros q ?; apply Hl; by right|].
  exists (n `max` N). intros q [->|Hq]%elem_of_cons.
  - rewrite (load_file_fuel_mono files n); [done|lia|done].
  - rewrite (load_file_fuel_mono files N); [by apply HN|lia|by apply HN].
Qed.

(** C15: Termination: a file whose include graph is well founded loads
    without running out of recursion for some fuel, and every larger
    fuel gives the same value or exception. *)
Theorem load_file_terminates files p :
  loadable files p →
  ∃ n, load_file n files p ≠ Err RecursionError ∧
       ∀ m, n ≤ m → load_file m files p = load_file n files p.
Proof.
  intros Hp. cut (∃ n, load_file n files p ≠ Err RecursionError).
  { intros [n Hn]. exists n. split; [done|]. intros m Hm. by apply load_file_fuel_mono. }
  induction Hp as [p Hp|p doc Hp Hinc IH].
  - exists 1. simpl. by rewrite Hp.
  - destruct (load_file_fuel_list files ((λ s, path_join (path_dirname p) s) <$>
                                            node_includes doc)) as [N HN].
    { intros q (s & -> & Hs)%list_elem_of_fmap. by apply IH. }
    exists (S N). simpl. rewrite Hp. intros (s & Hs & Hr)%construct_RecursionError.
    apply (HN (path_join (path_dirname p) s)); [|done].
    apply list_elem_of_fmap. eauto.
Qed.

(** C16: A file whose document is an [!include] of itself fails with
    [RecursionError] whatever the recursion limit: the loader has no
    cycle detection. *)
Theorem load_file_self_include files p name :
  files !! p = Some (YInclude name) → path_join (path_dirname p) name = p →
  ∀ fuel, load_file fuel files p = Err RecursionError.
Proof.
  intros Hp Hj fuel. induction fuel as [|fuel IH]; simpl; [done|]. rewrite Hp. simpl. by rewrite Hj.
Qed.

(** ** The values the loader builds *)

Lemma construct_items_wf {A} (f : A → except pyval) l vs :
  Forall (λ n, ∀ v, f n = Ok v → py_wf v = true) l →
  construct_items f l = Ok vs → forallb py_wf vs = true.
Proof.
  intros Hl. revert vs. induction Hl as [|x l Hx Hl IH]; intros vs; simpl; [by intros [= <-]|].
  destruct (f x) as [v|e] eqn:E; simpl; [|done].
  destruct (construct_items f l) as [vs'|e] eqn:E'; simpl; [|done].
  intros [= <-]. simpl. by rewrite (Hx v), (IH vs').
Qed.

Lemma construct_pairs_wf {A} (f : A → except pyval) l acc d :
  Forall (λ kv, (∀ v, f kv.1 = Ok v → py_wf v = true) ∧ (∀ v, f kv.2 = Ok v → py_wf v = true)) l →
  dict_wf acc = true → forallb (λ '(_, x), py_wf x) acc = true →
  construct_pairs f l acc = Ok d →
  dict_wf d = true ∧ forallb (λ '(_, x), py_wf x) d = true.
Proof.
  intros Hl. revert acc. induction Hl as [|[kn vn] l [Hk Hv] Hl IH]; intros acc Hw Hvals; simpl.
  - by intros [= <-].
  - destruct (f kn) as [k|e] eqn:Ek; simpl; [|done].
    destruct (is_hashable k) eqn:Hh; [|done].
    destruct (f vn) as [v|e] eqn:Ev; simpl; [|done].
    apply IH; [by apply dict_setitem_wf|]. apply dict_setitem_values; [done|]. by apply Hv.
Qed.

(** Constructing a node with an include constructor that gives
    well-formed values gives a well-formed value. *)
Lemma construct_wf inc n v :
  (∀ s v, inc s = Ok v → py_wf v = true) → construct inc n = Ok v → py_wf v = true.
Proof.
  intros Hinc. revert v.
  induction n as [| | | |items Hitems|pairs Hpairs|s] using ynode_ind'; intros v; simpl;
    try by intros [= <-].
  - destruct (construct_items (construct inc) items) as [vs|e] eqn:E; simpl; [|done].
    intros [= <-]. simpl. by eapply construct_items_wf.
  - destruct (construct_pairs (construct inc) pairs []) as [d|e] eqn:E; simpl; [|done].
    intros [= <-]. cbn [py_wf]. apply andb_true_iff. by apply (construct_pairs_wf (construct inc) pairs []).
  - apply Hinc.
Qed.

(** C21: Every document the loader returns is well formed: each dict in
    it, at any depth and through any number of includes, has hashable
    keys that are pairwise different under [==] (a later duplicate key
    of the YAML text replaces the value of the earlier one). *)
Theorem load_file_wf fuel files p v : load_file fuel files p = Ok v → py_wf v = true.
Proof.
  revert p v. induction fuel as [|fuel IH]; intros p v; simpl; [done|].
  destruct (files !! p) as [doc|]; [|done]. apply construct_wf. intros s. apply IH.
Qed.

(** ** Witnesses *)

(** [conf/net.yml] includes [hosts.yml], found beside it in [conf/]. *)
Lemma load_file_fuel_mono_witness :
  let files : gmap string ynode :=
    {[ "conf/net.yml" := YMap [(YStr "hosts", YInclude "hosts.yml")];
       "conf/hosts.yml" := YMap [(YStr "web1", YMap [(YStr "device", YStr "eth0")])] ]} in
  (2 ≤ 10)%nat ∧ load_file 2 files "conf/net.yml" ≠ Err RecursionError ∧
  load_file 10 files "conf/net.yml" = load_file 2 files "conf/net.yml" ∧
  load_file 2 files "conf/net.yml" =
    Ok (PDict [(PStr "hosts", PDict [(PStr "web1", PDict [(PStr "device", PStr "eth0")])])]) ∧
  load_file 1 files "conf/net.yml" = Err RecursionError.
Proof.
  intros files.
  assert ((2 ≤ 10)%nat) as Hle by lia.
  assert (load_file 2 files "conf/net.yml" ≠ Err RecursionError) as Hne
    by (vm_compute; discriminate).
  split_and!; [exact Hle|exact Hne|exact (load_file_fuel_mono files 2 10 _ Hle Hne)|
               vm_compute; reflexivity|vm_compute; reflexivity].
Defined.

Lemma load_file_terminates_witness :
  let files : gmap string ynode :=
    {[ "conf/net.yml" := YMap [(YStr "hosts", YInclude "hosts.yml")];
       "conf/hosts.yml" := YMap [(YStr "web1", YInclude "web1.yml")] ]} in
  loadable files "conf/net.yml" ∧
  ∃ n, load_file n files "conf/net.yml" ≠ Err RecursionError ∧
       ∀ m, n ≤ m → load_file m files "conf/net.yml" = load_file n files "conf/net.yml".
Proof.
  intros files.
  assert (loadable files "conf/net.yml") as Hl.
  { eapply loadable_doc; [vm_compute; reflexivity|]. intros s Hs.
    simpl in Hs. apply list_elem_of_singleton in Hs as ->.
    eapply loadable_doc; [vm_compute; reflexivity|]. intros s Hs.
    simpl in Hs. apply list_elem_of_singleton in Hs as ->.
    apply loadable_missing. vm_compute. reflexivity. }
  split; [exact Hl|]. exact (load_file_terminates files _ Hl).
Defined.

Lemma load_file_wf_witness :
  let files : gmap string ynode :=
    {[ "conf/net.yml" := YMap [(YStr "hosts", YInclude "hosts.yml"); (YInt 1, YNull); (YBool true, YStr "x")];
       "conf/hosts.yml" := YMap [(YStr "web1", YNull); (YStr "web1", YInt 2)] ]} in
  load_file 3 files "conf/net.yml" =
    Ok (PDict [(PStr "hosts", PDict [(PStr "web1", PInt 2)]); (PInt 1, PStr "x")]) ∧
  py_wf (PDict [(PStr "hosts", PDict [(PStr "web1", PInt 2)]); (PInt 1, PStr "x")]) = true.
Proof.
  intros files.
  assert (load_file 3 files "conf/net.yml" =
    Ok (PDict [(PStr "hosts", PDict [(PStr "web1", PInt 2)]); (PInt 1, PStr "x")])) as H
    by (vm_compute; reflexivity).
  split; [exact H|]. exact (load_file_wf _ _ _ _ H).
Defined.

Lemma load_file_self_include_witness :
  let files : gmap string ynode := {[ "conf/net.yml" := YInclude "net.yml" ]} in
  files !! "conf/net.yml" = Some (YInclude "net.yml") ∧
  path_join (path_dirname "conf/net.yml") "net.yml" = "conf/net.yml" ∧
  load_file 1000 files "conf/net.yml" = Err RecursionError.
Proof.
  intros files.
  assert (files !! "conf/net.yml" = Some (YInclude "net.yml")) as Hp by (vm_compute; reflexivity).
  assert (path_join (path_dirname "conf/net.yml") "net.yml" = "conf/net.yml") as Hj
    by (vm_compute; reflexivity).
  split_and!; [exact Hp|exact Hj|exact (load_file_self_include files _ _ Hp Hj 1000)].
Defined.

End Loader.
