(* ===== verification/Yaml.v ===== *)
(** * PyYAML's typing of plain scalars, and the loader on composed nodes

    [yaml.load(file, CustomLoader)] (src/iftool.py:89, 77) composes the
    text into nodes and constructs Python values from them; [Loader]
    starts from typed nodes ([ynode]).  This file models the step that
    types them, as [yaml.Loader], the base class of [CustomLoader]
    (line 66), does it.  The resolver gives every plain (unquoted) scalar
    the tag of the first implicit resolver whose regular expression
    matches the whole text (YAML 1.1: [bool], [float], [int], [merge],
    [null], [timestamp], [value], in the order [resolver.py] registers
    them), else [str]; quoted scalars are [str].  The constructor then
    builds the value: [construct_yaml_bool] by
    [bool_values[value.lower()]], [construct_yaml_int] (underscores
    dropped, sign, [0b], [0x], a leading [0] for octal, [:] for base 60,
    with [int(s, base)] raising [ValueError] on an empty digit string),
    [construct_yaml_null]; floats, timestamps, merge keys and the
    [value] tag give [NotModelled].

    The regular expressions are terms of [re], transcribed from
    [resolver.py], matched by Brzozowski derivatives ([re_matches]) and
    given an inductive semantics ([in_re]); [re_matches_correct] proves
    the matcher decides the semantics.  [construct_raw] and
    [load_raw_file] are [Loader.construct] and [Loader.load_file] on
    composed nodes ([rnode]), typing each scalar where the constructor
    meets it, depth first (PyYAML defers nested collections, so with
    several scalars whose [int()] raises, the one reported may differ).

    Theorems: a plain scalar that reads as a name (a letter, then
    letters, digits, [_], [-], [.]) is a [str] unless it is one of the
    boolean or null words of YAML 1.1 (C27), so unquoted host, device
    and table names stay strings; [str()] of an integer is read back as
    that integer (C32).  [firsts], an over-approximation of the first
    characters of the words of an expression, carries the first. *)

From S2P Require Import Prelude PyStr PyVal Loader.
From stdpp Require Import gmap pretty.
From Stdlib Require Import Ascii.
Import String.

Module Yaml.
Import PyStr PyVal Loader.

(** ** Regular expressions *)

(** [RSet f] is a character class. *)
Inductive re :=
| RNone
| REps
| RSet (f : ascii → bool)
| RCat (r1 r2 : re)
| RAlt (r1 r2 : re)
| RStar (r : re).

(** The words of a regular expression. *)
Inductive in_re : re → list ascii → Prop :=
| in_eps : in_re REps []
| in_set f a : f a = true → in_re (RSet f) [a]
| in_cat r1 r2 w1 w2 : in_re r1 w1 → in_re r2 w2 → in_re (RCat r1 r2) (w1 ++ w2)
| in_alt_l r1 r2 w : in_re r1 w → in_re (RAlt r1 r2) w
| in_alt_r r1 r2 w : in_re r2 w → in_re (RAlt r1 r2) w
| in_star_nil r : in_re (RStar r) []
| in_star_app r w1 w2 : in_re r w1 → in_re (RStar r) w2 → in_re (RStar r) (w1 ++ w2).

Fixpoint nullable (r : re) : bool :=
  match r with
  | RNone | RSet _ => false
  | REps | RStar _ => true
  | RCat r1 r2 => nullable r1 && nullable r2
  | RAlt r1 r2 => nullable r1 || nullable r2
  end.

(** The derivative: the words [w] such that [a :: w] is a word of [r]. *)
Fixpoint deriv (a : ascii) (r : re) : re :=
  match r with
  | RNone | REps => RNone
  | RSet f => if f a then REps else RNone
  | RCat r1 r2 =>
      if nullable r1 then RAlt (RCat (deriv a r1) r2) (deriv a r2) else RCat (deriv a r1) r2
  | RAlt r1 r2 => RAlt (deriv a r1) (deriv a r2)
  | RStar r1 => RCat (deriv a r1) (RStar r1)
  end.

(** [re.match(regexp + '$', text)] on the whole text. *)
Definition re_matches (r : re) (cs : list ascii) : bool :=
  nullable (fold_left (λ r a, deriv a r) cs r).

(** The notations of [resolver.py]: a character, a word, [[...]],
    [?], [+], a choice and a sequence. *)
(** The characters a word of [r] may start with: an over-approximation
    ([RCat] adds those of [r2] whenever [r1] matches the empty word). *)
Fixpoint firsts (r : re) (a : ascii) : bool :=
  match r with
  | RNone | REps => false
  | RSet f => f a
  | RCat r1 r2 => firsts r1 a || (nullable r1 && firsts r2 a)
  | RAlt r1 r2 => firsts r1 a || firsts r2 a
  | RStar r => firsts r a
  end.

Definition RChar (c : ascii) : re := RSet (λ a, Ascii.eqb a c).
Definition RWord (s : string) : re := fold_right (λ c r, RCat (RChar c) r) REps (chars s).
Definition in_class (s : string) (a : ascii) : bool := existsb (Ascii.eqb a) (chars s).
Definition RIn (s : string) : re := RSet (in_class s).
Definition ROpt (r : re) : re := RAlt REps r.
Definition RPlus (r : re) : re := RCat r (RStar r).
Definition RAlts (rs : list re) : re := fold_right RAlt RNone rs.
Definition RSeqs (rs : list re) : re := fold_right RCat REps rs.

(** ** The implicit resolvers of [resolver.py] *)

Definition digits : string := "0123456789".
Definition digits_ : string := "0123456789_".
Definition tab : ascii := ascii_of_nat 9.
Definition RSign : re := ROpt (RIn "-+").
Definition RDigit : re := RIn digits.
(** [(?::[0-5]?[0-9])+] *)
Definition RBase60 : re := RPlus (RSeqs [RChar ":"; ROpt (RIn "012345"); RDigit]).
Definition RExponent : re := ROpt (RSeqs [RIn "eE"; RIn "-+"; RPlus RDigit]).

(** [yes|Yes|YES|no|No|NO|true|True|TRUE|false|False|FALSE|on|On|ON|off|Off|OFF] *)
Definition bool_words : list string :=
  ["yes"; "Yes"; "YES"; "no"; "No"; "NO"; "true"; "True"; "TRUE";
   "false"; "False"; "FALSE"; "on"; "On"; "ON"; "off"; "Off"; "OFF"].

Definition bool_re : re := RAlts (map RWord bool_words).

(** Written [[-+]?(?:[0-9][0-9_]* )\.[0-9_]*(?:[eE][-+][0-9]+)?
     |\.[0-9_]+(?:[eE][-+][0-9]+)?
     |[-+]?[0-9][0-9_]*(?::[0-5]?[0-9])+\.[0-9_]*
     |[-+]?\.(?:inf|Inf|INF)
     |\.(?:nan|NaN|NAN)] *)
Definition float_re : re :=
  RAlts [RSeqs [RSign; RDigit; RStar (RIn digits_); RChar "."; RStar (RIn digits_); RExponent];
         RSeqs [RChar "."; RPlus (RIn digits_); RExponent];
         RSeqs [RSign; RDigit; RStar (RIn digits_); RBase60; RChar "."; RStar (RIn digits_)];
         RSeqs [RSign; RChar "."; RAlts [RWord "inf"; RWord "Inf"; RWord "INF"]];
         RSeqs [RChar "."; RAlts [RWord "nan"; RWord "NaN"; RWord "NAN"]]].

(** [[-+]?0b[0-1_]+
     |[-+]?0[0-7_]+
     |[-+]?(?:0|[1-9][0-9_]* )
     |[-+]?0x[0-9a-fA-F_]+
     |[-+]?[1-9][0-9_]*(?::[0-5]?[0-9])+] *)
Definition int_re : re :=
  RAlts [RSeqs [RSign; RWord "0b"; RPlus (RIn "01_")];
         RSeqs [RSign; RChar "0"; RPlus (RIn "01234567_")];
         RSeqs [RSign; RAlt (RChar "0") (RCat (RIn "123456789") (RStar (RIn digits_)))];
         RSeqs [RSign; RWord "0x"; RPlus (RIn "0123456789abcdefABCDEF_")];
         RSeqs [RSign; RIn "123456789"; RStar (RIn digits_); RBase60]].

Definition merge_re : re := RWord "<<".

(** [~|null|Null|NULL| ] (the last alternative is the empty text) *)
Definition null_words : list string := ["~"; "null"; "Null"; "NULL"; EmptyString].

Definition null_re : re := RAlts (map RWord null_words).

(** [[0-9][0-9][0-9][0-9]-[0-9][0-9]-[0-9][0-9]
     |[0-9][0-9][0-9][0-9]-[0-9][0-9]?-[0-9][0-9]?(?:[Tt]|[ \t]+)[0-9][0-9]?
      :[0-9][0-9]:[0-9][0-9](?:\.[0-9]* )?(?:[ \t]*(?:Z|[-+][0-9][0-9]?(?::[0-9][0-9])?))?] *)
Definition timestamp_re : re :=
  let blank := RSet (λ a, Ascii.eqb a " " || Ascii.eqb a tab) in
  RAlts [RSeqs [RDigit; RDigit; RDigit; RDigit; RChar "-"; RDigit; RDigit; RChar "-"; RDigit; RDigit];
         RSeqs [RDigit; RDigit; RDigit; RDigit; RChar "-"; RDigit; ROpt RDigit; RChar "-";
                RDigit; ROpt RDigit; RAlt (RIn "Tt") (RPlus blank); RDigit; ROpt RDigit;
                RChar ":"; RDigit; RDigit; RChar ":"; RDigit; RDigit;
                ROpt (RCat (RChar ".") (RStar RDigit));
                ROpt (RCat (RStar blank)
                           (RAlt (RChar "Z")
                                 (RSeqs [RIn "-+"; RDigit; ROpt RDigit;
                                         ROpt (RSeqs [RChar ":"; RDigit; RDigit])])))]].

Definition value_re : re := RWord "=".

Inductive tag := TBool | TFloat | TInt | TMerge | TNull | TTimestamp | TValue | TStr.

(** The resolvers in the order [resolver.py] registers them.  PyYAML
    tries those registered for the first character of the text (the
    key [''] for the empty text); every word of each expression starts
    with one of the characters it is registered for, so trying them all
    in order gives the same tag. *)
Definition implicit_resolvers : list (tag * re) :=
  [(TBool, bool_re); (TFloat, float_re); (TInt, int_re); (TMerge, merge_re);
   (TNull, null_re); (TTimestamp, timestamp_re); (TValue, value_re)].

(** [Resolver.resolve(ScalarNode, value, (True, False))]: the tag of a
    plain scalar. *)
Definition resolve_plain (text : string) : tag :=
  match List.find (λ tr, re_matches tr.2 (chars text)) implicit_resolvers with
  | Some (t, _) => t
  | None => TStr
  end.

(** A text that reads as a name: a letter, then letters, digits, [_],
    [-] and [.], as host names, device names and table names do. *)
Definition is_letter (a : ascii) : bool :=
  let n := nat_of_ascii a in (Nat.leb 65 n && Nat.leb n 90) || (Nat.leb 97 n && Nat.leb n 122).

Definition plain_name (text : string) : bool :=
  match chars text with
  | a :: cs => is_letter a && forallb (λ c, is_letter c || in_class "0123456789_-." c) cs
  | [] => false
  end.

(** ** The scalar constructors *)

Definition ascii_lower (a : ascii) : ascii :=
  let n := nat_of_ascii a in
  if Nat.leb 65 n && Nat.leb n 90 then ascii_of_nat (n + 32) else a.

(** [self.bool_values[value.lower()]] *)
Definition bool_value (text : string) : bool :=
  existsb (String.eqb (of_chars (map ascii_lower (chars text)))) ["yes"; "true"; "on"].

(** The value of a digit in the bases [int()] accepts. *)
Definition digit_val (c : ascii) : option Z :=
  let n := Z.of_nat (nat_of_ascii c) in
  if (48 <=? n)%Z && (n <=? 57)%Z then Some (n - 48)%Z
  else if (97 <=? n)%Z && (n <=? 122)%Z then Some (n - 87)%Z
  else if (65 <=? n)%Z && (n <=? 90)%Z then Some (n - 55)%Z
  else None.

Fixpoint int_digits (cs : list ascii) (base acc : Z) : option Z :=
  match cs with
  | [] => Some acc
  | c :: cs' =>
      match digit_val c with
      | Some d => if (d <? base)%Z then int_digits cs' base (acc * base + d)%Z else None
      | None => None
      end
  end.

(** [int(s, base)] on the texts the [int] expression lets through: a
    non-empty string of digits of the base, else [ValueError]. *)
Definition py_int (cs : list ascii) (base : Z) : except Z :=
  let err := ValueError ("invalid literal for int() with base " +:+ int_str base +:+ ": '" +:+
                         of_chars cs +:+ "'") in
  match cs with
  | [] => Err err
  | _ => match int_digits cs base 0 with Some z => Ok z | None => Err err end
  end.

(** The [if]/[elif] chain of [construct_yaml_int] on the text without
    its sign. *)
Definition construct_unsigned (v : list ascii) : except Z :=
  match v with
  | ["0"%char] => Ok 0%Z
  | "0"%char :: "b"%char :: rest => py_int rest 2
  | "0"%char :: "x"%char :: rest => py_int rest 16
  | "0"%char :: _ => py_int v 8
  | [] => Err IndexError
  | _ =>
      if existsb (Ascii.eqb ":") v then
        ds ← res_for (py_split ":" (of_chars v)) (λ part, py_int (chars part) 10);
        Ok (fold_left (λ acc d, acc * 60 + d) ds 0)%Z
      else py_int v 10
  end.

(** [construct_yaml_int]: underscores dropped, then the sign. *)
Definition construct_yaml_int (text : string) : except Z :=
  let v := List.filter (λ c, negb (Ascii.eqb c "_")) (chars text) in
  match v with
  | [] => Err IndexError
  | c0 :: _ =>
      let sign : Z := if Ascii.eqb c0 "-" then (-1)%Z else 1%Z in
      z ← construct_unsigned (if Ascii.eqb c0 "-" || Ascii.eqb c0 "+" then List.tl v else v);
      Ok (sign * z)%Z
  end.

(** The node a scalar constructs: a quoted scalar is a [str]. *)
Definition construct_scalar (plain : bool) (text : string) : except ynode :=
  if negb plain then Ok (YStr text)
  else match resolve_plain text with
       | TBool => Ok (YBool (bool_value text))
       | TInt => z ← construct_yaml_int text; Ok (YInt z)
       | TNull => Ok YNull
       | TStr => Ok (YStr text)
       | TFloat => Err (NotModelled "yaml float")
       | TTimestamp => Err (NotModelled "yaml timestamp")
       | TMerge => Err (NotModelled "yaml merge key")
       | TValue => Err (NotModelled "yaml value tag")
       end.

(** ** Composed nodes *)

(** The nodes of the composer: scalars with their text and whether they
    were plain, sequences, mappings, and [!include] scalars. *)
#[warnings="-register-all"]
Inductive rnode : Type :=
| RScalar (plain : bool) (text : string)
| RSeq (items : list rnode)
| RMap (pairs : list (rnode * rnode))
| RInclude (path : string).

(** [construct_object] on composed nodes. *)
Fixpoint construct_raw (include : string → except pyval) (node : rnode) : except pyval :=
  match node with
  | RScalar plain text => y ← construct_scalar plain text; construct include y
  | RSeq items => vs ← construct_items (construct_raw include) items; Ok (PList vs)
  | RMap pairs => d ← construct_pairs (construct_raw include) pairs []; Ok (PDict d)
  | RInclude s => include s
  end.

(** [yaml.load(open(filename), CustomLoader)] on files of composed nodes. *)
Fixpoint load_raw_file (fuel : nat) (files : gmap string rnode) (filename : string) : except pyval :=
  match fuel with
  | O => Err RecursionError
  | S fuel' =>
      match files !! filename with
      | None => Err (IOError filename)
      | Some doc => construct_raw (λ s, load_raw_file fuel' files (path_join (path_dirname filename) s)) doc
      end
  end.

(** ** The matcher and the semantics of regular expressions *)

Lemma nullable_correct r : nullable r = true ↔ in_re r [].
Proof.
  induction r as [| |f|r1 IH1 r2 IH2|r1 IH1 r2 IH2|r1 IH1]; simpl;
    split; intros H; try done; try (inversion H; fail); try (constructor; fail).
  - apply andb_true_iff in H as [H1 H2]. apply (in_cat _ _ [] []); tauto.
  - inversion H as [| |? ? w1 w2 Hw1 Hw2 Heq| | | |].
    match goal with Heq : _ ++ _ = [] |- _ => apply app_eq_nil in Heq as [-> ->] end.
    apply andb_true_iff; tauto.
  - apply orb_true_iff in H as [H|H]; [apply in_alt_l|apply in_alt_r]; tauto.
  - apply orb_true_iff. inversion H; subst; tauto.
Qed.

(** The words of [r*] that start with [a]: [a] and a word of [r], then
    words of [r*]. *)
Lemma in_star_cons r a w :
  in_re (RStar r) (a :: w) → ∃ w1 w2, w = w1 ++ w2 ∧ in_re r (a :: w1) ∧ in_re (RStar r) w2.
Proof.
  remember (RStar r) as s eqn:Hs. remember (a :: w) as v eqn:Hv. intros H. revert w Hv.
  induction H as [| | | | | |r' w1 w2 H1 _ H2 IH]; intros w' Hv; try discriminate.
  injection Hs as ->. destruct w1 as [|b w1]; simpl in Hv.
  - by apply IH.
  - injection Hv as -> <-. by exists w1, w2.
Qed.

Lemma deriv_correct a r w : in_re (deriv a r) w ↔ in_re r (a :: w).
Proof.
  revert w. induction r as [| |f|r1 IH1 r2 IH2|r1 IH1 r2 IH2|r1 IH1]; intros w; simpl.
  - split; inversion 1.
  - split; inversion 1.
  - destruct (f a) eqn:Hf; split; intros H; inversion H; subst; [by apply in_set|constructor|congruence].
  - split.
    + intros H. destruct (nullable r1) eqn:Hn.
      * inversion H as [| | |? ? ? H'|? ? ? H'| |]; subst.
        -- inversion H' as [| |? ? w1 w2 Hw1 Hw2| | | |]; subst.
           apply (in_cat _ _ (a :: w1) w2); [apply IH1|]; done.
        -- apply (in_cat _ _ [] (a :: w)); [apply nullable_correct|apply IH2]; done.
      * inversion H as [| |? ? w1 w2 Hw1 Hw2| | | |]; subst.
        apply (in_cat _ _ (a :: w1) w2); [apply IH1|]; done.
    + intros H. inversion H as [| |? ? w1 w2 Hw1 Hw2| | | |]; subst.
      match goal with Heq : w1 ++ w2 = a :: w |- _ => rename Heq into Hw end.
      destruct w1 as [|b w1]; simpl in Hw.
      * subst. apply nullable_correct in Hw1. rewrite Hw1. apply in_alt_r, IH2, Hw2.
      * injection Hw as -> <-.
        assert (in_re (RCat (deriv a r1) r2) (w1 ++ w2)) by (constructor; [apply IH1|]; done).
        destruct (nullable r1); [by apply in_alt_l|done].
  - split; inversion 1; subst; [apply in_alt_l, IH1|apply in_alt_r, IH2|
                                apply in_alt_l, IH1|apply in_alt_r, IH2]; done.
  - split.
    + inversion 1 as [| |? ? w1 w2 Hw1 Hw2| | | |]; subst.
      apply (in_star_app _ (a :: w1) w2); [apply IH1|]; done.
    + intros (w1 & w2 & -> & H1 & H2)%in_star_cons. constructor; [apply IH1|]; done.
Qed.

(** The matcher decides the semantics. *)
Lemma re_matches_correct r cs : re_matches r cs = true ↔ in_re r cs.
Proof.
  unfold re_matches. revert r. induction cs as [|a cs IH]; intros r; simpl.
  - apply nullable_correct.
  - rewrite IH. apply deriv_correct.
Qed.

(** ** The notations *)

Lemma in_RSet f w : in_re (RSet f) w ↔ ∃ a, w = [a] ∧ f a = true.
Proof. split; [inversion 1; eauto|intros (a & -> & Ha); by constructor]. Qed.

Lemma in_RChar c w : in_re (RChar c) w ↔ w = [c].
Proof.
  unfold RChar. rewrite in_RSet. split; [intros (a & -> & Ha); by apply Ascii.eqb_eq in Ha as ->|].
  intros ->. exists c. split; [done|apply Ascii.eqb_refl].
Qed.

Lemma in_RWord s w : in_re (RWord s) w ↔ w = chars s.
Proof.
  unfold RWord. revert w. induction s as [|c s IH]; intros w; simpl.
  - split; [by inversion 1|intros ->; constructor].
  - split.
    + inversion 1 as [| |? ? w1 w2 Hw1 Hw2| | | |]; subst.
      apply in_RChar in Hw1 as ->. apply IH in Hw2 as ->. done.
    + intros ->. apply (in_cat _ _ [c] (chars s)); [by apply in_RChar|by apply IH].
Qed.

Lemma in_RAlts rs w : in_re (RAlts rs) w ↔ Exists (λ r, in_re r w) rs.
Proof.
  induction rs as [|r rs IH]; simpl.
  - split; [inversion 1|inversion 1].
  - rewrite Exists_cons, <-IH. split; [inversion 1; subst; tauto|].
    intros [H|H]; [by apply in_alt_l|by apply in_alt_r].
Qed.

(** A word of a sequence contains every character the sequence requires. *)
Lemma in_RSeqs_char rs w c : in_re (RSeqs rs) w → RChar c ∈ rs → c ∈ w.
Proof.
  revert w. induction rs as [|r rs IH]; intros w; simpl; [intros _ Hc; by apply elem_of_nil in Hc|].
  inversion 1 as [| |? ? w1 w2 Hw1 Hw2| | | |]; subst. intros [<-|Hc]%elem_of_cons; apply elem_of_app.
  - left. apply in_RChar in Hw1 as ->. by apply list_elem_of_singleton.
  - right. by apply IH.
Qed.

(** ** The resolver *)

Lemma re_matches_false r cs : ¬ in_re r cs → re_matches r cs = false.
Proof. intros H. apply not_true_iff_false. by intros ?%re_matches_correct. Qed.

(** A property every character of a class has. *)
Lemma in_class_impl s (f : ascii → bool) : forallb f (chars s) = true → ∀ c, in_class s c = true → f c = true.
Proof.
  intros Hs c Hc. apply existsb_exists in Hc as (c' & Hin & ->%Ascii.eqb_eq).
  rewrite forallb_forall in Hs. by apply Hs.
Qed.

Lemma existsb_false {A} (f : A → bool) l : Forall (λ x, f x = false) l → existsb f l = false.
Proof. induction 1 as [|x l Hx _ IH]; simpl; [done|]. by rewrite Hx, IH. Qed.

Lemma filter_Forall_id {A} (f : A → bool) l : Forall (λ x, f x = true) l → List.filter f l = l.
Proof. induction 1 as [|x l Hx _ IH]; simpl; [done|]. by rewrite Hx, IH. Qed.

Lemma in_RStar_chars r w : Forall (λ c, in_re r [c]) w → in_re (RStar r) w.
Proof. induction 1 as [|c w Hc _ IH]; [constructor|]. by apply (in_star_app _ [c] w). Qed.

Lemma int_digits_app l1 l2 b acc :
  int_digits (l1 ++ l2) b acc = match int_digits l1 b acc with Some a => int_digits l2 b a | None => None end.
Proof.
  revert acc. induction l1 as [|c l1 IH]; intros acc; simpl; [done|].
  destruct (digit_val c); [|done]. destruct (_ <? _)%Z; [apply IH|done].
Qed.

Lemma pretty_N_char_digit d :
  (d < 10)%N →
  digit_val (pretty_N_char d) = Some (Z.of_N d) ∧ in_class digits (pretty_N_char d) = true ∧
  (d ≠ 0%N → in_class "123456789" (pretty_N_char d) = true).
Proof.
  intros Hd. assert (d = 0 ∨ d = 1 ∨ d = 2 ∨ d = 3 ∨ d = 4 ∨ d = 5 ∨ d = 6 ∨ d = 7 ∨ d = 8 ∨ d = 9)%N
    as Hcases by lia.
  destruct_or! Hcases; subst; (split_and!; [reflexivity|reflexivity|first [by intros []|reflexivity]]).
Qed.

(** [pretty_N_go x s] writes the decimal digits of [x], the first not
    [0], in front of [s]. *)
Lemma pretty_N_go_digits x s :
  (0 < x)%N →
  ∃ d ds, chars (pretty_N_go x s) = d :: ds ++ chars s ∧ in_class "123456789" d = true ∧
    Forall (λ c, in_class digits c = true) ds ∧ int_digits (d :: ds) 10 0 = Some (Z.of_N x).
Proof.
  revert s. induction x as [x IH] using (well_founded_induction N.lt_wf_0). intros s Hx.
  rewrite pretty_N_go_step by done.
  pose proof (N.div_mod x 10 ltac:(lia)). pose proof (N.mod_lt x 10 ltac:(lia)).
  destruct (pretty_N_char_digit (x mod 10)%N) as (Hv & Hc & Hnz); [lia|].
  destruct (decide (x / 10 = 0)%N) as [Hq|Hq].
  - rewrite Hq, pretty_N_go_0. exists (pretty_N_char (x mod 10)%N), [].
    split_and!; [done|apply Hnz; lia|constructor|]. simpl. rewrite Hv.
    rewrite (proj2 (Z.ltb_lt _ _)) by lia. f_equal. lia.
  - destruct (IH (x / 10)%N ltac:(apply N.div_lt; lia) (String (pretty_N_char (x mod 10)%N) s)
      ltac:(lia)) as (d & ds & Hs & Hd & Hds & Hval).
    exists d, (ds ++ [pretty_N_char (x mod 10)%N]). rewrite Hs. split_and!.
    + simpl. by rewrite <-app_assoc.
    + done.
    + apply Forall_app. split; [done|by constructor].
    + change (d :: ds ++ [pretty_N_char (x mod 10)%N]) with ((d :: ds) ++ [pretty_N_char (x mod 10)%N]).
      rewrite int_digits_app, Hval. simpl. rewrite Hv, (proj2 (Z.ltb_lt _ _)) by lia. f_equal. lia.
Qed.

(** [str(z)]: [0], or an optional minus sign and digits, the first not [0]. *)
Lemma int_str_word z :
  (z = 0%Z ∧ chars (int_str z) = ["0"%char]) ∨
  ∃ sg d ds, chars (int_str z) = sg ++ d :: ds ∧
    ((sg = [] ∧ (0 < z)%Z) ∨ (sg = ["-"%char] ∧ (z < 0)%Z)) ∧
    in_class "123456789" d = true ∧ Forall (λ c, in_class digits c = true) ds ∧
    int_digits (d :: ds) 10 0 = Some (Z.abs z).
Proof.
  destruct z as [|p|p]; [by left|right..];
    destruct (pretty_N_go_digits (N.pos p) "" ltac:(lia)) as (d & ds & Hs & Hd & Hds & Hval);
    rewrite app_nil_r in Hs.
  - exists [], d, ds. change (int_str (Z.pos p)) with (pretty_N_go (N.pos p) ""). rewrite Hs.
    split_and!; [done|left; split; [done|lia]|done..].
  - exists ["-"%char], d, ds. change (int_str (Z.neg p)) with ("-" +:+ pretty_N_go (N.pos p) "").
    rewrite chars_app, Hs. split_and!; [done|right; split; [done|lia]|done..].
Qed.

Lemma int_str_chars z : Forall (λ c, in_class "-0123456789" c = true) (chars (int_str z)).
Proof.
  destruct (int_str_word z) as [(_ & ->)|(sg & d & ds & -> & Hsg & Hd & Hds & _)]; [by repeat constructor|].
  apply Forall_app. split; [by destruct Hsg as [(-> & _)|(-> & _)]; repeat constructor|].
  constructor; [by apply (in_class_impl "123456789")|].
  eapply Forall_impl; [exact Hds|]. by apply (in_class_impl digits).
Qed.

Lemma int_str_in_int_re z : in_re int_re (chars (int_str z)).
Proof.
  unfold int_re, RAlts. apply in_alt_r, in_alt_r, in_alt_l. unfold RSeqs. simpl.
  destruct (int_str_word z) as [(_ & ->)|(sg & d & ds & -> & Hsg & Hd & Hds & _)].
  - apply (in_cat _ _ [] ["0"%char]); [by apply in_alt_l, in_eps|].
    apply (in_cat _ _ ["0"%char] []); [by apply in_alt_l, in_RChar|apply in_eps].
  - rewrite <-(app_nil_r (d :: ds)). apply in_cat.
    + destruct Hsg as [(-> & _)|(-> & _)]; [by apply in_alt_l, in_eps|by apply in_alt_r, in_RSet; eexists].
    + apply in_cat; [|apply in_eps]. apply in_alt_r, (in_cat _ _ [d] ds); [by apply in_RSet; eexists|].
      apply in_RStar_chars. eapply Forall_impl; [exact Hds|]. intros c Hc. apply in_RSet. exists c.
      split; [done|]. by apply (in_class_impl digits).
Qed.

Lemma int_str_not_bool z : ¬ in_re bool_re (chars (int_str z)).
Proof.
  unfold bool_re. intros (r & Hr & Hw)%in_RAlts%Exists_exists.
  apply list_elem_of_In, in_map_iff in Hr as (s & <- & Hs). apply in_RWord in Hw.
  pose proof (int_str_chars z) as Hc. rewrite Hw in Hc. simpl in Hs.
  destruct_or! Hs; subst; try done; apply Forall_inv in Hc; vm_compute in Hc; discriminate.
Qed.

Lemma int_str_not_float z : ¬ in_re float_re (chars (int_str z)).
Proof.
  intros H. assert ("."%char ∈ chars (int_str z)) as Hdot.
  { unfold float_re in H. apply in_RAlts in H.
    repeat (apply Exists_cons in H as [H|H]; [eapply in_RSeqs_char; [exact H|repeat constructor]|]).
    inversion H. }
  pose proof (int_str_chars z) as Hc. rewrite Forall_forall in Hc.
  specialize (Hc _ Hdot). vm_compute in Hc. discriminate.
Qed.

(** The branch of [construct_yaml_int] a text without sign that does not
    start with [0] takes. *)
Lemma construct_unsigned_nonzero d ds :
  d ≠ "0"%char →
  construct_unsigned (d :: ds) =
    if existsb (Ascii.eqb ":") (d :: ds) then
      (ds' ← res_for (py_split ":" (of_chars (d :: ds))) (λ part, py_int (chars part) 10);
       Ok (fold_left (λ acc d, acc * 60 + d) ds' 0)%Z)
    else py_int (d :: ds) 10.
Proof. intros Hd. destruct d as [[] [] [] [] [] [] [] []]; try reflexivity. by destruct Hd. Qed.

Lemma construct_yaml_int_int_str z : construct_yaml_int (int_str z) = Ok z.
Proof.
  destruct (int_str_word z) as [(-> & _)|(sg & d & ds & Hw & Hsg & Hd & Hds & Hval)]; [reflexivity|].
  unfold construct_yaml_int. rewrite filter_Forall_id.
  2:{ eapply Forall_impl; [apply int_str_chars|]. by apply (in_class_impl "-0123456789"). }
  assert (Hd' : Ascii.eqb d "-" = false ∧ Ascii.eqb d "+" = false ∧ Ascii.eqb d ":" = false ∧ d ≠ "0"%char).
  { apply (in_class_impl "123456789" (λ c, negb (Ascii.eqb c "-") && negb (Ascii.eqb c "+") &&
                                              negb (Ascii.eqb c ":") && negb (Ascii.eqb c "0"))) in Hd;
      [|reflexivity].
    repeat (apply andb_true_iff in Hd as [Hd ?%negb_true_iff]). apply negb_true_iff in Hd.
    split_and!; [done..|by apply Ascii.eqb_neq]. }
  destruct Hd' as (Hm & Hp & Hcolon & H0).
  assert (construct_unsigned (d :: ds) = Ok (Z.abs z)) as Hu.
  { rewrite construct_unsigned_nonzero by done. rewrite existsb_false.
    - unfold py_int. by rewrite Hval.
    - constructor; cbv beta; [by rewrite Ascii.eqb_sym|].
      eapply Forall_impl; [exact Hds|]. intros c Hc. rewrite Ascii.eqb_sym.
      by apply (in_class_impl digits (λ c, negb (Ascii.eqb c ":"))), negb_true_iff in Hc. }
  rewrite Hw. destruct Hsg as [(-> & Hz)|(-> & Hz)]; cbn [List.app].
  - rewrite Hm, Hp. cbn [orb]. rewrite Hu. simpl. f_equal. lia.
  - rewrite Ascii.eqb_refl. cbn [orb List.tl]. rewrite Hu. simpl. f_equal. lia.
Qed.

(** ** Composed nodes *)

(** ** Theorems *)

(** A word starts with one of the [firsts] of its expression. *)
Lemma firsts_correct r w : in_re r w → ∀ a w', w = a :: w' → firsts r a = true.
Proof.
  induction 1 as [|f a Hf|r1 r2 w1 w2 H1 IH1 H2 IH2|r1 r2 w H IH|r1 r2 w H IH|r|r w1 w2 H1 IH1 H2 IH2];
    intros b w' Hw; simpl; try discriminate.
  - by injection Hw as -> _.
  - destruct w1 as [|c w1]; simpl in Hw.
    + apply nullable_correct in H1. by rewrite H1, (IH2 b w' Hw), orb_true_r.
    + injection Hw as -> _. by rewrite (IH1 b w1 eq_refl).
  - by rewrite (IH b w' Hw).
  - by rewrite (IH b w' Hw), orb_true_r.
  - destruct w1 as [|c w1]; simpl in Hw; [by apply (IH2 b w' Hw)|].
    injection Hw as -> _. by apply (IH1 b w1).
Qed.

Lemma not_in_re_firsts r a w : firsts r a = false → ¬ in_re r (a :: w).
Proof. intros Hf Hin. by rewrite (firsts_correct _ _ Hin a w eq_refl) in Hf. Qed.

(** No word of the [float], [int], merge, timestamp and [value]
    expressions starts with a letter. *)
Lemma letter_firsts a :
  is_letter a = true →
  firsts float_re a = false ∧ firsts int_re a = false ∧ firsts merge_re a = false ∧
  firsts timestamp_re a = false ∧ firsts value_re a = false.
Proof.
  destruct a as [[] [] [] [] [] [] [] []]; intros H; vm_compute in H |- *;
    first [discriminate | split_and!; reflexivity].
Qed.

Lemma in_RWords ws w : in_re (RAlts (map RWord ws)) w ↔ ∃ s, s ∈ ws ∧ w = chars s.
Proof.
  rewrite in_RAlts, Exists_exists. split.
  - intros (r & (s & <- & Hs)%list_elem_of_In%in_map_iff & Hw%in_RWord).
    exists s. split; [by apply list_elem_of_In|done].
  - intros (s & Hs & ->). exists (RWord s). split; [|by apply in_RWord].
    apply list_elem_of_In, in_map_iff. exists s. split; [done|by apply list_elem_of_In].
Qed.

Lemma not_in_RWords ws text : text ∉ ws → ¬ in_re (RAlts (map RWord ws)) (chars text).
Proof.
  intros Hn (s & Hs & Hw)%in_RWords. apply Hn.
  rewrite <-(Stdlib.Strings.String.string_of_list_ascii_of_string text), Hw.
  by rewrite Stdlib.Strings.String.string_of_list_ascii_of_string.
Qed.

(** C27: A plain scalar that reads as a name (a letter, then letters,
    digits, [_], [-] and [.]) is constructed as the string itself,
    unless it is one of the boolean words or null words of YAML 1.1:
    no other implicit resolver matches it. *)
Theorem construct_scalar_plain_name text :
  plain_name text = true → text ∉ bool_words → text ∉ null_words →
  construct_scalar true text = Ok (YStr text).
Proof.
  intros Hn Hb Hnull. unfold construct_scalar. cbn [negb].
  assert (resolve_plain text = TStr) as ->; [|done].
  unfold plain_name in Hn. destruct (chars text) as [|a cs] eqn:Ec; [done|].
  apply andb_true_iff in Hn as [Ha _].
  destruct (letter_firsts a Ha) as (Hf & Hi & Hm & Ht & Hv).
  unfold resolve_plain, implicit_resolvers. cbn [List.find snd].
  rewrite (re_matches_false bool_re) by (by apply not_in_RWords).
  rewrite (re_matches_false float_re), (re_matches_false int_re), (re_matches_false merge_re)
    by (rewrite Ec; by apply not_in_re_firsts).
  rewrite (re_matches_false null_re) by (by apply not_in_RWords).
  rewrite (re_matches_false timestamp_re), (re_matches_false value_re)
    by (rewrite Ec; by apply not_in_re_firsts).
  done.
Qed.

Lemma construct_scalar_plain_name_witness :
  plain_name "web1.example.com" = true ∧ "web1.example.com" ∉ bool_words ∧
  "web1.example.com" ∉ null_words ∧
  construct_scalar true "web1.example.com" = Ok (YStr "web1.example.com").
Proof.
  assert (plain_name "web1.example.com" = true) as H1 by reflexivity.
  assert ("web1.example.com" ∉ bool_words) as H2 by (unfold bool_words; set_solver).
  assert ("web1.example.com" ∉ null_words) as H3 by (unfold null_words; set_solver).
  split_and!; [exact H1|exact H2|exact H3|exact (construct_scalar_plain_name _ H1 H2 H3)].
Defined.

(** C32: An integer written in decimal as [str()] writes it is read back
    as that integer: PyYAML resolves the plain scalar to [int] (it is not
    a YAML 1.1 boolean, has no [.] of a float, and matches the decimal
    alternative of the [int] expression) and [construct_yaml_int] gives
    its value, the sign included. *)
Theorem construct_scalar_int_str z : construct_scalar true (int_str z) = Ok (YInt z).
Proof.
  unfold construct_scalar. cbn [negb].
  assert (resolve_plain (int_str z) = TInt) as ->.
  { unfold resolve_plain, implicit_resolvers. cbn [List.find snd].
    rewrite (re_matches_false _ _ (int_str_not_bool z)), (re_matches_false _ _ (int_str_not_float z)).
    by rewrite (proj2 (re_matches_correct _ _) (int_str_in_int_re z)). }
  by rewrite construct_yaml_int_int_str.
Qed.

End Yaml.
