(* ===== verification/Output.v ===== *)
(** * The output sink: stdout, the file system and the write-or-preview block

    [say] (src/iftool.py:44-55) writes [str(text)] as one line on stdout
    and [verbose] (58-63) does so only under [--verbose]; under Python 2
    [str()] of a [unicode] text that is not ASCII raises
    [UnicodeEncodeError] ([ptext], [str_text]).  Each renderer ends with
    the same block (lines 115-123, 152-160, 189-197, 243-251): with
    [--yes] it computes the verbose message (a second [os.path.join]),
    opens the file for writing, which truncates it, and writes the
    content, which [file.write] encodes with ASCII; otherwise it prints a
    dry-run banner, every line of the content prefixed by ["> "], and a
    reminder.  This file states what the renderers need of a file system
    as the [FileSystem] class with its laws, implements it on stdpp's
    [gmap] ([gfs]), and defines the world the program runs in: the lines
    printed so far and the file system.  The three flags of [main]
    (globals [VERBOSE], [YES], [OVERWRITE]) are the record [flags], passed
    as a parameter since they are set once and never changed. *)

From S2P Require Import Prelude PyStr PyVal.
From stdpp Require Import gmap.
From Stdlib Require Import Ascii.
Import String.



Module Output.
Import PyStr PyVal.

(** ** The file system interface *)

(** [fs_write f p c] is [open(p, 'wt').write(c)]: [None] when [open]
    raises [IOError]. *)
Class FileSystem (F : Type) := {
  fs_read : F → string → option string;
  fs_can_write : F → string → bool;
  fs_write : F → string → string → option F
}.

Class FileSystemLaws (F : Type) `{FileSystem F} := {
  fs_write_fails f p c : fs_write f p c = None ↔ fs_can_write f p = false;
  fs_write_read f p c f' : fs_write f p c = Some f' → fs_read f' p = Some c;
  fs_write_read_other f p c f' q :
    fs_write f p c = Some f' → q ≠ p → fs_read f' q = fs_read f q;
  fs_write_can_write f p c f' q :
    fs_write f p c = Some f' → fs_can_write f' q = fs_can_write f q
}.

(** ** A file system on [gmap]: regular files and directories

    [open(p, 'w')] succeeds when [p] is not a directory and its parent
    directory exists (a relative path with no directory part is in the
    current directory, which exists).  Paths are compared as strings:
    no normalisation of [..], [//] or symbolic links. *)
Record gfs := mk_gfs {
  gfs_files : gmap string string;
  gfs_dirs : gset string
}.

Definition gfs_can_write (g : gfs) (p : string) : bool :=
  bool_decide (p ∉ gfs_dirs g) &&
  (String.eqb (path_dirname p) EmptyString || bool_decide (path_dirname p ∈ gfs_dirs g)).

#[export] Instance gfs_fs : FileSystem gfs := {
  fs_read g p := gfs_files g !! p;
  fs_can_write := gfs_can_write;
  fs_write g p c :=
    if gfs_can_write g p then Some (mk_gfs (<[p := c]> (gfs_files g)) (gfs_dirs g)) else None
}.

(** ** The world and the program monad *)

Record flags := mk_flags {
  VERBOSE : bool;
  YES : bool;
  OVERWRITE : bool
}.

Record world (F : Type) := mk_world {
  w_stdout : list string;
  w_fs : F
}.
Arguments mk_world {F} _ _.
Arguments w_stdout {F} _.
Arguments w_fs {F} _.

Abbreviation prog F := (st (world F) exn).

(** A text handed to [say]: a byte string, or a unicode string (the
    output of Jinja2 and any [%]-formatting of it). *)
Inductive ptext :=
| Bytes (s : string)
| Unicode (s : string).

(** [str(text)] *)
Definition str_text (t : ptext) : except string :=
  match t with Bytes s => Ok s | Unicode s => str_unicode s end.

Definition text_of (t : ptext) : string := match t with Bytes s | Unicode s => s end.

Section sink.
Context {F : Type} `{FileSystem F}.

(** [stream.write(s)], [stream.write(os.linesep)]: one line of stdout. *)
Definition print_line (s : string) : prog F unit :=
  modify (λ w, mk_world (w_stdout w ++ [s]) (w_fs w)).

(** [say(text)], lines 44-55: [str(text)] raises [UnicodeEncodeError] on
    a unicode text that is not ASCII, before anything is written. *)
Definition say (t : ptext) : prog F unit :=
  s ← lift (str_text t); print_line s.

(** [verbose(text)] *)
Definition verbose (fl : flags) (t : ptext) : prog F unit :=
  if VERBOSE fl then say t else skip.

(** [with open(filename, 'wt') as file: file.write(content)]: [open]
    raises [IOError] or creates and truncates the file; [file.write] of
    a unicode content encodes it with ASCII and raises
    [UnicodeEncodeError], leaving the file empty.  [open] of a unicode
    path encodes it with the file system encoding, which depends on the
    locale: a path that is not ASCII is outside the model. *)
Definition write_file (filename content : string) : prog F unit :=
  λ w,
    if negb (is_ascii filename) then (w, Err (NotModelled "open() of a non-ASCII path"))
    else match fs_write (w_fs w) filename "" with
         | None => (w, Err (IOError filename))
         | Some f1 =>
             match str_unicode content with
             | Err e => (mk_world (w_stdout w) f1, Err e)
             | Ok c =>
                 match fs_write f1 filename c with
                 | Some f2 => (mk_world (w_stdout w) f2, Ok ())
                 | None => (mk_world (w_stdout w) f1, Err (IOError filename))
                 end
             end
         end.

Definition dquote : string := String (ascii_of_nat 34) EmptyString.

(** ['Use "--yes" option to write file.'] *)
Definition use_yes_msg : string :=
  "Use " +:+ dquote +:+ "--yes" +:+ dquote +:+ " option to write file.".

(** The write-or-preview block, lines 115-123; [filename] is already
    joined with the destination (line 112).  The argument of [verbose]
    is computed whatever the flag: [os.path.join] of the destination
    (bytes) and the filename (unicode), which joins the destination
    once more. *)
Definition emit (fl : flags) (destination filename content : string) : prog F unit :=
  if YES fl then
    p ← lift (path_join_unicode destination filename);
    do verbose fl (Unicode ("Writing " +:+ p)) ;;
    write_file filename content
  else
    do say (Unicode ("<DRY-RUN> not writing " +:+ filename)) ;;
    do for_each (splitlines content) (λ line, say (Unicode ("> " +:+ line))) ;;
    say (Bytes use_yes_msg).
End sink.

(** The texts the dry run hands to [say] for one file. *)
Definition dry_run_lines (filename content : string) : list ptext :=
  [Unicode ("<DRY-RUN> not writing " +:+ filename)] ++
  map (λ line, Unicode ("> " +:+ line)) (splitlines content) ++ [Bytes use_yes_msg].

(** The line [--verbose] adds before writing, when the paths are ASCII. *)
Definition verbose_lines (fl : flags) (destination filename : string) : list string :=
  if VERBOSE fl then ["Writing " +:+ path_join destination filename] else [].

(** What a sequence of [say] calls prints, and the exception of the
    first text [str()] refuses. *)
Fixpoint print_texts (ts : list ptext) : list string * option exn :=
  match ts with
  | [] => ([], None)
  | t :: ts' =>
      match str_text t with
      | Ok s => (s :: fst (print_texts ts'), snd (print_texts ts'))
      | Err e => ([], Some e)
      end
  end.

(** ** The renderers' effects

    The renderers read the flags only inside the write-or-preview block;
    everything else they do is pure or an exception.  A renderer is
    therefore a program of [io]: it prints a line ([Say], the
    [say(...)] of the failed host lookup), hands a file to the sink
    ([Emit], the block of lines 115-123), raises, or returns; [run]
    executes such a program in the world under the flags. *)
Inductive io (A : Type) : Type :=
| Done (a : A)
| Raise (e : exn)
| Say (msg : string) (k : io A)
| Emit (destination filename content : string) (k : io A).
Arguments Done {A} a.
Arguments Raise {A} e.
Arguments Say {A} msg k.
Arguments Emit {A} destination filename content k.

Fixpoint io_bind {A B} (f : A → io B) (c : io A) : io B :=
  match c with
  | Done a => f a
  | Raise e => Raise e
  | Say m k => Say m (io_bind f k)
  | Emit d fn c k => Emit d fn c (io_bind f k)
  end.

#[export] Instance io_ret : MRet io := @Done.
#[export] Instance io_bind_inst : MBind io := @io_bind.

(** A pure step that may raise. *)
Definition io_lift {A} (r : except A) : io A :=
  match r with Ok a => Done a | Err e => Raise e end.

Definition io_say (msg : string) : io unit := Say msg (Done ()).
Definition io_emit (destination filename content : string) : io unit :=
  Emit destination filename content (Done ()).

(** [for x in xs: body(x)] *)
Fixpoint io_for_each {A} (xs : list A) (body : A → io unit) : io unit :=
  match xs with
  | [] => Done ()
  | x :: xs' => do body x ;; io_for_each xs' body
  end.

(** What a program does, in order, and how it ends. *)
Inductive event :=
| ESay (msg : string)
| EEmit (destination filename content : string).

Fixpoint events {A} (c : io A) : list event :=
  match c with
  | Done _ | Raise _ => []
  | Say m k => ESay m :: events k
  | Emit d fn ct k => EEmit d fn ct :: events k
  end.

Fixpoint outcome {A} (c : io A) : except A :=
  match c with
  | Done a => Ok a
  | Raise e => Err e
  | Say _ k | Emit _ _ _ k => outcome k
  end.

Section run.
Context {F : Type} `{FileSystem F}.

Fixpoint run {A} (fl : flags) (c : io A) : prog F A :=
  match c with
  | Done a => mret a
  | Raise e => raise e
  | Say m k => do say (Bytes m) ;; run fl k
  | Emit d fn ct k => do emit fl d fn ct ;; run fl k
  end.

(** The texts a dry run hands to [say] for each event. *)
Definition dry_event_lines (ev : event) : list ptext :=
  match ev with
  | ESay m => [Bytes m]
  | EEmit _ fn ct => dry_run_lines fn ct
  end.

(** The lines a confirmed run prints for each event. *)
Definition yes_event_lines (fl : flags) (ev : event) : list string :=
  match ev with
  | ESay m => [m]
  | EEmit d fn _ => verbose_lines fl d fn
  end.

(** An event whose destination, filename and content are ASCII: the
    texts of its block are all accepted by [str()] and [file.write]. *)
Definition event_ascii (ev : event) : bool :=
  match ev with
  | ESay _ => true
  | EEmit d fn ct => is_ascii d && is_ascii fn && is_ascii ct
  end.

(** The file system after the [open] and the [write] of each file of a
    confirmed run. *)
Fixpoint apply_writes (f : F) (evs : list event) : option F :=
  match evs with
  | [] => Some f
  | ESay _ :: evs' => apply_writes f evs'
  | EEmit _ fn ct :: evs' => f1 ← fs_write f fn ""; f2 ← fs_write f1 fn ct; apply_writes f2 evs'
  end.
End run.

(** [sys.exit] status of an outcome: 0 on a normal end, the code of
    [SystemExit], 1 for any other uncaught exception. *)
Definition exit_status {A} (r : except A) : Z :=
  match r with
  | Ok _ => 0
  | Err (SystemExit code) => code
  | Err _ => 1
  end.

(** The number of files a program hands to the sink. *)
Definition nwrites {A} (c : io A) : nat :=
  length (omap (λ ev, match ev with EEmit _ fn _ => Some fn | ESay _ => None end) (events c)).

(** The last content a list of events writes to [p]. *)
Definition last_write (p : string) (evs : list event) : option string :=
  fold_left (λ r ev, match ev with
                     | EEmit _ fn ct => if String.eqb fn p then Some ct else r
                     | ESay _ => r
                     end) evs None.

(** The files a list of events writes. *)
Definition written_files (evs : list event) : list string :=
  omap (λ ev, match ev with EEmit _ fn _ => Some fn | ESay _ => None end) evs.

Definition opt_raise (e : option exn) : except unit :=
  match e with Some e => Err e | None => Ok () end.

(** ** Lemmas on programs *)

Lemma events_bind {A B} (c : io A) (f : A → io B) :
  events (c ≫= f) = events c ++ match outcome c with Ok a => events (f a) | Err _ => [] end.
Proof. induction c; simpl; try done; f_equal; apply IHc. Qed.

Lemma outcome_bind {A B} (c : io A) (f : A → io B) :
  outcome (c ≫= f) = (outcome c ≫= λ a, outcome (f a)).
Proof. induction c; simpl; try done; apply IHc. Qed.

Lemma io_lift_bind {A B} (r : except A) (f : A → io B) :
  (io_lift r ≫= f) = match r with Ok a => f a | Err e => Raise e end.
Proof. by destruct r. Qed.

Lemma io_ret_bind {A B} (a : A) (f : A → io B) : (mret a ≫= f) = f a.
Proof. reflexivity. Qed.

Lemma io_bind_assoc {A B C} (c : io A) (f : A → io B) (g : B → io C) :
  ((c ≫= f) ≫= g) = (c ≫= λ x, f x ≫= g).
Proof. induction c; simpl; by f_equal. Qed.

(** A program that prints nothing, writes nothing and returns [x] is
    [Done x]. *)
Lemma io_silent_Done {A} (c : io A) x : events c = [] → outcome c = Ok x → c = Done x.
Proof. destruct c; simpl; congruence. Qed.

(** What follows a program that raises is never run. *)
Lemma io_bind_raises {A B} (c : io A) e (f g : A → io B) :
  outcome c = Err e → (c ≫= f) = (c ≫= g).
Proof. induction c; simpl; intros; [done|done|f_equal; auto|f_equal; auto]. Qed.

Lemma nwrites_bind {A B} (c : io A) (f : A → io B) :
  nwrites (c ≫= f) = nwrites c + match outcome c with Ok a => nwrites (f a) | Err _ => 0 end.
Proof.
  unfold nwrites. rewrite events_bind, omap_app, length_app. by destruct (outcome c).
Qed.

(** Sequencing: a program that hands [n] files to the sink when it
    succeeds, followed by one that hands [m], hands [n + m]. *)
Lemma nwrites_seq (c k : io unit) n m :
  (outcome c = Ok () → nwrites c = n) → (outcome k = Ok () → nwrites k = m) →
  outcome (do c ;; k) = Ok () → nwrites (do c ;; k) = n + m.
Proof.
  intros Hc Hk. rewrite outcome_bind, nwrites_bind.
  destruct (outcome c) as [[]|e]; simpl; [|done]. intros Ho. rewrite Hc, Hk; auto.
Qed.

Lemma outcome_seq_inv (c k : io unit) :
  outcome (do c ;; k) = Ok () → outcome c = Ok () ∧ outcome k = Ok ().
Proof. rewrite outcome_bind. destruct (outcome c) as [[]|e]; simpl; [done|by intros]. Qed.

Lemma nwrites_for_each {A} (xs : list A) (body : A → io unit) :
  (∀ x, x ∈ xs → outcome (body x) = Ok () → nwrites (body x) = 1) →
  outcome (io_for_each xs body) = Ok () → nwrites (io_for_each xs body) = length xs.
Proof.
  induction xs as [|x xs IH]; intros Hb; simpl; [done|].
  intros Ho. rewrite (nwrites_seq _ _ 1 (length xs)); [done| |apply IH|done].
  - apply Hb. by left.
  - intros y Hy. apply Hb. by right.
Qed.

(** Every event of [c ≫= f] is an event of [c] or of some [f a]. *)
Lemma events_bind_Forall {A B} (P : event → Prop) (c : io A) (f : A → io B) :
  Forall P (events c) → (∀ a, Forall P (events (f a))) → Forall P (events (c ≫= f)).
Proof.
  intros Hc Hf. rewrite events_bind. apply Forall_app. split; [done|]. by destruct (outcome c).
Qed.

Lemma events_for_each_Forall {A} (P : event → Prop) (xs : list A) (body : A → io unit) :
  (∀ x, Forall P (events (body x))) → Forall P (events (io_for_each xs body)).
Proof.
  intros Hb. induction xs as [|x xs IH]; simpl; [constructor|]. by apply events_bind_Forall.
Qed.

#[export] Hint Rewrite @events_bind @outcome_bind @io_lift_bind @io_ret_bind : iftool_run.

#[export] Instance gfs_laws : FileSystemLaws gfs.
Proof.
  split; simpl; intros g p.
  - intros c. destruct (gfs_can_write g p); naive_solver.
  - intros c g'. destruct (gfs_can_write g p); intros; simplify_eq/=.
    by rewrite lookup_insert_eq.
  - intros c g' q. destruct (gfs_can_write g p); intros; simplify_eq/=.
    by rewrite lookup_insert_ne.
  - intros c g' q. destruct (gfs_can_write g p); intros; simplify_eq/=. done.
Qed.

(** ** Lemmas on the sink *)

Lemma print_texts_app ts1 ts2 :
  print_texts (ts1 ++ ts2) =
    match snd (print_texts ts1) with
    | Some e => (fst (print_texts ts1), Some e)
    | None => (fst (print_texts ts1) ++ fst (print_texts ts2), snd (print_texts ts2))
    end.
Proof.
  induction ts1 as [|t ts1 IH]; simpl; [by destruct (print_texts ts2)|].
  destruct (str_text t); simpl; [|done]. rewrite IH. by destruct (snd (print_texts ts1)).
Qed.

(** Texts that are bytes or ASCII are printed as they are. *)
Lemma print_texts_ascii ts :
  Forall (λ t, str_text t = Ok (text_of t)) ts → print_texts ts = (map text_of ts, None).
Proof. induction 1 as [|t ts Ht _ IH]; simpl; [done|]. by rewrite Ht, IH. Qed.

(** The preview of an ASCII event is accepted by [str()]. *)
Lemma dry_event_lines_ascii ev :
  event_ascii ev = true → Forall (λ t, str_text t = Ok (text_of t)) (dry_event_lines ev).
Proof.
  destruct ev as [m|d fn ct]; simpl; [by repeat constructor|].
  intros [[_ Hfn]%andb_true_iff Hct]%andb_true_iff. unfold dry_run_lines.
  repeat apply Forall_app_2; [..|by repeat constructor].
  - constructor; [|done]. cbn [str_text text_of]. apply str_unicode_ascii. by rewrite is_ascii_app, Hfn.
  - apply List.Forall_map. eapply Forall_impl; [by apply splitlines_ascii|].
    intros l Hl. cbn [str_text text_of]. apply str_unicode_ascii. by rewrite is_ascii_app, Hl.
Qed.

Lemma print_texts_events_ascii evs :
  Forall (λ ev, event_ascii ev = true) evs →
  print_texts (concat (map dry_event_lines evs)) = (map text_of (concat (map dry_event_lines evs)), None).
Proof.
  intros Ha. apply print_texts_ascii, List.Forall_forall.
  intros t (l & Hl & Ht)%in_concat. apply in_map_iff in Hl as (ev & <- & Hev).
  eapply List.Forall_forall in Ha; [|exact Hev].
  pose proof (dry_event_lines_ascii ev Ha) as Hl. by eapply List.Forall_forall in Hl.
Qed.

Section sink_lemmas.
Context {F : Type} `{FileSystem F}.

Lemma say_run t (w : world F) :
  say t w = match str_text t with
            | Ok s => (mk_world (w_stdout w ++ [s]) (w_fs w), Ok ())
            | Err e => (w, Err e)
            end.
Proof. unfold say. rewrite st_bind_run, lift_run. by destruct (str_text t). Qed.

Lemma for_each_say (g : string → ptext) l (w : world F) :
  for_each l (λ x, say (g x)) w =
    (mk_world (w_stdout w ++ fst (print_texts (map g l))) (w_fs w), opt_raise (snd (print_texts (map g l)))).
Proof.
  revert w; induction l as [|x l IH]; intros [out fs]; simpl.
  - by rewrite app_nil_r.
  - rewrite st_bind_run, say_run. destruct (str_text (g x)); simpl; [|by rewrite app_nil_r].
    rewrite IH. simpl. by rewrite <-app_assoc.
Qed.

(** The dry run prints its preview up to the first text [str()] refuses,
    and leaves the file system alone. *)
Lemma emit_dry_run fl destination filename content (w : world F) :
  YES fl = false →
  emit fl destination filename content w =
    (mk_world (w_stdout w ++ fst (print_texts (dry_run_lines filename content))) (w_fs w),
     opt_raise (snd (print_texts (dry_run_lines filename content)))).
Proof.
  intros Hy. unfold emit, dry_run_lines. rewrite Hy, st_bind_run, say_run. cbn [List.app print_texts].
  destruct (str_text _) as [s|e]; simpl; [|by destruct w; simpl; rewrite app_nil_r].
  rewrite st_bind_run, for_each_say, print_texts_app.
  destruct (snd (print_texts (map _ _))) as [e|]; simpl; [by rewrite <-app_assoc|].
  rewrite say_run. simpl. by rewrite <-!app_assoc.
Qed.

(** With [--yes] and ASCII paths, the block prints the verbose line and
    runs [open] and [write]. *)
Lemma emit_yes fl destination filename content (w : world F) :
  YES fl = true → is_ascii destination = true → is_ascii filename = true →
  emit fl destination filename content w =
    write_file filename content (mk_world (w_stdout w ++ verbose_lines fl destination filename) (w_fs w)).
Proof.
  intros Hy Hd Hf. unfold emit. rewrite Hy, st_bind_run, lift_run, path_join_unicode_ascii by done.
  unfold verbose, verbose_lines. destruct (VERBOSE fl).
  - rewrite st_bind_run, say_run. cbn [str_text].
    rewrite str_unicode_ascii by (rewrite is_ascii_app, is_ascii_path_join; done). done.
  - destruct w. simpl. by rewrite app_nil_r.
Qed.

Lemma write_file_ok fn ct (w : world F) f1 f2 :
  is_ascii fn = true → is_ascii ct = true →
  fs_write (w_fs w) fn "" = Some f1 → fs_write f1 fn ct = Some f2 →
  write_file fn ct w = (mk_world (w_stdout w) f2, Ok ()).
Proof. intros Hfn Hct H1 H2. unfold write_file. by rewrite Hfn, H1, str_unicode_ascii, H2. Qed.

(** [open] refuses the path: [IOError], the file system unchanged. *)
Lemma write_file_open_fails fn ct (w : world F) :
  is_ascii fn = true → fs_write (w_fs w) fn "" = None → write_file fn ct w = (w, Err (IOError fn)).
Proof. intros Hfn H1. unfold write_file. by rewrite Hfn, H1. Qed.

(** [open] truncates the file, then [file.write] refuses a content that
    is not ASCII: [UnicodeEncodeError], the file left empty. *)
Lemma write_file_encode_fails fn ct (w : world F) f1 :
  is_ascii fn = true → fs_write (w_fs w) fn "" = Some f1 → is_ascii ct = false →
  write_file fn ct w = (mk_world (w_stdout w) f1, Err (UnicodeEncodeError ct)).
Proof. intros Hfn H1 Hct. unfold write_file, str_unicode. by rewrite Hfn, H1, Hct. Qed.

(** A dry run prints the preview of every event up to the first text
    [str()] refuses, which ends it with [UnicodeEncodeError]; otherwise
    it returns what the program returns.  The file system is not
    touched. *)
Lemma run_dry {A} fl (c : io A) (w : world F) :
  YES fl = false →
  run fl c w =
    (mk_world (w_stdout w ++ fst (print_texts (concat (map dry_event_lines (events c))))) (w_fs w),
     match snd (print_texts (concat (map dry_event_lines (events c)))) with
     | Some e => Err e
     | None => outcome c
     end).
Proof.
  intros Hy. revert w; induction c as [a|e|m k IH|d fn ct k IH]; intros [out f];
    cbn [run events outcome concat map dry_event_lines].
  - simpl. by rewrite app_nil_r.
  - simpl. by rewrite app_nil_r.
  - rewrite st_bind_run, say_run. simpl. rewrite IH. simpl. by rewrite <-app_assoc.
  - rewrite st_bind_run, emit_dry_run, print_texts_app by done. cbn [w_stdout w_fs].
    destruct (snd (print_texts (dry_run_lines fn ct))); cbn [opt_raise]; [done|].
    rewrite IH. cbn [w_stdout w_fs fst snd]. by rewrite <-app_assoc.
Qed.

(** A dry run of ASCII events prints every preview line and returns
    what the program returns. *)
Lemma run_dry_ascii {A} fl (c : io A) (w : world F) :
  YES fl = false → Forall (λ ev, event_ascii ev = true) (events c) →
  run fl c w =
    (mk_world (w_stdout w ++ map text_of (concat (map dry_event_lines (events c)))) (w_fs w), outcome c).
Proof. intros Hy Ha. by rewrite run_dry, print_texts_events_ascii. Qed.
End sink_lemmas.

Section writes.
Context {F : Type} `{FileSystemLaws F}.

Lemma fs_write_can_write_Some (f f' : F) p c : fs_write f p c = Some f' → fs_can_write f p = true.
Proof.
  intros Hw. destruct (fs_can_write f p) eqn:E; [done|].
  apply (proj2 (fs_write_fails _ _ c)) in E. congruence.
Qed.

(** [open] of a writable path succeeds, and so does the [write] after it. *)
Lemma open_write_Some (f : F) p c :
  fs_can_write f p = true → ∃ f1 f2, fs_write f p "" = Some f1 ∧ fs_write f1 p c = Some f2.
Proof.
  intros Hc. destruct (fs_write f p "") as [f1|] eqn:E1;
    [|apply fs_write_fails in E1; congruence].
  destruct (fs_write f1 p c) as [f2|] eqn:E2; [by eauto|].
  apply fs_write_fails in E2. rewrite (fs_write_can_write _ _ _ _ p E1) in E2. congruence.
Qed.

(** A confirmed run whose events are ASCII and whose writes all succeed
    prints the verbose lines, ends with the file system of
    [apply_writes], and returns what the program returns. *)
Lemma run_yes {A} fl (c : io A) (w : world F) f' :
  YES fl = true → Forall (λ ev, event_ascii ev = true) (events c) →
  apply_writes (w_fs w) (events c) = Some f' →
  run fl c w =
    (mk_world (w_stdout w ++ concat (map (yes_event_lines fl) (events c))) f', outcome c).
Proof.
  intros Hy. revert w; induction c as [a|e|m k IH|d fn ct k IH]; intros [out f] Ha Hw;
    simpl in *; simplify_eq.
  - by rewrite app_nil_r.
  - by rewrite app_nil_r.
  - apply Forall_cons in Ha as [_ Ha].
    rewrite st_bind_run, say_run. simpl. rewrite IH by done. simpl. by rewrite <-app_assoc.
  - apply Forall_cons in Ha as [[[Hd Hfn]%andb_true_iff Hct]%andb_true_iff Ha].
    destruct (fs_write f fn "") as [f1|] eqn:H1; simpl in Hw; [|done].
    destruct (fs_write f1 fn ct) as [f2|] eqn:H2; simpl in Hw; [|done].
    rewrite st_bind_run, emit_yes, (write_file_ok _ _ _ f1 f2) by done. simpl.
    rewrite IH by done. simpl. by rewrite <-app_assoc.
Qed.

Lemma last_write_from p evs r :
  fold_left (λ r ev, match ev with
                     | EEmit _ fn ct => if String.eqb fn p then Some ct else r
                     | ESay _ => r
                     end) evs r =
  match last_write p evs with Some c => Some c | None => r end.
Proof.
  unfold last_write. revert r.
  induction evs as [|[m|d fn ct] evs IH]; intros r; simpl; [done|done|].
  rewrite (IH (if String.eqb fn p then _ else _)), (IH (if String.eqb fn p then _ else None)).
  by destruct (fold_left _ evs None), (String.eqb fn p).
Qed.

(** After the writes, each file holds the last content written to it;
    the others are unchanged. *)
Lemma apply_writes_read (f f' : F) evs p :
  apply_writes f evs = Some f' →
  fs_read f' p = match last_write p evs with Some c => Some c | None => fs_read f p end.
Proof.
  revert f; induction evs as [|[m|d fn ct] evs IH]; intros f Hw; simpl in Hw.
  - by simplify_eq.
  - by apply IH.
  - destruct (fs_write f fn "") as [f1|] eqn:H1; simpl in Hw; [|done].
    destruct (fs_write f1 fn ct) as [f2|] eqn:H2; simpl in Hw; [|done].
    rewrite (IH f2 Hw). unfold last_write at 2. simpl.
    rewrite (last_write_from p evs (if String.eqb fn p then _ else None)).
    destruct (last_write p evs); [done|].
    destruct (String.eqb_spec fn p) as [->|Hne].
    + by eapply fs_write_read.
    + rewrite (fs_write_read_other _ _ _ _ _ H2), (fs_write_read_other _ _ _ _ _ H1) by done. done.
Qed.

(** Writing never changes where one can write. *)
Lemma apply_writes_can_write (f f' : F) evs p :
  apply_writes f evs = Some f' → fs_can_write f' p = fs_can_write f p.
Proof.
  revert f; induction evs as [|[m|d fn ct] evs IH]; intros f Hw; simpl in Hw.
  - by simplify_eq.
  - by apply IH.
  - destruct (fs_write f fn "") as [f1|] eqn:H1; simpl in Hw; [|done].
    destruct (fs_write f1 fn ct) as [f2|] eqn:H2; simpl in Hw; [|done].
    rewrite (IH f2 Hw), (fs_write_can_write _ _ _ _ _ H2). by eapply fs_write_can_write.
Qed.

(** All writes succeed exactly when every written path is writable at
    the start. *)
Lemma apply_writes_Some (f : F) evs :
  is_Some (apply_writes f evs) ↔ Forall (λ fn, fs_can_write f fn = true) (written_files evs).
Proof.
  revert f; induction evs as [|[m|d fn ct] evs IH]; intros f; simpl.
  - split; [done|]. eauto.
  - apply IH.
  - rewrite Forall_cons. destruct (fs_can_write f fn) eqn:Hc.
    + destruct (open_write_Some f fn ct Hc) as (f1 & f2 & H1 & H2). rewrite H1. simpl. rewrite H2. simpl.
      rewrite IH. assert (∀ q, fs_can_write f2 q = fs_can_write f q) as Hq.
      { intros q. by rewrite (fs_write_can_write _ _ _ _ _ H2), (fs_write_can_write _ _ _ _ _ H1). }
      rewrite (Forall_iff _ _ (λ q, fs_can_write f q = true)) by (intros q; by rewrite Hq).
      naive_solver.
    + apply (proj2 (fs_write_fails _ _ "")) in Hc. rewrite Hc. split; [by intros []|by intros [? _]].
Qed.

(** [write_file] fails when [open] refuses the path ([IOError], nothing
    changed) or [file.write] the content ([UnicodeEncodeError], the file
    truncated to the empty string, no other file changed). *)
Lemma write_file_fails fn ct (w : world F) :
  is_ascii fn = true → (fs_can_write (w_fs w) fn = false ∨ is_ascii ct = false) →
  ∃ f2,
    write_file fn ct w =
      (mk_world (w_stdout w) f2,
       Err (if fs_can_write (w_fs w) fn then UnicodeEncodeError ct else IOError fn)) ∧
    fs_read f2 fn = (if fs_can_write (w_fs w) fn then Some "" else fs_read (w_fs w) fn) ∧
    ∀ p, p ≠ fn → fs_read f2 p = fs_read (w_fs w) p.
Proof.
  intros Hfn Hbad. destruct (fs_can_write (w_fs w) fn) eqn:Hc.
  - destruct Hbad as [?|Hct]; [congruence|].
    destruct (open_write_Some (w_fs w) fn ct Hc) as (f1 & _ & H1 & _).
    exists f1. rewrite (write_file_encode_fails _ _ _ f1) by done. split_and!; [done| |].
    + by eapply fs_write_read.
    + intros p Hp. by eapply fs_write_read_other.
  - exists (w_fs w). rewrite write_file_open_fails by (try apply fs_write_fails; done).
    by destruct w.
Qed.

(** A confirmed run stops at its first file that [open] refuses or whose
    content [file.write] refuses: the lines and the files of the events
    before it are there, the verbose line of the failing file is printed,
    and the run ends where [write_file] fails on that file. *)
Lemma run_yes_stops {A} fl (c : io A) (w : world F) evs1 d fn ct evs2 f1 :
  YES fl = true → events c = evs1 ++ EEmit d fn ct :: evs2 →
  Forall (λ ev, event_ascii ev = true) evs1 → is_ascii d = true → is_ascii fn = true →
  apply_writes (w_fs w) evs1 = Some f1 →
  (fs_can_write (w_fs w) fn = false ∨ is_ascii ct = false) →
  ∃ w' e,
    write_file fn ct
      (mk_world (w_stdout w ++ concat (map (yes_event_lines fl) evs1) ++ verbose_lines fl d fn) f1) =
      (w', Err e) ∧
    run fl c w = (w', Err e).
Proof.
  intros Hy. revert w evs1.
  induction c as [a|e|m k IH|d' fn' ct' k IH]; intros [out f] evs1 Hev Ha Hd Hfn Hw Hbad;
    simpl in *; [by destruct evs1|by destruct evs1| |].
  - destruct evs1 as [|ev evs1]; simplify_eq/=. apply Forall_cons in Ha as [_ Ha].
    destruct (IH (mk_world (out ++ [m]) f) evs1) as (w' & e & Hwf & Hrun); [done..|].
    exists w', e. simpl in Hwf. rewrite <-!app_assoc in Hwf. split; [done|].
    rewrite st_bind_run, say_run. simpl. done.
  - destruct evs1 as [|ev evs1]; simplify_eq/=.
    + match goal with |- ∃ w' e, write_file fn ct ?W = _ ∧ _ =>
        destruct (write_file_fails fn ct W) as (f2 & Hwf & _); [done|done|] end.
      eexists _, _. split; [done|]. rewrite st_bind_run, emit_yes by done. simpl in Hwf |- *.
      by rewrite Hwf.
    + apply Forall_cons in Ha as [[[Hd' Hfn']%andb_true_iff Hct']%andb_true_iff Ha].
      destruct (fs_write f fn' "") as [g1|] eqn:E1; simpl in Hw; [|done].
      destruct (fs_write g1 fn' ct') as [g2|] eqn:E2; simpl in Hw; [|done].
      destruct (IH (mk_world (out ++ verbose_lines fl d' fn') g2) evs1) as (w' & e & Hwf & Hrun);
        [done..| |].
      { simpl. by rewrite (fs_write_can_write _ _ _ _ fn E2), (fs_write_can_write _ _ _ _ fn E1). }
      exists w', e. split; [simpl in Hwf |- *; by rewrite <-!app_assoc in Hwf |- *|].
      rewrite st_bind_run, emit_yes, (write_file_ok _ _ _ g1 g2) by done. done.
Qed.
End writes.

(** ** The preview *)

(** C19: The dry-run preview does not determine the content: a content
    ending in a character that is not a line boundary is previewed by
    the same lines with or without a final line feed, and a content
    without carriage returns by the same lines with [\n] or [\r\n] line
    ends, since [content.splitlines()] drops the line ends. *)
Theorem dry_run_lines_drop_line_ends filename s c :
  is_line_break c = false →
  dry_run_lines filename (s +:+ String c lf) = dry_run_lines filename (s +:+ String c EmptyString) ∧
  (Forall (λ a, a ≠ "013"%char) (chars s) →
   dry_run_lines filename (lf_to_crlf s) = dry_run_lines filename s).
Proof.
  intros Hc. unfold dry_run_lines. split; [by rewrite splitlines_lf_end|].
  intros Hs. by rewrite splitlines_crlf.
Qed.

(** Two lines ending in [2]: with and without a final line feed, and
    with CRLF line ends. *)
Lemma dry_run_lines_drop_line_ends_witness :
  let s := "VLAN=1" +:+ lf +:+ "DEVICE=eth0." in
  is_line_break "2" = false ∧
  dry_run_lines "ifcfg-eth0" (s +:+ String "2" lf) = dry_run_lines "ifcfg-eth0" (s +:+ String "2" EmptyString) ∧
  dry_run_lines "ifcfg-eth0" (lf_to_crlf s) = dry_run_lines "ifcfg-eth0" s.
Proof.
  intros s.
  assert (is_line_break "2" = false) as Hc by reflexivity.
  assert (Forall (λ a, a ≠ "013"%char) (chars s)) as Hs by (repeat constructor; discriminate).
  destruct (dry_run_lines_drop_line_ends "ifcfg-eth0" s "2" Hc) as [H1 H2].
  split_and!; [exact Hc|exact H1|exact (H2 Hs)].
Defined.

End Output.
