(* ===== verification/Hosts.v ===== *)
(** * The host lookup of every renderer

    Each of the four [configure_*] functions (src/iftool.py:99-106,
    127-134, 164-171, 201-208) starts with the same loop:
    [for host in configuration['hosts']:
         if this_host == host or this_host.split('.')[0] == host.split('.')[0]:
             detail = configuration['hosts'][host]; break
     else:
         say('ERROR: %s not found in template hosts section' % this_host)
         sys.exit(1)]
    [host_matches] is the condition (with Python's short-circuit [or]: the
    [split] of a non-string key is reached only when the key is not equal
    to the target), [find_host] the loop, and [resolve_host] the whole
    block with its failure branch.  The theorems show that the lookup is
    a first-match scan, that it depends only on the short name of the
    target (so an exact key has no priority over an earlier key with the
    same short name), and what the failure branch prints and raises. *)

From S2P Require Import Prelude PyStr PyVal Output.
Import String.



Module Hosts.
Import PyStr PyVal Output.

(** [this_host == host or this_host.split('.')[0] == host.split('.')[0]] *)
Definition host_matches (this_host : string) (host : pyval) : except bool :=
  if match host with PStr h => String.eqb this_host h | _ => false end then Ok true
  else match host with
       | PStr h => Ok (String.eqb (short_name this_host) (short_name h))
       | _ => Err (AttributeError "object has no attribute 'split'")
       end.

(** The [for] loop up to its [break]: the first matching key. *)
Fixpoint find_host (this_host : string) (hosts : list pyval) : except (option pyval) :=
  match hosts with
  | [] => Ok None
  | h :: hs =>
      b ← host_matches this_host h;
      if (b : bool) then Ok (Some h) else find_host this_host hs
  end.

Definition not_found_msg (this_host : string) : string :=
  "ERROR: " +:+ this_host +:+ " not found in template hosts section".

(** The whole block: the matching key [host] and [detail], the value
    [configuration['hosts'][host]]; without a match, the error line and
    [sys.exit(1)]. *)
Definition resolve_host (configuration : pyval) (this_host : string) : io (pyval * pyval) :=
  candidates ← io_lift (getkey configuration "hosts" ≫= py_iter);
  found ← io_lift (find_host this_host candidates);
  match found with
  | Some host =>
      detail ← io_lift (getkey configuration "hosts" ≫= λ hs, getitem hs host);
      mret (host, detail)
  | None =>
      do io_say (not_found_msg this_host) ;;
      Raise (SystemExit 1)
  end.

(** ** Lemmas *)

(** On a string key the condition is the comparison of short names: an
    exact match has equal short names anyway. *)
Lemma host_matches_str this_host h :
  host_matches this_host (PStr h) = Ok (String.eqb (short_name this_host) (short_name h)).
Proof.
  unfold host_matches. destruct (String.eqb_spec this_host h) as [->|]; [|done].
  by rewrite Stdlib.Strings.String.eqb_refl.
Qed.

(** C6: The host loop returns [Ok (Some h)] exactly when [h] is the
    first key of the [hosts] section that matches the target, every
    earlier key having been compared without a match. *)
Lemma find_host_Some this_host hosts h :
  find_host this_host hosts = Ok (Some h) ↔
  ∃ pre post, hosts = pre ++ h :: post ∧
    Forall (λ k, host_matches this_host k = Ok false) pre ∧
    host_matches this_host h = Ok true.
Proof.
  induction hosts as [|k hosts IH]; simpl.
  - split; [done|]. intros (pre & post & Hl & _). by destruct pre.
  - destruct (host_matches this_host k) as [[]|e] eqn:Hk; simpl.
    + split.
      * intros [= <-]. exists [], hosts. naive_solver.
      * intros ([|k' pre] & post & Hl & Hpre & Hh); simplify_eq/=; [done|].
        apply Forall_cons in Hpre as [Hk' _]. congruence.
    + rewrite IH. split.
      * intros (pre & post & -> & ? & ?). exists (k :: pre), post. naive_solver.
      * intros ([|k' pre] & post & Hl & Hpre & Hh); simplify_eq/=; [congruence|].
        apply Forall_cons in Hpre as [_ ?]. eauto.
    + split; [done|]. intros ([|k' pre] & post & Hl & Hpre & Hh); simplify_eq/=; [congruence|].
      apply Forall_cons in Hpre as [? _]. congruence.
Qed.

(** C7: On a [hosts] section whose keys are strings, the lookup of a
    target depends only on its short name (the text before the first
    dot): two targets with the same short name find the same key. *)
Lemma find_host_short_name t1 t2 hosts :
  short_name t1 = short_name t2 →
  Forall (λ k, ∃ s, k = PStr s) hosts →
  find_host t1 hosts = find_host t2 hosts.
Proof.
  intros Hs. induction 1 as [|k hosts [s ->] _ IH]; simpl; [done|].
  by rewrite !host_matches_str, Hs, IH.
Qed.

(** Without a matching key the lookup prints the error line and exits
    with status 1, before anything else happens. *)
Lemma resolve_host_not_found configuration this_host candidates :
  (getkey configuration "hosts" ≫= py_iter) = Ok candidates →
  find_host this_host candidates = Ok None →
  resolve_host configuration this_host = Say (not_found_msg this_host) (Raise (SystemExit 1)).
Proof. intros Hc Hf. unfold resolve_host. rewrite Hc. simpl. by rewrite Hf. Qed.

(** With a match, the lookup returns the key and its record, silently. *)
Lemma resolve_host_found configuration this_host candidates host hosts detail :
  getkey configuration "hosts" = Ok hosts → py_iter hosts = Ok candidates →
  find_host this_host candidates = Ok (Some host) → getitem hosts host = Ok detail →
  resolve_host configuration this_host = Done (host, detail).
Proof.
  intros Hh Hi Hf Hd. unfold resolve_host. rewrite Hh. simpl. rewrite Hi. simpl.
  rewrite Hf. simpl. by rewrite Hd.
Qed.

(** C8: An exact key has no priority: when a key earlier in the
    section has the target's short name, the loop stops there, even if
    the target itself is a later key of the section. *)
Theorem find_host_exact_no_priority this_host pre h post :
  Forall (λ k, ∃ s, k = PStr s ∧ short_name s ≠ short_name this_host) pre →
  short_name h = short_name this_host →
  find_host this_host (pre ++ PStr h :: post) = Ok (Some (PStr h)).
Proof.
  intros Hpre Hh. apply find_host_Some. exists pre, post. split_and!; [done| |].
  - eapply Forall_impl; [done|]. intros k (s & -> & Hs). rewrite host_matches_str.
    f_equal. apply String.eqb_neq. congruence.
  - rewrite host_matches_str, Hh. f_equal. apply String.eqb_refl.
Qed.

(** Keys that do not match are passed over. *)
Lemma find_host_skip this_host pre l :
  Forall (λ h, host_matches this_host h = Ok false) pre →
  find_host this_host (pre ++ l) = find_host this_host l.
Proof. induction 1 as [|h pre Hh _ IH]; [done|]. simpl. by rewrite Hh. Qed.

(** C18: A key of the [hosts] section that is not a string (YAML 1.1
    types an unquoted [off], [no], [null] or [1234] as a boolean, [None]
    or an integer) stops the lookup with [AttributeError] from
    [host.split('.')] when the loop reaches it before a matching key:
    the renderer raises before printing anything, instead of passing
    over the key or printing the not-found message. *)
Theorem resolve_host_non_string_key configuration this_host pre k post :
  (getkey configuration "hosts" ≫= py_iter) = Ok (pre ++ k :: post) →
  Forall (λ h, host_matches this_host h = Ok false) pre →
  (∀ s, k ≠ PStr s) →
  resolve_host configuration this_host = Raise (AttributeError "object has no attribute 'split'").
Proof.
  intros Hc Hpre Hk. unfold resolve_host. rewrite Hc. simpl. rewrite find_host_skip by done.
  destruct k; try (by exfalso; eapply Hk); reflexivity.
Qed.

(** ** Witnesses *)

Lemma find_host_short_name_witness :
  short_name "web1.example.com" = short_name "web1.other.net" ∧
  Forall (λ k, ∃ s, k = PStr s) [PStr "db1"; PStr "web1"] ∧
  find_host "web1.example.com" [PStr "db1"; PStr "web1"] =
    find_host "web1.other.net" [PStr "db1"; PStr "web1"].
Proof.
  assert (short_name "web1.example.com" = short_name "web1.other.net") as Hs
    by (vm_compute; reflexivity).
  assert (Forall (λ k, ∃ s, k = PStr s) [PStr "db1"; PStr "web1"]) as Hf
    by (repeat constructor; eexists; reflexivity).
  split_and!; [exact Hs|exact Hf|]. exact (find_host_short_name _ _ _ Hs Hf).
Defined.

(** The target [web1.example.com] is a key of the section, but the
    earlier key [web1] is the one found. *)
Lemma find_host_exact_no_priority_witness :
  Forall (λ k, ∃ s, k = PStr s ∧ short_name s ≠ short_name "web1.example.com") [PStr "db1"] ∧
  short_name "web1" = short_name "web1.example.com" ∧
  find_host "web1.example.com" ([PStr "db1"] ++ PStr "web1" :: [PStr "web1.example.com"]) =
    Ok (Some (PStr "web1")).
Proof.
  assert (Forall (λ k, ∃ s, k = PStr s ∧ short_name s ≠ short_name "web1.example.com")
            [PStr "db1"]) as Hpre
    by (repeat constructor; eexists; split; [reflexivity|vm_compute; discriminate]).
  assert (short_name "web1" = short_name "web1.example.com") as Hh by (vm_compute; reflexivity).
  split_and!; [exact Hpre|exact Hh|]. exact (find_host_exact_no_priority _ _ _ _ Hpre Hh).
Defined.

(** [hosts: {off: {...}, web1: {...}}]: the unquoted [off] is [False]. *)
Lemma resolve_host_non_string_key_witness :
  let configuration := PDict [(PStr "hosts", PDict [(PBool false, PDict []); (PStr "web1", PDict [])])] in
  (getkey configuration "hosts" ≫= py_iter) = Ok ([] ++ PBool false :: [PStr "web1"]) ∧
  resolve_host configuration "web1" = Raise (AttributeError "object has no attribute 'split'").
Proof.
  intros configuration.
  assert ((getkey configuration "hosts" ≫= py_iter) = Ok ([] ++ PBool false :: [PStr "web1"])) as Hc
    by reflexivity.
  assert (Forall (λ h, host_matches "web1" h = Ok false) []) as Hpre by constructor.
  assert (∀ s, PBool false ≠ PStr s) as Hk by discriminate.
  split; [exact Hc|]. exact (resolve_host_non_string_key _ _ _ _ _ Hc Hpre Hk).
Defined.

End Hosts.
