(* ===== verification/Tables.v ===== *)
(** * The per-table template contexts

    [configure_routes] and [configure_rules] (src/iftool.py:137-146 and
    174-183) build the list [tables] of one dict per routing table, in the
    order of [sorted(configuration['tables'])]:
    [{'table': table, 'device': device, 'ifname': d['primary ifname'],
      'subnet': d['subnet'], 'gateway': d['default gateway']}].
    [configure_interfaces] (lines 212-223) stores the same dicts in the
    dict [ifnames] under the key [d['primary ifname']] and iterates
    [sorted(ifnames.keys())].  CPython 2.7 evaluates the values of a dict
    display in order, and the right-hand side of [ifnames[k] = v] before
    the key [k].  The theorems show that the context list is sorted by
    table name and does not depend on the order of the [tables] section,
    and that [ifnames] keeps, for each interface name, the context of the
    last table (in sorted order) that names it. *)

From S2P Require Import Prelude PyStr PyVal.
Import String.

Module Tables.
Import PyStr PyVal.

(** The dict display of lines 140-146, 177-183 and 215-221. *)
Definition table_context (device table d : pyval) : except pyval :=
  ifname ← getkey d "primary ifname";
  subnet ← getkey d "subnet";
  gateway ← getkey d "default gateway";
  Ok (PDict [(PStr "table", table); (PStr "device", device); (PStr "ifname", ifname);
             (PStr "subnet", subnet); (PStr "gateway", gateway)]).

(** [d = configuration['tables'][table]] *)
Definition table_detail (configuration table : pyval) : except pyval :=
  tables ← getkey configuration "tables";
  getitem tables table.

(** [sorted(configuration['tables'])] *)
Definition table_names (configuration : pyval) : except (list pyval) :=
  tables ← getkey configuration "tables";
  py_sorted tables.

(** Lines 137-146: the [tables] list of the route and rule renderers. *)
Definition table_contexts (configuration device : pyval) : except (list pyval) :=
  names ← table_names configuration;
  res_for names (λ table,
    d ← table_detail configuration table;
    table_context device table d).

(** One pass of the loop of lines 213-221:
    [ifnames[d['primary ifname']] = {...}]. *)
Fixpoint ifnames_loop (configuration device : pyval) (names : list pyval)
    (ifnames : list (pyval * pyval)) : except (list (pyval * pyval)) :=
  match names with
  | [] => Ok ifnames
  | table :: rest =>
      d ← table_detail configuration table;
      ctx ← table_context device table d;
      key ← getkey d "primary ifname";
      if is_hashable key
      then ifnames_loop configuration device rest (dict_setitem ifnames key ctx)
      else Err (TypeError "unhashable type")
  end.

(** Lines 212-221: [ifnames = {}] and the loop. *)
Definition build_ifnames (configuration device : pyval) : except (list (pyval * pyval)) :=
  names ← table_names configuration;
  ifnames_loop configuration device names [].

(** [sorted(ifnames.keys())] of line 223. *)
Definition interface_names (ifnames : list (pyval * pyval)) : except (list pyval) :=
  py_sorted (PList (map fst ifnames)).

(** ** Lemmas *)

Lemma table_context_table device table d ctx :
  table_context device table d = Ok ctx → getkey ctx "table" = Ok table.
Proof.
  unfold table_context.
  destruct (getkey d "primary ifname"), (getkey d "subnet"), (getkey d "default gateway");
    simpl; intros; simplify_eq; reflexivity.
Qed.

Lemma ifnames_loop_spec configuration device names acc m :
  ifnames_loop configuration device names acc = Ok m →
  ∃ assignments,
    Forall2 (λ table kv, ∃ d, table_detail configuration table = Ok d ∧
      getkey d "primary ifname" = Ok kv.1 ∧ table_context device table d = Ok kv.2)
      names assignments ∧
    m = fold_left (λ acc kv, dict_setitem acc kv.1 kv.2) assignments acc.
Proof.
  revert acc; induction names as [|t names IH]; intros acc H; simpl in H.
  - injection H as <-. by exists [].
  - destruct (table_detail configuration t) as [d|] eqn:Hd; [|discriminate]; simpl in H.
    destruct (table_context device t d) as [ctx|] eqn:Hc; [|discriminate]; simpl in H.
    destruct (getkey d "primary ifname") as [k|] eqn:Hk; [|discriminate]; simpl in H.
    destruct (is_hashable k); [|discriminate].
    destruct (IH _ H) as (assignments & Hf & ->).
    exists ((k, ctx) :: assignments). split; [|done]. constructor; [|done]. eauto.
Qed.

(** ** The table list of the route and rule renderers *)

(** C10: The contexts handed to the route and rule templates come one
    per table of the [tables] section, every table exactly once, in
    ascending order of the table names, each the context that
    [table_context] builds from that table's entry. *)
Theorem table_contexts_sorted configuration device ctxs :
  table_contexts configuration device = Ok ctxs →
  ∃ tables items names,
    getkey configuration "tables" = Ok tables ∧ py_iter tables = Ok items ∧
    names ≡ₚ items ∧ Sorted py_le names ∧
    Forall2 (λ table ctx, ∃ d, table_detail configuration table = Ok d ∧
                               table_context device table d = Ok ctx) names ctxs.
Proof.
  unfold table_contexts, table_names.
  destruct (getkey configuration "tables") as [tables|]; [|done]. simpl.
  destruct (py_sorted tables) as [names|] eqn:Hn; [|done]. simpl.
  intros Hr%res_for_Forall2. destruct (py_sorted_spec _ _ Hn) as (items & Hi & Hp & Hs).
  exists tables, items, names. split_and!; [done..|].
  eapply Forall2_impl; [done|]. intros t c Hc. by apply res_bind_inv in Hc.
Qed.

(** For a [tables] dict with distinct keys, the list handed to the
    templates does not depend on the order of the dict. *)
Lemma table_contexts_perm configuration1 configuration2 device d1 d2 :
  getkey configuration1 "tables" = Ok (PDict d1) →
  getkey configuration2 "tables" = Ok (PDict d2) →
  keys_distinct (map fst d1) = true → d1 ≡ₚ d2 →
  table_contexts configuration1 device = table_contexts configuration2 device.
Proof.
  intros H1 H2 Hd Hp. unfold table_contexts, table_names, table_detail.
  rewrite H1, H2. cbn [mbind res_bind]. rewrite (py_sorted_perm d1 d2) by done.
  destruct (py_sorted (PDict d2)) as [names|]; cbn [mbind res_bind]; [|done].
  apply res_for_ext. intros t _. by rewrite (getitem_perm d1 d2).
Qed.

(** C9: The list handed to the templates does not depend on the order in
    which the [tables] section lists its tables, for every well-formed
    document (every document the loader builds, [Loader.load_file_wf]). *)
Theorem tables_order_irrelevant configuration1 configuration2 device d1 d2 :
  py_wf configuration1 = true →
  getkey configuration1 "tables" = Ok (PDict d1) →
  getkey configuration2 "tables" = Ok (PDict d2) → d1 ≡ₚ d2 →
  table_contexts configuration1 device = table_contexts configuration2 device.
Proof.
  intros Hwf H1 H2 Hp. apply (table_contexts_perm _ _ _ d1 d2); [done|done| |done].
  apply getitem_wf in H1; [|done]. simpl in H1. by apply andb_true_iff in H1 as [[_ ?]%andb_true_iff _].
Qed.

(** ** The [ifnames] dict of the interface renderer *)

(** C11: For every interface name [k], [ifnames[k]] is the context of the
    last table, in sorted order, whose primary interface equals [k]: an
    earlier table naming the same interface is overwritten. *)
Theorem build_ifnames_last_writer configuration device ifnames :
  build_ifnames configuration device = Ok ifnames →
  ∃ names assignments,
    table_names configuration = Ok names ∧
    Forall2 (λ table kv, ∃ d, table_detail configuration table = Ok d ∧
      getkey d "primary ifname" = Ok kv.1 ∧ table_context device table d = Ok kv.2)
      names assignments ∧
    ∀ k, dict_lookup ifnames k = last_assigned k assignments.
Proof.
  unfold build_ifnames. destruct (table_names configuration) as [names|] eqn:Hn; [|done].
  simpl. intros (assignments & Hf & ->)%ifnames_loop_spec.
  exists names, assignments. split_and!; [done|done|]. intros k.
  rewrite dict_lookup_setitems. simpl. by destruct (last_assigned k assignments).
Qed.

End Tables.
