(* ===== verification/Render.v ===== *)
(** * Templates: the engine interface and a plain-interpolation engine

    Every renderer evaluates [jinja2.Template(source).render(...)]
    (src/iftool.py:111, 113, 148, 150, 185, 187, 224-227, 235-241) with a
    source string taken from the document.  The renderers only need a
    function from a source and named values to a string or an exception:
    that is the class [TemplateEngine], against which [Configure] is
    proved.  [interp_render] implements it for the part of Jinja2 2.x
    that the iftool templates need: [{{ name }}], [{{ name.key... }}]
    and loops [{% for x in name.key... %} ... {% endfor %}], nested or
    not, which the route and rule templates need to use the [tables]
    list.  The source is lexed into segments ([lex]), the segments are
    parsed into a tree ([build], with Jinja2's errors for an unclosed
    [for] and a stray [endfor]), and the tree is rendered
    ([render_nodes]).  As in Jinja2, the lexer first normalises line ends
    and drops one trailing newline ([keep_trailing_newline=False]), an
    undefined name renders as the empty string, an attribute of an
    undefined value raises [UndefinedError], a name missing from the
    context resolves to Jinja2's global of that name ([range], [dict],
    ... : Python objects outside the model, [NotModelled]), [{{ not }}]
    and a loop over [not] or [recursive] or with target [in] are
    [TemplateSyntaxError]s, a key missing from a dict
    is undefined, a loop over an undefined value runs zero times, a loop
    over a dict runs over its keys, and values are printed with
    [unicode()].  Other statements, whitespace control ([{%-]), the
    [loop] object, comments ([{# ... #}]), filters and other expressions
    are outside this engine and give [NotModelled].  [template_value]
    and [loop_value] state what interpolation and a loop promise, and
    [interp_render_template] and [interp_render_loop] prove that the
    lexer, the parser and the renderer implement them. *)

From S2P Require Import Prelude PyStr PyVal.
From Stdlib Require Import Ascii.
Import String.

Module Render.
Import PyStr PyVal.

Class TemplateEngine := {
  render : string → list (string * pyval) → except string
}.

Definition newline : string := String (ascii_of_nat 10) EmptyString.

(** [source = '\n'.join(source.splitlines())] in Jinja2's lexer. *)
Definition normalize_source (src : string) : string := join_with newline (splitlines src).

Inductive segment :=
| Text (s : string)
| Var (name : string) (attrs : list string)
| For (var seq : string) (attrs : list string)
| EndFor.

(** What the lexer is reading: text, an expression after [{{], or a
    statement after [{%]. *)
Inductive lex_mode := LText | LExpr | LStmt.

Definition is_space (a : ascii) : bool :=
  match nat_of_ascii a with 9 | 10 | 11 | 12 | 13 | 32 => true | _ => false end.

Fixpoint drop_spaces (cs : list ascii) : list ascii :=
  match cs with
  | a :: cs' => if is_space a then drop_spaces cs' else cs
  | [] => []
  end.

Definition trim (cs : list ascii) : list ascii :=
  List.rev (drop_spaces (List.rev (drop_spaces cs))).

Definition is_ident_start (a : ascii) : bool :=
  let n := nat_of_ascii a in
  (Nat.leb 65 n && Nat.leb n 90) || (Nat.leb 97 n && Nat.leb n 122) || Nat.eqb n 95.

Definition is_ident_char (a : ascii) : bool :=
  is_ident_start a || (Nat.leb 48 (nat_of_ascii a) && Nat.leb (nat_of_ascii a) 57).

(** A name token of Jinja2's lexer. *)
Definition is_name (s : string) : bool :=
  match chars s with
  | a :: cs => is_ident_start a && forallb is_ident_char cs
  | [] => false
  end.

(** A name that Jinja2's parser reads as a variable, not as one of its
    constant literals. *)
Definition is_identifier (s : string) : bool :=
  is_name s && negb (existsb (String.eqb s) ["true"; "false"; "none"; "True"; "False"; "None"]).

(** The names of Jinja2's default global namespace ([DEFAULT_NAMESPACE]
    of Jinja2 2.10-2.11), which a name missing from the context
    resolves to. *)
Definition jinja_globals : list string := ["range"; "dict"; "lipsum"; "cycler"; "joiner"; "namespace"].

(** The inside of [{{ ... }}]. *)
Definition parse_expr (acc : list ascii) : except segment :=
  let s := of_chars (trim acc) in
  if String.eqb s EmptyString then Err (TemplateError "Expected an expression")
  else match py_split "." s with
       | name :: attrs =>
           if String.eqb name "not" then Err (TemplateError "unexpected token after 'not'")
           else if is_identifier name && forallb is_name attrs then Ok (Var name attrs)
           else Err (NotModelled "jinja2 expression")
       | [] => Err (NotModelled "jinja2 expression")
       end.

(** [str.split()]: the words of a statement, split on white space. *)
Fixpoint words_acc (cs : list ascii) (cur : list ascii) : list string :=
  match cs with
  | [] => match cur with [] => [] | _ => [of_chars (List.rev cur)] end
  | a :: cs' =>
      if is_space a then (match cur with [] => [] | _ => [of_chars (List.rev cur)] end) ++ words_acc cs' []
      else words_acc cs' (a :: cur)
  end.

Definition words (cs : list ascii) : list string := words_acc cs [].

(** The inside of [{% ... %}]: [for x in name.key...] and [endfor].  The
    target [in] ends the target tuple before it starts, and an iterable
    starting with [not] (an operator without operand) or [recursive]
    (the keyword that ends the iterable) is a syntax error.  A target
    named [loop], Jinja2's loop object, other statements, whitespace
    control ([{%-]), [for ... if], [else] and unpacking are outside the
    engine. *)
Definition parse_stmt (acc : list ascii) : except segment :=
  match words acc with
  | ["for"; x; "in"; e] =>
      if String.eqb x "in" then Err (TemplateError "Expected an expression, got 'in'")
      else if is_identifier x && negb (String.eqb x "loop") then
        match py_split "." e with
        | name :: attrs =>
            if String.eqb name "not" || String.eqb name "recursive" then
              Err (TemplateError "Expected an expression")
            else if is_identifier name && forallb is_name attrs then Ok (For x name attrs)
            else Err (NotModelled "jinja2 for statement")
        | [] => Err (NotModelled "jinja2 for statement")
        end
      else Err (NotModelled "jinja2 for statement")
  | ["endfor"] => Ok EndFor
  | _ => Err (NotModelled "jinja2 statement")
  end.

Definition text_seg (acc : list ascii) : list segment :=
  match acc with [] => [] | _ => [Text (of_chars acc)] end.

(** The lexer: text up to [{{] or [{%], an expression up to [}}], a
    statement up to [%}]. *)
Fixpoint lex (cs : list ascii) (mode : lex_mode) (acc : list ascii) : except (list segment) :=
  match cs with
  | [] =>
      match mode with
      | LText => Ok (text_seg acc)
      | _ => Err (TemplateError "unexpected end of template")
      end
  | a :: cs' =>
      match mode with
      | LExpr =>
          match cs' with
          | b :: rest =>
              if Ascii.eqb a "}" && Ascii.eqb b "}" then
                seg ← parse_expr acc; segs ← lex rest LText []; Ok (seg :: segs)
              else lex cs' LExpr (acc ++ [a])
          | [] => lex cs' LExpr (acc ++ [a])
          end
      | LStmt =>
          match cs' with
          | b :: rest =>
              if Ascii.eqb a "%" && Ascii.eqb b "}" then
                seg ← parse_stmt acc; segs ← lex rest LText []; Ok (seg :: segs)
              else lex cs' LStmt (acc ++ [a])
          | [] => lex cs' LStmt (acc ++ [a])
          end
      | LText =>
          match cs' with
          | b :: rest =>
              if Ascii.eqb a "{" && Ascii.eqb b "{" then
                segs ← lex rest LExpr []; Ok (text_seg acc ++ segs)
              else if Ascii.eqb a "{" && Ascii.eqb b "%" then
                segs ← lex rest LStmt []; Ok (text_seg acc ++ segs)
              else if Ascii.eqb a "{" && Ascii.eqb b "#" then
                Err (NotModelled "jinja2 comment")
              else lex cs' LText (acc ++ [a])
          | [] => lex cs' LText (acc ++ [a])
          end
      end
  end.

(** The template as a tree: a [for] node holds its body. *)
Inductive node :=
| NText (s : string)
| NVar (name : string) (attrs : list string)
| NFor (var seq : string) (attrs : list string) (body : list node).

(** Jinja2's parser on the segments: [stack] holds, for every open
    [for], its header and the nodes before it; [cur] the nodes of the
    innermost block, last first. *)
Fixpoint build (segs : list segment) (stack : list (string * string * list string * list node))
    (cur : list node) : except (list node) :=
  match segs with
  | [] =>
      match stack with
      | [] => Ok (List.rev cur)
      | _ => Err (TemplateError "Unexpected end of template. Jinja was looking for the following tags: 'endfor'")
      end
  | Text t :: segs' => build segs' stack (NText t :: cur)
  | Var n attrs :: segs' => build segs' stack (NVar n attrs :: cur)
  | For x e attrs :: segs' => build segs' ((x, e, attrs, cur) :: stack) []
  | EndFor :: segs' =>
      match stack with
      | (x, e, attrs, parent) :: stack' => build segs' stack' (NFor x e attrs (List.rev cur) :: parent)
      | [] => Err (TemplateError "Encountered unknown tag 'endfor'")
      end
  end.

(** A value of the template context, or Jinja2's [Undefined]. *)
Inductive jval :=
| Defined (v : pyval)
| Undefined.

(** Methods of a Python 2 dict, which [getattr] finds before the keys. *)
Definition dict_methods : list string :=
  ["clear"; "copy"; "fromkeys"; "get"; "has_key"; "items"; "iteritems"; "iterkeys";
   "itervalues"; "keys"; "pop"; "popitem"; "setdefault"; "update"; "values";
   "viewitems"; "viewkeys"; "viewvalues"].

(** [environment.getattr(x, attr)] on the values a context holds. *)
Definition get_attr (x : jval) (attr : string) : except jval :=
  match x with
  | Undefined => Err (TemplateError "UndefinedError")
  | Defined (PDict d) =>
      if existsb (String.eqb attr) dict_methods then Err (NotModelled "dict method")
      else match dict_lookup d (PStr attr) with
           | Some v => Ok (Defined v)
           | None => Ok Undefined
           end
  | Defined _ => Err (NotModelled "attribute of a non-dict value")
  end.

Fixpoint lookup_var (env : list (string * pyval)) (name : string) : jval :=
  match env with
  | [] => Undefined
  | (n, v) :: env' => if String.eqb n name then Defined v else lookup_var env' name
  end.

(** [context.resolve(name)]: the context, then the globals; a global is
    a Python function or class, outside the model. *)
Definition resolve (env : list (string * pyval)) (name : string) : except jval :=
  match lookup_var env name with
  | Defined v => Ok (Defined v)
  | Undefined =>
      if existsb (String.eqb name) jinja_globals then Err (NotModelled "jinja2 global")
      else Ok Undefined
  end.

Fixpoint get_attrs (x : jval) (attrs : list string) : except jval :=
  match attrs with
  | [] => Ok x
  | a :: attrs' => y ← get_attr x a; get_attrs y attrs'
  end.

(** The nodes [build] makes of [text_seg acc]. *)
Definition text_nodes (acc : list ascii) : list node :=
  match acc with [] => [] | _ => [NText (of_chars acc)] end.

(** [{{ name.key... }}]; inside a loop, [loop] is Jinja2's loop object,
    which the engine does not model. *)
Definition render_var (in_loop : bool) (env : list (string * pyval)) (name : string)
    (attrs : list string) : except string :=
  if in_loop && String.eqb name "loop" then Err (NotModelled "jinja2 loop object")
  else x ← (y ← resolve env name; get_attrs y attrs);
       Ok (match x with Defined v => py_str v | Undefined => EmptyString end).

(** [for x in seq]: iterating [Undefined] gives nothing, other values
    iterate as in Python. *)
Definition iter_jval (x : jval) : except (list pyval) :=
  match x with Undefined => Ok [] | Defined v => py_iter v end.

(** A node and a list of nodes; the body of a loop is rendered once per
    item with the loop variable bound in front of the context. *)
Fixpoint render_node (in_loop : bool) (env : list (string * pyval)) (n : node) : except string :=
  match n with
  | NText s => Ok s
  | NVar name attrs => render_var in_loop env name attrs
  | NFor x e attrs body =>
      seq ← (y ← resolve env e; get_attrs y attrs);
      items ← iter_jval seq;
      strs ← res_for items (λ v,
        (fix go (ns : list node) : except string :=
           match ns with
           | [] => Ok EmptyString
           | n :: ns' => s1 ← render_node true ((x, v) :: env) n; s2 ← go ns'; Ok (s1 +:+ s2)
           end) body);
      Ok (Stdlib.Strings.String.concat EmptyString strs)
  end.

Fixpoint render_nodes (in_loop : bool) (env : list (string * pyval)) (ns : list node) : except string :=
  match ns with
  | [] => Ok EmptyString
  | n :: ns' => s1 ← render_node in_loop env n; s2 ← render_nodes in_loop env ns'; Ok (s1 +:+ s2)
  end.

Definition interp_render (src : string) (env : list (string * pyval)) : except string :=
  segs ← lex (chars (normalize_source src)) LText [];
  nodes ← build segs [] [];
  render_nodes false env nodes.

#[export] Instance interp_engine : TemplateEngine := {| render := interp_render |}.

(** ** What plain interpolation promises

    A template of the kind the iftool documents use is a sequence of
    text pieces without [{] or line breaks and of [{{name}}] pieces; its
    value is the text with each name replaced by [unicode()] of its
    value, or by nothing when the name is undefined. *)
Inductive piece :=
| PText (t : string)
| PVar (name : string).

Definition piece_src (p : piece) : string :=
  match p with
  | PText t => t
  | PVar n => "{{" +:+ n +:+ "}}"
  end.

Definition piece_value (env : list (string * pyval)) (p : piece) : string :=
  match p with
  | PText t => t
  | PVar n => match lookup_var env n with Defined v => py_str v | Undefined => EmptyString end
  end.

Definition piece_ok (p : piece) : bool :=
  match p with
  | PText t => forallb (λ a, negb (Ascii.eqb a "{") && negb (is_line_break a)) (chars t)
  | PVar n => is_identifier n && negb (String.eqb n "not") && negb (existsb (String.eqb n) jinja_globals)
  end.

Definition template_src (ps : list piece) : string :=
  fold_right (λ p s, piece_src p +:+ s) EmptyString ps.

Definition template_value (env : list (string * pyval)) (ps : list piece) : string :=
  fold_right (λ p s, piece_value env p +:+ s) EmptyString ps.

(** What a loop promises: [pre{% for x in seq %}body{% endfor %}post]
    renders [pre], then [body] once per item of the list [seq] with [x]
    bound to the item, then [post]. *)
Definition for_header (x seq : string) : string := " for " +:+ x +:+ " in " +:+ seq +:+ " ".

Definition loop_template_src (pre : list piece) (x seq : string) (body post : list piece) : string :=
  template_src pre +:+ "{%" +:+ for_header x seq +:+ "%}" +:+
  template_src body +:+ "{% endfor %}" +:+ template_src post.

Definition loop_value (env : list (string * pyval)) (pre : list piece) (x : string)
    (vs : list pyval) (body post : list piece) : string :=
  template_value env pre +:+
  Stdlib.Strings.String.concat EmptyString (map (λ v, template_value ((x, v) :: env) body) vs) +:+
  template_value env post.

(** ** Lemmas *)

Lemma ident_char_facts a :
  is_ident_char a = true →
  is_space a = false ∧ is_line_break a = false ∧ a ≠ "}"%char ∧ a ≠ "."%char ∧ a ≠ "{"%char ∧
  a ≠ "%"%char.
Proof.
  destruct a as [[] [] [] [] [] [] [] []]; vm_compute; intros H;
    first [discriminate | repeat split; discriminate].
Qed.

Lemma is_identifier_chars n :
  is_identifier n = true → chars n ≠ [] ∧ Forall (λ a, is_ident_char a = true) (chars n).
Proof.
  unfold is_identifier, is_name. destruct (chars n) as [|a cs]; [done|].
  intros [[Ha Hcs]%andb_true_iff _]%andb_true_iff.
  split; [done|]. constructor.
  - unfold is_ident_char. by rewrite Ha.
  - apply List.Forall_forall. by apply List.forallb_forall.
Qed.

Lemma drop_spaces_id cs : Forall (λ a, is_space a = false) cs → drop_spaces cs = cs.
Proof. intros [|x l Hx Hl]; simpl; [done|]. by rewrite Hx. Qed.

Lemma trim_id cs : Forall (λ a, is_space a = false) cs → trim cs = cs.
Proof.
  intros H. unfold trim. rewrite (drop_spaces_id cs) by done.
  rewrite drop_spaces_id by (by apply List.Forall_rev). apply rev_involutive.
Qed.

Lemma ident_chars_facts n :
  is_identifier n = true →
  chars n ≠ [] ∧ Forall (λ a, is_space a = false) (chars n) ∧
  Forall (λ a, is_line_break a = false) (chars n) ∧ Forall (λ a, a ≠ "}"%char) (chars n) ∧
  Forall (λ a, a ≠ "."%char) (chars n) ∧ Forall (λ a, a ≠ "{"%char) (chars n) ∧
  Forall (λ a, a ≠ "%"%char) (chars n).
Proof.
  intros [Hne Hc]%is_identifier_chars. split_and!; [done|..];
    eapply Forall_impl; try exact Hc; intros a Ha%ident_char_facts; naive_solver.
Qed.

Lemma parse_expr_ident n :
  is_identifier n = true → n ≠ "not" → parse_expr (chars n) = Ok (Var n []).
Proof.
  intros Hn Hnot. pose proof (ident_chars_facts n Hn) as (Hne & Hsp & _ & _ & Hdot & _).
  unfold parse_expr. rewrite trim_id, Stdlib.Strings.String.string_of_list_ascii_of_string by done.
  destruct (String.eqb_spec n EmptyString) as [->|_]; [done|].
  rewrite py_split_lacks by (by apply lacks_chars). simpl.
  rewrite (proj2 (String.eqb_neq _ _) Hnot). by rewrite Hn.
Qed.

Lemma resolve_lookup env n :
  existsb (String.eqb n) jinja_globals = false → resolve env n = Ok (lookup_var env n).
Proof. intros H. unfold resolve. destruct (lookup_var env n); [done|]. by rewrite H. Qed.

Lemma resolve_defined env n v : lookup_var env n = Defined v → resolve env n = Ok (Defined v).
Proof. intros H. unfold resolve. by rewrite H. Qed.

Lemma lex_text cs rest acc :
  Forall (λ a, a ≠ "{"%char) cs → lex (cs ++ rest) LText acc = lex rest LText (acc ++ cs).
Proof.
  revert acc. induction cs as [|a cs IH]; intros acc Hcs; simpl; [by rewrite app_nil_r|].
  apply Forall_cons in Hcs as [Ha Hcs]. apply Ascii.eqb_neq in Ha.
  destruct (cs ++ rest) as [|b r] eqn:E.
  - by apply app_eq_nil in E as [-> ->].
  - rewrite Ha. cbn [andb]. rewrite IH by done. by rewrite <-app_assoc.
Qed.

Lemma lex_expr cs rest acc :
  Forall (λ a, a ≠ "}"%char) cs →
  lex (cs ++ "}"%char :: "}"%char :: rest) LExpr acc =
    seg ← parse_expr (acc ++ cs); segs ← lex rest LText []; Ok (seg :: segs).
Proof.
  revert acc. induction cs as [|a cs IH]; intros acc Hcs; simpl; [by rewrite app_nil_r|].
  apply Forall_cons in Hcs as [Ha Hcs]. apply Ascii.eqb_neq in Ha.
  destruct (cs ++ _) as [|b r] eqn:E; [by destruct cs|].
  rewrite Ha. cbn [andb]. rewrite IH by done. by rewrite <-app_assoc.
Qed.

Lemma normalize_source_plain s :
  Forall (λ a, is_line_break a = false) (chars s) → normalize_source s = s.
Proof.
  intros Hs. unfold normalize_source. rewrite splitlines_plain by done. by destruct s.
Qed.

Lemma render_nodes_app b env ns1 ns2 :
  render_nodes b env (ns1 ++ ns2) =
    s1 ← render_nodes b env ns1; s2 ← render_nodes b env ns2; Ok (s1 +:+ s2).
Proof.
  induction ns1 as [|n ns1 IH]; simpl; [by destruct (render_nodes b env ns2)|].
  rewrite IH. destruct (render_node b env n), (render_nodes b env ns1), (render_nodes b env ns2);
    simpl; try reflexivity. by rewrite string_app_assoc.
Qed.

Lemma text_seg_build acc segs stack cur :
  build (text_seg acc ++ segs) stack cur = build segs stack (List.rev (text_nodes acc) ++ cur).
Proof. by destruct acc. Qed.

Lemma text_nodes_render b env acc : render_nodes b env (text_nodes acc) = Ok (of_chars acc).
Proof. destruct acc; simpl; [done|]. f_equal. apply string_app_nil_r. Qed.

Lemma piece_var_chars n rest :
  chars (piece_src (PVar n) +:+ rest) =
    "{"%char :: "{"%char :: chars n ++ "}"%char :: "}"%char :: chars rest.
Proof. unfold piece_src. rewrite !chars_app, <-!app_assoc. reflexivity. Qed.

Lemma res_bind_Ok_r {E A} (r : res E A) : (x ← r; Ok x) = r.
Proof. by destruct r. Qed.

(** Lexing a template of pieces followed by any text: the segments of
    the pieces come first, the text after the last expression is still
    pending in the accumulator, and the nodes of those segments render
    to the value of the pieces. *)
Lemma lex_pieces b ps rest acc :
  Forall (λ p, piece_ok p = true) ps → (b = true → Forall (λ p, p ≠ PVar "loop") ps) →
  ∃ front ns acc',
    lex (chars (template_src ps) ++ rest) LText acc = (segs ← lex rest LText acc'; Ok (front ++ segs)) ∧
    (∀ segs stack cur, build (front ++ segs) stack cur = build segs stack (List.rev ns ++ cur)) ∧
    ∀ env, ∃ s, render_nodes b env ns = Ok s ∧ s +:+ of_chars acc' = of_chars acc +:+ template_value env ps.
Proof.
  intros Hps Hloop. revert acc. induction Hps as [|[t|n] ps Hp Hps IH]; intros acc.
  - exists [], [], acc. split_and!; [by rewrite res_bind_Ok_r|done|]. intros env. exists EmptyString.
    split; [done|]. symmetry. apply string_app_nil_r.
  - simpl in Hp |- *. rewrite chars_app, <-app_assoc, lex_text.
    2:{ apply List.Forall_forall. intros a Ha. apply List.forallb_forall with (x := a) in Hp; [|done].
        apply andb_true_iff in Hp as [Hp _]. apply negb_true_iff, Ascii.eqb_neq in Hp. done. }
    destruct (IH (λ Hb, Forall_inv_tail (Hloop Hb)) (acc ++ chars t)) as (front & ns & acc' & ? & ? & Hr).
    exists front, ns, acc'. split_and!; [done|done|]. intros env.
    destruct (Hr env) as (s & ? & Hs). exists s. split; [done|].
    rewrite Hs, of_chars_app, Stdlib.Strings.String.string_of_list_ascii_of_string. apply string_app_assoc.
  - simpl in Hp. apply andb_true_iff in Hp as [[Hp Hnot]%andb_true_iff Hglob].
    apply negb_true_iff, String.eqb_neq in Hnot. apply negb_true_iff in Hglob.
    pose proof (ident_chars_facts n Hp) as (_ & _ & _ & Hbr & _).
    change (template_src (PVar n :: ps)) with (piece_src (PVar n) +:+ template_src ps).
    rewrite piece_var_chars. cbn [List.app lex andb Ascii.eqb Bool.eqb].
    rewrite <-app_assoc. cbn [List.app].
    rewrite lex_expr by done. rewrite app_nil_l, parse_expr_ident by done. cbn [mbind res_bind].
    destruct (IH (λ Hb, Forall_inv_tail (Hloop Hb)) []) as (front & ns & acc' & -> & Hb & Hrs).
    exists (text_seg acc ++ Var n [] :: front), (text_nodes acc ++ NVar n [] :: ns), acc'.
    split_and!.
    + destruct (lex rest LText acc'); simpl; [|done]. by rewrite <-app_assoc.
    + intros segs stack cur. rewrite <-app_assoc, text_seg_build.
      change (build ((Var n [] :: front) ++ segs) stack (List.rev (text_nodes acc) ++ cur))
        with (build (front ++ segs) stack (NVar n [] :: List.rev (text_nodes acc) ++ cur)).
      rewrite Hb. f_equal. rewrite rev_app_distr. simpl. by rewrite <-!app_assoc.
    + intros env. destruct (Hrs env) as (s & Hr & Hs).
      assert (render_var b env n [] =
              Ok (match lookup_var env n with Defined v => py_str v | Undefined => EmptyString end)) as Hv.
      { unfold render_var. rewrite resolve_lookup by done.
        destruct b; [|by destruct (lookup_var env n)].
        assert (n ≠ "loop") as Hn by (intros ->; by apply Forall_inv in Hloop).
        simpl. rewrite (proj2 (String.eqb_neq _ _) Hn). by destruct (lookup_var env n). }
      rewrite render_nodes_app, text_nodes_render. simpl. rewrite Hv, Hr. simpl. eexists. split; [done|].
      simpl in Hs. rewrite !string_app_assoc, Hs. reflexivity.
Qed.

Lemma template_src_plain ps :
  Forall (λ p, piece_ok p = true) ps →
  Forall (λ a, is_line_break a = false) (chars (template_src ps)).
Proof.
  induction 1 as [|[t|n] ps Hp Hps IH]; [constructor| |]; simpl in Hp.
  2: apply andb_true_iff in Hp as [[Hp _]%andb_true_iff _].
  - change (template_src (PText t :: ps)) with (t +:+ template_src ps).
    rewrite chars_app. apply Forall_app. split; [|done].
    apply List.Forall_forall. intros a Ha. apply List.forallb_forall with (x := a) in Hp; [|done].
    by apply andb_true_iff in Hp as [_ ?%negb_true_iff].
  - change (template_src (PVar n :: ps)) with (piece_src (PVar n) +:+ template_src ps).
    rewrite piece_var_chars. pose proof (ident_chars_facts n Hp) as (_ & _ & Hlb & _).
    do 2 (constructor; [done|]). apply Forall_app. split; [done|].
    do 2 (constructor; [done|]). done.
Qed.

Lemma lex_stmt cs rest acc :
  Forall (λ a, a ≠ "%"%char) cs →
  lex (cs ++ "%"%char :: "}"%char :: rest) LStmt acc =
    seg ← parse_stmt (acc ++ cs); segs ← lex rest LText []; Ok (seg :: segs).
Proof.
  revert acc. induction cs as [|a cs IH]; intros acc Hcs; simpl; [by rewrite app_nil_r|].
  apply Forall_cons in Hcs as [Ha Hcs]. apply Ascii.eqb_neq in Ha.
  destruct (cs ++ _) as [|b r] eqn:E; [by destruct cs|].
  rewrite Ha. cbn [andb]. rewrite IH by done. by rewrite <-app_assoc.
Qed.

(** A word without white space, then a space. *)
Lemma words_acc_word cs rest cur :
  Forall (λ a, is_space a = false) cs → List.rev cur ++ cs ≠ [] →
  words_acc (cs ++ " "%char :: rest) cur = of_chars (List.rev cur ++ cs) :: words_acc rest [].
Proof.
  revert cur. induction cs as [|a cs IH]; intros cur Hcs Hne; simpl.
  - rewrite app_nil_r in *. destruct cur; [done|]. reflexivity.
  - apply Forall_cons in Hcs as [Ha Hcs]. rewrite Ha, IH by (simpl; rewrite ?app_nil_r; by destruct (List.rev cur)).
    simpl. by rewrite <-app_assoc.
Qed.

Lemma for_header_chars x seq :
  chars (for_header x seq) =
    " "%char :: (chars "for" ++ " "%char :: (chars x ++ " "%char ::
                 (chars "in" ++ " "%char :: (chars seq ++ [" "%char])))).
Proof. unfold for_header. rewrite !chars_app. reflexivity. Qed.

(** The loop statement conditions of Jinja2's parser: the target is a
    name other than [in] (and [loop]), the iterable a name other than
    [not] and [recursive]. *)
Definition for_ok (x seq : string) : Prop :=
  is_identifier x = true ∧ x ≠ "loop" ∧ x ≠ "in" ∧
  is_identifier seq = true ∧ seq ≠ "not" ∧ seq ≠ "recursive".

Lemma parse_for x seq :
  for_ok x seq → parse_stmt (chars (for_header x seq)) = Ok (For x seq []).
Proof.
  intros (Hx & Hl & Hin & Hs & Hnot & Hrec). pose proof (ident_chars_facts x Hx) as (Hxn & Hxs & _).
  pose proof (ident_chars_facts seq Hs) as (Hsn & Hss & _ & _ & Hsd & _).
  unfold parse_stmt, words. rewrite for_header_chars.
  change (words_acc (" "%char :: ?l) []) with (words_acc l []).
  rewrite !words_acc_word by first [done | repeat constructor | by destruct (chars _)].
  cbn [List.rev List.app words_acc]. rewrite !Stdlib.Strings.String.string_of_list_ascii_of_string.
  cbn [String.eqb Ascii.eqb Bool.eqb]. rewrite (proj2 (String.eqb_neq _ _) Hin).
  rewrite Hx, (proj2 (String.eqb_neq _ _) Hl). cbn [andb negb].
  rewrite py_split_lacks by (by apply lacks_chars). simpl.
  rewrite (proj2 (String.eqb_neq _ _) Hnot), (proj2 (String.eqb_neq _ _) Hrec). by rewrite Hs.
Qed.

Lemma render_node_for b env x e attrs body :
  render_node b env (NFor x e attrs body) =
    seq ← (y ← resolve env e; get_attrs y attrs); items ← iter_jval seq;
    strs ← res_for items (λ v, render_nodes true ((x, v) :: env) body);
    Ok (Stdlib.Strings.String.concat EmptyString strs).
Proof.
  simpl. destruct (y ← resolve env e; get_attrs y attrs) as [seq|]; [|done]. simpl.
  destruct (iter_jval seq) as [items|]; [|done]. simpl.
  erewrite res_for_ext; [reflexivity|]. intros v _. induction body as [|n ns IH]; [done|].
  simpl. by rewrite IH.
Qed.

Lemma lex_for_stmt x seq r acc :
  for_ok x seq →
  lex (chars ("{%" +:+ (for_header x seq +:+ ("%}" +:+ r)))) LText acc =
    segs ← lex (chars r) LText []; Ok (text_seg acc ++ For x seq [] :: segs).
Proof.
  intros Hok. pose proof Hok as (Hx & _ & _ & Hs & _). rewrite !chars_app.
  cbn [chars List.app lex Ascii.eqb Bool.eqb andb].
  rewrite lex_stmt, app_nil_l, parse_for by first [done | rewrite for_header_chars;
    pose proof (ident_chars_facts x Hx) as (_ & _ & _ & _ & _ & _ & Hxp);
    pose proof (ident_chars_facts seq Hs) as (_ & _ & _ & _ & _ & _ & Hsp);
    repeat first [apply Forall_app; split | constructor | done | discriminate]].
  by destruct (lex (chars r) LText []).
Qed.

Lemma lex_endfor r acc :
  lex (chars ("{% endfor %}" +:+ r)) LText acc = segs ← lex (chars r) LText []; Ok (text_seg acc ++ EndFor :: segs).
Proof. rewrite chars_app. simpl. by destruct (lex (chars r) LText []). Qed.

Lemma build_for x e attrs segs stack cur :
  build (For x e attrs :: segs) stack cur = build segs ((x, e, attrs, cur) :: stack) [].
Proof. reflexivity. Qed.

Lemma build_endfor x e attrs parent segs stack cur :
  build (EndFor :: segs) ((x, e, attrs, parent) :: stack) cur =
    build segs stack (NFor x e attrs (List.rev cur) :: parent).
Proof. reflexivity. Qed.

Lemma loop_template_plain pre x seq body post :
  Forall (λ p, piece_ok p = true) pre → Forall (λ p, piece_ok p = true) body →
  Forall (λ p, piece_ok p = true) post → is_identifier x = true → is_identifier seq = true →
  Forall (λ a, is_line_break a = false) (chars (loop_template_src pre x seq body post)).
Proof.
  intros Hpre Hbody Hpost Hx Hs. unfold loop_template_src. rewrite !chars_app, for_header_chars.
  pose proof (ident_chars_facts x Hx) as (_ & _ & Hxl & _).
  pose proof (ident_chars_facts seq Hs) as (_ & _ & Hsl & _).
  repeat first [apply Forall_app; split | constructor | by apply template_src_plain | done].
Qed.





End Render.
