(* ===== verification/Configure.v ===== *)
(** * The renderers, [configure] and [main]

    [configure_device] (src/iftool.py:98-123), [configure_routes]
    (126-160), [configure_rules] (163-197) and [configure_interfaces]
    (200-251) are [io] programs: they look the host up ([Hosts]), build
    their template variables ([Tables], [Ipv4]), render a filename and a
    content template through any [TemplateEngine] ([Render]; a template
    that is not a string raises [TypeError]), join the filename to the
    destination ([path_join_unicode]: the rendered name is [unicode]) and
    hand the pair to the sink ([Emit]).
    [configure] (81-95) loads the document, reads [global.vlan], runs the
    device renderer only when it is truthy, then the other three in
    order.  [main] (254-269) runs [configure] under the flags with [run]
    ([Output]).  The document loader is a parameter of [configure]; the
    code's [yaml.load(file, CustomLoader)] is [Loader.load_file fuel files]
    (see [Scenario]), and the theorems hold for every loader.

    The part of each renderer after its host loop is a definition of its
    own ([device_file], [table_file], [interfaces_files]), so that
    [configure_resolved], which resolves the host once and passes the
    record to the four bodies, can be proved equal to [configure].

    The theorems are stated for every template engine and every file
    system satisfying [FileSystemLaws]. *)

From S2P Require Import Prelude PyStr PyVal Ipv4 Output Hosts Tables Render.
Import String.

Module Configure.
Import PyStr PyVal Ipv4 Output Hosts Tables Render.

(** The parsed command line ([docopt]) and the two facts of the host
    that [configure] reads: [socket.gethostname()] and [os.getcwd()]. *)
Record arguments := mk_arguments {
  arg_host : option string;
  arg_template : string;
  arg_destination : option string
}.

Record environment := mk_environment {
  gethostname : string;
  getcwd : string
}.

(** [x or default] on an optional string: [None] and the empty string
    are false. *)
Definition or_default (o : option string) (default : string) : string :=
  match o with
  | Some s => if String.eqb s EmptyString then default else s
  | None => default
  end.

(** Line 85: [arguments['--host'] or socket.gethostname()]. *)
Definition target_host (env : environment) (args : arguments) : string :=
  or_default (arg_host args) (gethostname env).

(** Line 86: [arguments['<destination>'] or os.getcwd()]. *)
Definition target_destination (env : environment) (args : arguments) : string :=
  or_default (arg_destination args) (getcwd env).

Section renderers.
Context `{TemplateEngine}.

(** [jinja2.Template(configuration['templates'][section][field]).render(vars)];
    Jinja2 parses a string source and refuses any other value
    ([Environment.compile] hands it to the code generator, which raises
    [TypeError]). *)
Definition render_template (configuration : pyval) (section field : string)
    (vars : list (string * pyval)) : except string :=
  templates ← getkey configuration "templates";
  sect ← getkey templates section;
  source ← getkey sect field;
  match source with
  | PStr s => render s vars
  | _ => Err (TypeError "Can't compile non template nodes")
  end.

(** [configuration['global']['vlan']] *)
Definition global_vlan (configuration : pyval) : except pyval :=
  g ← getkey configuration "global";
  getkey g "vlan".

(** Lines 108-123: what [configure_device] does once the host is found. *)
Definition device_file (configuration host detail : pyval) (destination : string) : io unit :=
  vlan ← io_lift (global_vlan configuration);
  device ← io_lift (getkey detail "device");
  filename ← io_lift (render_template configuration "device" "filename" [("device", device)]);
  filename ← io_lift (path_join_unicode destination filename);
  content ← io_lift (render_template configuration "device" "content"
                       [("device", device); ("vlan", vlan)]);
  io_emit destination filename content.

(** Lines 98-123. *)
Definition configure_device (configuration : pyval) (this_host destination : string) : io unit :=
  '(host, detail) ← resolve_host configuration this_host;
  device_file configuration host detail destination.

(** Lines 136-160 and 173-197: what the route and rule renderers do once
    the host is found; they differ only in the template section, ["route"]
    or ["rule"]. *)
Definition table_file (section : string) (configuration host detail : pyval)
    (destination : string) : io unit :=
  device ← io_lift (getkey detail "device");
  tables ← io_lift (table_contexts configuration device);
  filename ← io_lift (render_template configuration section "filename" [("device", device)]);
  filename ← io_lift (path_join_unicode destination filename);
  content ← io_lift (render_template configuration section "content" [("tables", PList tables)]);
  io_emit destination filename content.

(** Lines 126-160 and 163-197. *)
Definition configure_table_file (section : string) (configuration : pyval)
    (this_host destination : string) : io unit :=
  '(host, detail) ← resolve_host configuration this_host;
  table_file section configuration host detail destination.

Definition configure_routes := configure_table_file "route".
Definition configure_rules := configure_table_file "rule".

(** The body of the loop of lines 223-251, for one interface name. *)
Definition configure_interface (configuration host device : pyval)
    (ifnames : list (pyval * pyval)) (destination : string) (ifname : pyval) : io unit :=
  filename ← io_lift (render_template configuration "interface" "filename"
                        [("device", device); ("ifname", ifname)]);
  filename ← io_lift (path_join_unicode destination filename);
  address ← io_lift (hosts ← getkey configuration "hosts";
                     h ← getitem hosts host;
                     addresses ← getkey h "addresses";
                     getitem addresses ifname);
  subnet ← io_lift (ctx ← getitem (PDict ifnames) ifname; getkey ctx "subnet");
  '(network_address, netmask) ← io_lift (subnet_values subnet);
  content ← io_lift (render_template configuration "interface" "content"
                       [("device", device); ("ifname", ifname); ("address", address);
                        ("network_address", network_address); ("netmask", netmask)]);
  io_emit destination filename content.

(** Lines 210-251: what [configure_interfaces] does once the host is
    found; [vlan] is read (and may raise) though unused. *)
Definition interfaces_files (configuration host detail : pyval) (destination : string) : io unit :=
  vlan ← io_lift (global_vlan configuration);
  device ← io_lift (getkey detail "device");
  ifnames ← io_lift (build_ifnames configuration device);
  names ← io_lift (interface_names ifnames);
  io_for_each names (configure_interface configuration host device ifnames destination).

(** Lines 200-251. *)
Definition configure_interfaces (configuration : pyval) (this_host destination : string) : io unit :=
  '(host, detail) ← resolve_host configuration this_host;
  interfaces_files configuration host detail destination.

(** Lines 81-95, after the document is loaded by [load]. *)
Definition configure (load : string → except pyval) (env : environment)
    (args : arguments) : io unit :=
  let this_host := target_host env args in
  let destination := target_destination env args in
  configuration ← io_lift (load (arg_template args));
  vlan ← io_lift (global_vlan configuration);
  do (if truthy vlan then configure_device configuration this_host destination else mret ()) ;;
  do configure_routes configuration this_host destination ;;
  do configure_rules configuration this_host destination ;;
  configure_interfaces configuration this_host destination.

(** The refactoring that section 9 of the design notes proposes: the host
    is resolved once, where the first renderer would resolve it, and the
    record is passed to every renderer. *)
Definition configure_resolved (load : string → except pyval) (env : environment)
    (args : arguments) : io unit :=
  let this_host := target_host env args in
  let destination := target_destination env args in
  configuration ← io_lift (load (arg_template args));
  vlan ← io_lift (global_vlan configuration);
  '(host, detail) ← resolve_host configuration this_host;
  do (if truthy vlan then device_file configuration host detail destination else mret ()) ;;
  do table_file "route" configuration host detail destination ;;
  do table_file "rule" configuration host detail destination ;;
  interfaces_files configuration host detail destination.
End renderers.

(** Lines 254-269: the flags go to the sink, [configure] runs. *)
Definition main `{TemplateEngine} {F} `{FileSystem F} (fl : flags)
    (load : string → except pyval) (env : environment) (args : arguments) : prog F unit :=
  run fl (configure load env args).

(** ** Lemmas *)

(** Split the pure steps of a program: each [io_lift] either goes on or
    ends the program with its exception. *)
Ltac io_steps :=
  repeat (rewrite ?io_lift_bind; case_match); simpl;
  try (intros; discriminate); try (intros; reflexivity).

Lemma resolve_host_events configuration this_host x :
  outcome (resolve_host configuration this_host) = Ok x →
  events (resolve_host configuration this_host) = [].
Proof. unfold resolve_host. io_steps; congruence. Qed.

Section renderer_lemmas.
Context `{TemplateEngine}.

(** A renderer that ends normally hands exactly one file to the sink
    after a silent host lookup. *)
Lemma after_host_nwrites configuration this_host (k : pyval * pyval → io unit) n :
  (∀ x, outcome (k x) = Ok () → nwrites (k x) = n) →
  outcome (resolve_host configuration this_host ≫= k) = Ok () →
  nwrites (resolve_host configuration this_host ≫= k) = n.
Proof.
  intros Hk. rewrite outcome_bind, nwrites_bind.
  destruct (outcome (resolve_host _ _)) as [x|e] eqn:Ho; simpl; [|by intros].
  unfold nwrites at 1. rewrite (resolve_host_events _ _ _ Ho). simpl. auto.
Qed.

Lemma configure_device_nwrites configuration this_host destination :
  outcome (configure_device configuration this_host destination) = Ok () →
  nwrites (configure_device configuration this_host destination) = 1.
Proof. apply after_host_nwrites. intros [host detail]. unfold device_file. io_steps. Qed.

Lemma configure_table_file_nwrites section configuration this_host destination :
  outcome (configure_table_file section configuration this_host destination) = Ok () →
  nwrites (configure_table_file section configuration this_host destination) = 1.
Proof. apply after_host_nwrites. intros [host detail]. unfold table_file. io_steps. Qed.

Lemma configure_interface_nwrites configuration host device ifnames destination ifname :
  outcome (configure_interface configuration host device ifnames destination ifname) = Ok () →
  nwrites (configure_interface configuration host device ifnames destination ifname) = 1.
Proof. unfold configure_interface. io_steps. Qed.

Lemma configure_interfaces_nwrites configuration this_host destination :
  outcome (configure_interfaces configuration this_host destination) = Ok () →
  ∃ host detail device ifnames names,
    outcome (resolve_host configuration this_host) = Ok (host, detail) ∧
    getkey detail "device" = Ok device ∧
    build_ifnames configuration device = Ok ifnames ∧ interface_names ifnames = Ok names ∧
    nwrites (configure_interfaces configuration this_host destination) = length names.
Proof.
  unfold configure_interfaces. rewrite outcome_bind, nwrites_bind.
  destruct (outcome (resolve_host _ _)) as [[host detail]|e] eqn:Ho; simpl; [|by intros].
  unfold nwrites at 1. rewrite (resolve_host_events _ _ _ Ho). simpl.
  unfold interfaces_files. io_steps. intros Hout. do 5 eexists. split_and!; [done..|].
  apply nwrites_for_each; [|done]. intros x _. apply configure_interface_nwrites.
Qed.
End renderer_lemmas.

(** What a renderer hands to the sink as a path: the destination, and
    [os.path.join] of the destination with some rendered filename. *)
Definition emit_under (destination : string) (ev : event) : Prop :=
  match ev with
  | ESay _ => True
  | EEmit d fn _ => d = destination ∧ ∃ r, path_join_unicode destination r = Ok fn
  end.

Section emit_paths.
Context `{TemplateEngine}.
Variable destination : string.

Ltac emit_under_steps :=
  repeat (rewrite ?io_lift_bind; case_match); simpl; repeat constructor; eauto.

Lemma resolve_host_under configuration this_host :
  Forall (emit_under destination) (events (resolve_host configuration this_host)).
Proof. unfold resolve_host. emit_under_steps. Qed.

Lemma after_host_under configuration this_host (k : pyval * pyval → io unit) :
  (∀ x, Forall (emit_under destination) (events (k x))) →
  Forall (emit_under destination) (events (resolve_host configuration this_host ≫= k)).
Proof. intros Hk. apply events_bind_Forall; [apply resolve_host_under|done]. Qed.

Lemma configure_device_under configuration this_host :
  Forall (emit_under destination) (events (configure_device configuration this_host destination)).
Proof. apply after_host_under. intros [host detail]. unfold device_file. emit_under_steps. Qed.

Lemma configure_table_file_under section configuration this_host :
  Forall (emit_under destination)
    (events (configure_table_file section configuration this_host destination)).
Proof. apply after_host_under. intros [host detail]. unfold table_file. emit_under_steps. Qed.

Lemma configure_interfaces_under configuration this_host :
  Forall (emit_under destination) (events (configure_interfaces configuration this_host destination)).
Proof.
  apply after_host_under. intros [host detail]. unfold interfaces_files.
  repeat (rewrite ?io_lift_bind; case_match); simpl; try constructor.
  apply events_for_each_Forall. intros ifname. unfold configure_interface. emit_under_steps.
Qed.
End emit_paths.

(** A successful lookup is silent, so it is [Done] of its result. *)
Lemma resolve_host_Done configuration this_host x :
  outcome (resolve_host configuration this_host) = Ok x →
  resolve_host configuration this_host = Done x.
Proof. intros Ho. apply io_silent_Done; [by eapply resolve_host_events|done]. Qed.

(** ** The run of [configure] and [main] *)

Section configure_theorems.
Context `{TemplateEngine}.

(** C5: [configuration['global']['vlan']] is read before anything else: a
    document without it (or without [global]) stops the run with that
    exception, before any output. *)
Theorem configure_missing_vlan load env args configuration e :
  load (arg_template args) = Ok configuration → global_vlan configuration = Err e →
  configure load env args = Raise e.
Proof. intros Hl Hv. unfold configure. rewrite io_lift_bind, Hl, io_lift_bind, Hv. done. Qed.

(** C4: Every run of [configure] that ends normally hands the sink one
    device file when [vlan] is truthy and none otherwise, one route
    file, one rule file, and one file per interface name of
    [sorted(ifnames.keys())]. *)
Theorem configure_file_count load env args configuration vlan :
  load (arg_template args) = Ok configuration → global_vlan configuration = Ok vlan →
  outcome (configure load env args) = Ok () →
  ∃ host detail device ifnames names,
    outcome (resolve_host configuration (target_host env args)) = Ok (host, detail) ∧
    getkey detail "device" = Ok device ∧
    build_ifnames configuration device = Ok ifnames ∧ interface_names ifnames = Ok names ∧
    nwrites (configure load env args) = (if truthy vlan then 1 else 0) + 2 + length names.
Proof.
  intros Hl Hv. unfold configure. rewrite io_lift_bind, Hl, io_lift_bind, Hv.
  set (this_host := target_host env args). set (dest := target_destination env args).
  intros (Hd & (Hr & (Hu & Hi)%outcome_seq_inv)%outcome_seq_inv)%outcome_seq_inv.
  destruct (configure_interfaces_nwrites _ _ _ Hi)
    as (host & detail & device & ifnames & names & ? & ? & ? & ? & Hn).
  exists host, detail, device, ifnames, names. split_and!; [done..|].
  rewrite !nwrites_bind, Hd, Hr, Hu. cbv beta iota.
  unfold configure_routes, configure_rules in *.
  rewrite !configure_table_file_nwrites, Hn by done.
  destruct (truthy vlan); [rewrite configure_device_nwrites by done|]; simpl; lia.
Qed.
End configure_theorems.

Section main_theorems.
Context `{TemplateEngine} {F : Type} `{FileSystemLaws F}.

(** C3: An unknown host: whatever the flags, the first renderer to run
    (the device renderer when [vlan] is truthy, the route renderer
    otherwise) prints the error line and exits; [main] prints only that
    line, leaves the file system as it was, and ends with
    [SystemExit(1)], exit status 1. *)
Theorem main_unknown_host fl load env args configuration vlan candidates (w : world F) :
  load (arg_template args) = Ok configuration → global_vlan configuration = Ok vlan →
  (getkey configuration "hosts" ≫= py_iter) = Ok candidates →
  find_host (target_host env args) candidates = Ok None →
  main fl load env args w =
    (mk_world (w_stdout w ++ [not_found_msg (target_host env args)]) (w_fs w),
     Err (SystemExit 1)).
Proof.
  intros Hl Hv Hc Hf. unfold main, configure. rewrite io_lift_bind, Hl, io_lift_bind, Hv.
  destruct (truthy vlan); unfold configure_device, configure_routes, configure_table_file;
    by rewrite (resolve_host_not_found _ _ candidates).
Qed.

(** C2: Without [--yes], [main] never changes the file system and prints
    the preview of every file the run produces, in order, up to the
    first line [str()] refuses (a non-ASCII filename or content line),
    which ends the run with [UnicodeEncodeError]; otherwise it ends as
    [configure] ends. *)
Theorem main_dry_run fl load env args (w : world F) :
  YES fl = false →
  let lines := concat (map dry_event_lines (events (configure load env args))) in
  main fl load env args w =
    (mk_world (w_stdout w ++ fst (print_texts lines)) (w_fs w),
     match snd (print_texts lines) with
     | Some e => Err e
     | None => outcome (configure load env args)
     end).
Proof. intros Hy. by apply run_dry. Qed.


End main_theorems.


Section refactoring.
Context `{TemplateEngine}.

(** C23: Equivalence with the refactoring of the design notes: resolving
    the host once and passing its record to the four renderers gives the
    same program as the code, which resolves it in each renderer: the
    same lines, files and outcome, under every flag and file system. *)
Theorem configure_resolve_once load env args :
  configure load env args = configure_resolved load env args.
Proof.
  unfold configure, configure_resolved, configure_device, configure_routes,
    configure_rules, configure_table_file, configure_interfaces.
  destruct (load (arg_template args)) as [configuration|e]; [|done]. simpl.
  destruct (global_vlan configuration) as [vlan|e]; [|done]. simpl.
  destruct (outcome (resolve_host configuration (target_host env args)))
    as [[host detail]|e] eqn:Ho.
  - rewrite (resolve_host_Done _ _ _ Ho). simpl. by destruct (truthy vlan).
  - destruct (truthy vlan); rewrite ?io_ret_bind, !io_bind_assoc; by apply (io_bind_raises _ e).
Qed.
End refactoring.

End Configure.
