(* ===== verification/Cli.v ===== *)
(** * The command line: docopt on iftool's usage text

    [main] (src/iftool.py:254-269) parses [argv] with
    [docopt.docopt(__doc__, argv)] against the module docstring (lines
    2-22), copies [--verbose], [--yes] and [--overwrite] to the globals
    and calls [configure] when the command [configure] matched.  This
    file models docopt 0.6 on that docstring: the option table it reads
    from the [Options:] section and the usage pattern ([doc_options],
    with [--host] from [--host=<host>] in the pattern), the tokenisation
    of [argv] ([parse_argv]: [--] ends the options and is itself kept
    as a positional argument, as docopt 0.6 does, long options with
    [=value] or a following value, unique prefixes of long options,
    stacks of short flags, unknown options kept so that the match fails),
    the [--help] check that runs before matching, and the match of the
    pattern [[options] configure [--host=<host>] <template>
    [<destination>]] ([docopt_match]).  [iftool_main] is [main] on
    [argv].  The theorems show that every parsed command line is parsed
    back from its canonical rendering (a round trip) and what happens on
    a usage error and on [--help].  docopt is called without [version=],
    so [-V, --version] is a flag that [main] never reads; the theorems
    leave it out of their command lines. *)

From S2P Require Import Prelude PyStr PyVal Output Render Configure.
From stdpp Require Import gmap.
From Stdlib Require Import Ascii.
Import String.

Module Cli.
Import PyStr PyVal Output Render Configure.

Definition nl : string := newline.

(** [__doc__.strip("\n")], lines 3-21. *)
Definition usage_doc : string :=
  "Network interface configuration control tool." +:+ nl +:+
  EmptyString +:+ nl +:+
  "Usage:" +:+ nl +:+
  "    iftool [options] configure [--host=<host>] <template> [<destination>]" +:+ nl +:+
  EmptyString +:+ nl +:+
  "Options:" +:+ nl +:+
  "    -h, --help              display this message and exit." +:+ nl +:+
  "    -V, --version           display version and exit." +:+ nl +:+
  "    -v, --verbose           display extra output." +:+ nl +:+
  "    -y, --yes               required for changes to take affect and files to" +:+ nl +:+
  "                            be written." +:+ nl +:+
  "    --overwrite             required to replace existing files." +:+ nl +:+
  EmptyString +:+ nl +:+
  "Commands:" +:+ nl +:+
  "    configure               Generate network configuration files described by" +:+ nl +:+
  "                            <template>. <destination> is where to place the" +:+ nl +:+
  "                            files [default: /etc/sysconfig/network-scripts] and" +:+ nl +:+
  "                            <host> is the server to write the files for" +:+ nl +:+
  "                            [default: `hostname`].".

(** docopt's [printable_usage]: the [Usage:] section. *)
Definition usage_text : string :=
  "Usage:" +:+ nl +:+
  "    iftool [options] configure [--host=<host>] <template> [<destination>]".

(** [DocoptExit(message)]: the message, then the usage section. *)
Definition docopt_exit (message : option string) : exn :=
  DocoptExit (match message with Some m => m +:+ nl +:+ usage_text | None => usage_text end).

(** ** The option table *)

Record option_spec := mk_option_spec {
  opt_short : option string;
  opt_long : option string;
  opt_argcount : nat
}.

(** [parse_defaults(doc)] on the [Options:] section, then [--host] from
    [--host=<host>] in the usage pattern. *)
Definition doc_options : list option_spec :=
  [mk_option_spec (Some "-h") (Some "--help") 0;
   mk_option_spec (Some "-V") (Some "--version") 0;
   mk_option_spec (Some "-v") (Some "--verbose") 0;
   mk_option_spec (Some "-y") (Some "--yes") 0;
   mk_option_spec None (Some "--overwrite") 0;
   mk_option_spec None (Some "--host") 1].

(** [Option.name]: the long name, else the short one. *)
Definition opt_name (o : option_spec) : string :=
  match opt_long o, opt_short o with
  | Some l, _ => l
  | None, Some s => s
  | None, None => EmptyString
  end.

Definition opt_long_is (p : string → bool) (o : option_spec) : bool :=
  match opt_long o with Some l => p l | None => false end.

(** The options [parse_long] considers for [long]: the exact ones, else
    those whose long name starts with [long]. *)
Definition long_candidates (opts : list option_spec) (long : string) : list option_spec :=
  match List.filter (opt_long_is (String.eqb long)) opts with
  | [] => List.filter (opt_long_is (String.prefix long)) opts
  | l => l
  end.

(** [s.partition('=')]: the text after the first [=], if any. *)
Fixpoint after_first (c : ascii) (s : string) : option string :=
  match s with
  | EmptyString => None
  | String a s' => if Ascii.eqb a c then Some s' else after_first c s'
  end.

(** ** Tokens *)

(** A parsed [Option] (its name and its value, [None] for a flag) or a
    positional [Argument]. *)
Inductive token :=
| TOpt (name : string) (value : option string)
| TArg (value : string).

(** [parse_shorts] on the letters after [-]: each letter is a flag (no
    short option of this usage takes an argument); an unknown letter is
    added to the table, as docopt does. *)
Fixpoint parse_shorts (opts : list option_spec) (cs : list ascii)
    : list token * list option_spec :=
  match cs with
  | [] => ([], opts)
  | c :: cs' =>
      let short := String "-" (String c EmptyString) in
      let '(o, opts') :=
        match List.filter (λ o, match opt_short o with
                                | Some s => String.eqb s short
                                | None => false end) opts with
        | o :: _ => (o, opts)
        | [] => let o := mk_option_spec (Some short) None 0 in (o, opts ++ [o])
        end in
      let '(toks, opts'') := parse_shorts opts' cs' in
      (TOpt (opt_name o) None :: toks, opts'')
  end.

Definition requires_argument (o : option_spec) : exn :=
  docopt_exit (Some (opt_name o +:+ " requires argument")).

(** [parse_argv(tokens, options)] with [options_first=False]. *)
Fixpoint parse_argv (opts : list option_spec) (argv : list string) : except (list token) :=
  match argv with
  | [] => Ok []
  | t :: rest =>
      if String.eqb t "--" then Ok (map TArg argv)
      else if String.prefix "--" t then
        let long := prefix_before "=" t in
        let value := after_first "=" t in
        match long_candidates opts long with
        | [] =>
            let o := mk_option_spec None (Some long)
                       (match value with Some _ => 1 | None => 0 end) in
            toks ← parse_argv (opts ++ [o]) rest; Ok (TOpt long value :: toks)
        | [o] =>
            if Nat.eqb (opt_argcount o) 0 then
              match value with
              | Some _ => Err (docopt_exit (Some (opt_name o +:+ " must not have an argument")))
              | None => toks ← parse_argv opts rest; Ok (TOpt (opt_name o) None :: toks)
              end
            else
              match value with
              | Some v => toks ← parse_argv opts rest; Ok (TOpt (opt_name o) (Some v) :: toks)
              | None =>
                  match rest with
                  | v :: rest' =>
                      if String.eqb v "--" then Err (requires_argument o)
                      else toks ← parse_argv opts rest'; Ok (TOpt (opt_name o) (Some v) :: toks)
                  | [] => Err (requires_argument o)
                  end
              end
        | os =>
            Err (docopt_exit (Some (long +:+ " is not a unique prefix: " +:+
                                    join_with ", " (map opt_name os) +:+ "?")))
        end
      else if String.prefix "-" t && negb (String.eqb t "-") then
        let '(toks1, opts') := parse_shorts opts (List.tl (chars t)) in
        toks ← parse_argv opts' rest; Ok (toks1 ++ toks)
      else
        toks ← parse_argv opts rest; Ok (TArg t :: toks)
  end.

(** ** The match *)

(** The dict [docopt] returns. *)
Record docopt_args := mk_docopt_args {
  d_help : bool;
  d_version : bool;
  d_verbose : bool;
  d_yes : bool;
  d_overwrite : bool;
  d_host : option string;
  d_configure : bool;
  d_template : string;
  d_destination : option string
}.

(** The options of the pattern: [[options]] stands for the five of the
    [Options:] section, and [--host] is in the pattern itself. *)
Definition pattern_options : list string :=
  ["--help"; "--version"; "--verbose"; "--yes"; "--overwrite"; "--host"].

Definition opt_names (toks : list token) : list string :=
  omap (λ t, match t with TOpt n _ => Some n | TArg _ => None end) toks.

Definition positionals (toks : list token) : list string :=
  omap (λ t, match t with TArg s => Some s | TOpt _ _ => None end) toks.

Definition flag_set (toks : list token) (name : string) : bool :=
  existsb (String.eqb name) (opt_names toks).

Fixpoint opt_value (toks : list token) (name : string) : option string :=
  match toks with
  | [] => None
  | TOpt n v :: toks' => if String.eqb n name then v else opt_value toks' name
  | TArg _ :: toks' => opt_value toks' name
  end.

(** [pattern.fix().match(argv)] with nothing left over: every option is
    one of the pattern's and appears once, the first positional is the
    command [configure], then [<template>] and at most [<destination>]. *)
Definition docopt_match (toks : list token) : option docopt_args :=
  if forallb (λ n, existsb (String.eqb n) pattern_options) (opt_names toks) &&
     bool_decide (NoDup (opt_names toks))
  then match positionals toks with
       | c :: template :: dest =>
           if String.eqb c "configure" then
             match dest with
             | [] | [_] =>
                 Some (mk_docopt_args false (flag_set toks "--version")
                         (flag_set toks "--verbose") (flag_set toks "--yes")
                         (flag_set toks "--overwrite") (opt_value toks "--host") true
                         template (head dest))
             | _ => None
             end
           else None
       | _ => None
       end
  else None.

Inductive docopt_result :=
| DHelp
| DArgs (a : docopt_args).

(** [docopt(doc, argv)]: parse, the [--help] check of [extras], match. *)
Definition docopt (argv : list string) : except docopt_result :=
  toks ← parse_argv doc_options argv;
  if flag_set toks "--help" then Ok DHelp
  else match docopt_match toks with
       | Some a => Ok (DArgs a)
       | None => Err (docopt_exit None)
       end.

(** [main(argv)], lines 254-269: on [--help], docopt's [extras] prints
    the docstring (a byte string, with [print]) and calls [sys.exit()],
    status 0; otherwise the flags are set and [configure] runs. *)
Definition iftool_main `{TemplateEngine} {F} `{FileSystem F} (argv : list string)
    (load : string → except pyval) (env : environment) : prog F unit :=
  match docopt argv with
  | Err e => raise e
  | Ok DHelp => do print_line usage_doc ;; raise (SystemExit 0)
  | Ok (DArgs a) =>
      if d_configure a then
        main (mk_flags (d_verbose a) (d_yes a) (d_overwrite a)) load env
          (mk_arguments (d_host a) (d_template a) (d_destination a))
      else skip
  end.

(** Lines 272-273: run as a script, [main()] is called without [argv],
    so docopt parses [sys.argv[1:]]. *)
Definition script_main `{TemplateEngine} {F} `{FileSystem F} (sys_argv : list string)
    (load : string → except pyval) (env : environment) : prog F unit :=
  iftool_main (tail sys_argv) load env.

(** ** The canonical command line of a result *)

(** The long options in the order of the option table, then the command
    and the positionals. *)
Definition render_argv (a : docopt_args) : list string :=
  (if d_version a then ["--version"] else []) ++ (if d_verbose a then ["--verbose"] else []) ++
  (if d_yes a then ["--yes"] else []) ++ (if d_overwrite a then ["--overwrite"] else []) ++
  (match d_host a with Some h => ["--host=" +:+ h] | None => [] end) ++
  ["configure"; d_template a] ++ (match d_destination a with Some d => [d] | None => [] end).

(** A word docopt takes as a positional argument. *)
Definition plain_arg (s : string) : bool :=
  match s with String c _ => negb (Ascii.eqb c "-") | EmptyString => true end.

(** ** Lemmas *)

Lemma prefix_dash_plain p s : plain_arg s = true → String.prefix (String "-" p) s = false.
Proof.
  destruct s as [|c s]; [done|]. cbn [String.prefix plain_arg]. intros Hc%negb_true_iff%Ascii.eqb_neq.
  destruct (ascii_dec "-" c); congruence.
Qed.

Lemma parse_argv_plain opts s rest :
  plain_arg s = true →
  parse_argv opts (s :: rest) = toks ← parse_argv opts rest; Ok (TArg s :: toks).
Proof.
  intros Hs. cbn [parse_argv].
  assert (String.eqb s "--" = false) as ->.
  { apply String.eqb_neq. intros ->. done. }
  rewrite !prefix_dash_plain by done. reflexivity.
Qed.

Lemma parse_argv_flag f rest :
  f ∈ ["--version"; "--verbose"; "--yes"; "--overwrite"] →
  parse_argv doc_options (f :: rest) = toks ← parse_argv doc_options rest; Ok (TOpt f None :: toks).
Proof. intros Hf. repeat (apply elem_of_cons in Hf as [->|Hf]; [reflexivity|]). by apply elem_of_nil in Hf. Qed.

Lemma parse_argv_host h rest :
  parse_argv doc_options (("--host=" +:+ h) :: rest) =
    toks ← parse_argv doc_options rest; Ok (TOpt "--host" (Some h) :: toks).
Proof. unfold String.append. simpl. reflexivity. Qed.

Lemma parse_argv_positionals tmpl dest :
  plain_arg tmpl = true → (∀ d, dest = Some d → plain_arg d = true) →
  parse_argv doc_options ("configure" :: tmpl :: match dest with Some d => [d] | None => [] end) =
    Ok (TArg "configure" :: TArg tmpl :: match dest with Some d => [TArg d] | None => [] end).
Proof.
  intros Ht Hd. rewrite (parse_argv_plain _ "configure") by reflexivity.
  rewrite parse_argv_plain by done.
  destruct dest as [d|]; [|reflexivity]. rewrite parse_argv_plain by auto. reflexivity.
Qed.

(** C24: Round trip: every result of a successful match without
    [--version] is parsed back from its canonical command line, when the
    positionals do not start with [-]. *)
Theorem docopt_roundtrip a :
  d_help a = false → d_version a = false → d_configure a = true → plain_arg (d_template a) = true →
  (∀ d, d_destination a = Some d → plain_arg d = true) →
  docopt (render_argv a) = Ok (DArgs a).
Proof.
  destruct a as [help ver verb yes ow host conf tmpl dest]; simpl.
  intros -> -> -> Ht Hd. unfold docopt, render_argv.
  cbn [d_version d_verbose d_yes d_overwrite d_host d_template d_destination].
  destruct verb, yes, ow, host as [h|]; cbn [List.app];
    rewrite ?parse_argv_flag, ?parse_argv_host, parse_argv_positionals by first [done | repeat constructor];
    destruct dest; vm_compute; reflexivity.
Qed.

(** The match fails on an option given twice or on a command line
    whose first positional is not [configure]. *)
Lemma docopt_match_None toks :
  ¬ NoDup (opt_names toks) ∨ head (positionals toks) ≠ Some "configure" →
  docopt_match toks = None.
Proof.
  intros Hbad. unfold docopt_match.
  destruct (bool_decide (NoDup (opt_names toks))) eqn:Hn; [|by rewrite andb_false_r].
  apply bool_decide_eq_true in Hn. destruct Hbad as [|Hc]; [done|].
  rewrite andb_true_r. destruct (forallb _ _); [|done].
  destruct (positionals toks) as [|c [|t dest]]; [done|done|].
  destruct (String.eqb_spec c "configure"); [simpl in Hc; congruence|done].
Qed.

(** C25: A command line without [--help] or [--version] that gives an
    option twice, or whose first positional is not the command
    [configure], ends [main] with [DocoptExit] and the usage text,
    before anything is printed on stdout or written. *)
Theorem iftool_main_usage_error `{TemplateEngine} {F} `{FileSystem F} argv toks load env
    (w : world F) :
  parse_argv doc_options argv = Ok toks → flag_set toks "--help" = false →
  flag_set toks "--version" = false →
  ¬ NoDup (opt_names toks) ∨ head (positionals toks) ≠ Some "configure" →
  iftool_main argv load env w = (w, Err (docopt_exit None)).
Proof.
  intros Hp Hh _ Hbad. unfold iftool_main, docopt. rewrite Hp. simpl.
  by rewrite Hh, docopt_match_None.
Qed.

(** C26: [--help] (or [-h], or a unique prefix of [--help]) anywhere in a
    command line that parses prints the docstring and exits with status
    0, whatever else the command line says; no file is written. *)
Theorem iftool_main_help `{TemplateEngine} {F} `{FileSystem F} argv toks load env
    (w : world F) :
  parse_argv doc_options argv = Ok toks → flag_set toks "--help" = true →
  iftool_main argv load env w =
    (mk_world (w_stdout w ++ [usage_doc]) (w_fs w), Err (SystemExit 0)).
Proof. intros Hp Hh. unfold iftool_main, docopt. rewrite Hp. simpl. by rewrite Hh. Qed.

(** ** Witnesses *)

Lemma docopt_roundtrip_witness :
  let a := mk_docopt_args false false true true false (Some "web1") true "conf/net.yml"
             (Some "/etc/net") in
  d_help a = false ∧ d_version a = false ∧ d_configure a = true ∧ plain_arg (d_template a) = true ∧
  render_argv a = ["--verbose"; "--yes"; "--host=web1"; "configure"; "conf/net.yml"; "/etc/net"] ∧
  docopt (render_argv a) = Ok (DArgs a).
Proof.
  intros a.
  assert (d_help a = false) as H1 by reflexivity.
  assert (d_version a = false) as H0 by reflexivity.
  assert (d_configure a = true) as H2 by reflexivity.
  assert (plain_arg (d_template a) = true) as H3 by reflexivity.
  assert (∀ d, d_destination a = Some d → plain_arg d = true) as H4
    by (intros d [= <-]; reflexivity).
  split_and!; [exact H1|exact H0|exact H2|exact H3|reflexivity|exact (docopt_roundtrip a H1 H0 H2 H3 H4)].
Defined.

(** [iftool --yes --yes configure net.yml]: an option given twice. *)
Lemma iftool_main_usage_error_witness :
  let toks := [TOpt "--yes" None; TOpt "--yes" None; TArg "configure"; TArg "net.yml"] in
  parse_argv doc_options ["--yes"; "--yes"; "configure"; "net.yml"] = Ok toks ∧
  iftool_main ["--yes"; "--yes"; "configure"; "net.yml"] (λ _, Err (IOError ""))
    (mk_environment "web1" "/") (mk_world [] (mk_gfs ∅ ∅)) =
    (mk_world [] (mk_gfs ∅ ∅), Err (docopt_exit None)).
Proof.
  intros toks.
  assert (parse_argv doc_options ["--yes"; "--yes"; "configure"; "net.yml"] = Ok toks) as Hp
    by (vm_compute; reflexivity).
  assert (flag_set toks "--help" = false) as Hh by reflexivity.
  assert (flag_set toks "--version" = false) as Hv by reflexivity.
  assert (¬ NoDup (opt_names toks) ∨ head (positionals toks) ≠ Some "configure") as Hb.
  { left. cbn. rewrite NoDup_cons. intros [Hin _]. apply Hin. left. }
  split; [exact Hp|]. exact (iftool_main_usage_error _ _ _ _ _ Hp Hh Hv Hb).
Defined.

Lemma iftool_main_help_witness :
  parse_argv doc_options ["configure"; "-h"; "net.yml"] =
    Ok [TArg "configure"; TOpt "--help" None; TArg "net.yml"] ∧
  iftool_main ["configure"; "-h"; "net.yml"] (λ _, Err (IOError "")) (mk_environment "web1" "/")
    (mk_world [] (mk_gfs ∅ ∅)) =
    (mk_world [usage_doc] (mk_gfs ∅ ∅), Err (SystemExit 0)).
Proof.
  assert (parse_argv doc_options ["configure"; "-h"; "net.yml"] =
            Ok [TArg "configure"; TOpt "--help" None; TArg "net.yml"]) as Hp
    by (vm_compute; reflexivity).
  assert (flag_set [TArg "configure"; TOpt "--help" None; TArg "net.yml"] "--help" = true) as Hh
    by reflexivity.
  split; [exact Hp|]. exact (iftool_main_help _ _ _ _ (mk_world [] (mk_gfs ∅ ∅)) Hp Hh).
Defined.

End Cli.
