(* ===== verification/Scenario.v ===== *)
(** * A complete run on a sample document

    A template [conf/net.yml] whose [hosts] section is an [!include] of
    [conf/hosts.yml], one host [web1] with device [eth0] and two
    addresses, two routing tables [t2] (on [eth1]) and [t1] (on [eth0])
    listed out of order, a truthy [global.vlan], and templates that use
    plain interpolation.  [main] runs with [Render.interp_engine], the
    loader [Loader.load_file] and the [gmap] file system.  The lemmas
    here apply the theorems of [Hosts], [Tables] and [Configure] at this
    input: they are the witnesses that the hypotheses of those theorems
    hold together on a real document. *)

From S2P Require Import Prelude PyStr PyVal Ipv4 Loader Output Hosts Tables Render Configure.
From stdpp Require Import gmap.
Import String.

Module Scenario.
Import PyStr PyVal Ipv4 Loader Output Hosts Tables Render Configure.

(** ** The sample input *)

Definition nl : string := newline.

Definition sample_tables_yml : list (ynode * ynode) :=
  [(YStr "t2", YMap [(YStr "primary ifname", YStr "eth1");
                     (YStr "subnet", YStr "10.0.1.0/24");
                     (YStr "default gateway", YStr "10.0.1.1")]);
   (YStr "t1", YMap [(YStr "primary ifname", YStr "eth0");
                     (YStr "subnet", YStr "10.0.0.0/24");
                     (YStr "default gateway", YStr "10.0.0.1")])].

(** The document, for a [tables] section and a route content template. *)
Definition net_doc (tables : list (ynode * ynode)) (route_content : string) : ynode :=
  YMap [
    (YStr "global", YMap [(YStr "vlan", YInt 100)]);
    (YStr "hosts", YInclude "hosts.yml");
    (YStr "tables", YMap tables);
    (YStr "templates", YMap [
       (YStr "device", YMap [(YStr "filename", YStr "ifcfg-{{ device }}.{{ vlan }}");
                              (YStr "content", YStr ("DEVICE={{ device }}.{{ vlan }}" +:+ nl +:+ "VLAN=yes" +:+ nl))]);
       (YStr "route", YMap [(YStr "filename", YStr "route-{{ device }}");
                             (YStr "content", YStr route_content)]);
       (YStr "rule", YMap [(YStr "filename", YStr "rule-{{ device }}");
                            (YStr "content", YStr "# rules of {{ device }}")]);
       (YStr "interface", YMap [
          (YStr "filename", YStr "ifcfg-{{ ifname }}");
          (YStr "content", YStr ("DEVICE={{ ifname }}" +:+ nl +:+ "IPADDR={{ address }}" +:+ nl +:+
                                 "NETWORK={{ network_address }}" +:+ nl +:+ "NETMASK={{ netmask }}"))])])].

Definition net_yml : ynode := net_doc sample_tables_yml "# routes of {{ device }}".

Definition hosts_yml : ynode :=
  YMap [(YStr "web1", YMap [(YStr "device", YStr "eth0");
                            (YStr "addresses", YMap [(YStr "eth0", YStr "10.0.0.5");
                                                     (YStr "eth1", YStr "10.0.1.5")])])].

Definition sample_files : gmap string ynode :=
  {[ "conf/net.yml" := net_yml; "conf/hosts.yml" := hosts_yml ]}.

Definition sample_load : string → except pyval := load_file 100 sample_files.

Definition sample_env : environment := mk_environment "web1.example.com" "/root".

Definition sample_args (destination : option string) : arguments :=
  mk_arguments None "conf/net.yml" destination.

Definition sample_world : world gfs :=
  mk_world [] (mk_gfs ∅ {[ "/etc/net"; "out" ]}).

Definition dry_flags : flags := mk_flags false false false.
Definition yes_flags : flags := mk_flags false true false.
Definition verbose_yes_flags : flags := mk_flags true true false.

(** The document as loaded, and two variants: the [tables] section in
    the other order, and a [global] section without [vlan]. *)
Definition sample_config : pyval :=
  match sample_load "conf/net.yml" with Ok v => v | Err _ => PNone end.

Definition sample_tables : list (pyval * pyval) :=
  match getkey sample_config "tables" with Ok (PDict d) => d | _ => [] end.

Definition reordered_config : pyval := PDict [(PStr "tables", PDict (List.rev sample_tables))].

Definition novlan_files : gmap string ynode :=
  {[ "conf/net.yml" := YMap [(YStr "global", YMap [])]; "conf/hosts.yml" := hosts_yml ]}.

Definition novlan_config : pyval :=
  match load_file 100 novlan_files "conf/net.yml" with Ok v => v | Err _ => PNone end.

(** The events of the run into [/etc/net], and a world in which
    [/etc/net/route-eth0] is a directory, so that the second write fails. *)
Definition sample_events : list event :=
  events (configure sample_load sample_env (sample_args (Some "/etc/net"))).

Definition blocked_world : world gfs :=
  mk_world [] (mk_gfs ∅ {[ "/etc/net"; "/etc/net/route-eth0" ]}).

(** ** The run *)

(** The five files of the run, in order: the device file (its name
    rendered without [vlan], which is empty there), the route and rule
    files, one file per interface in sorted order. *)
Lemma sample_written_files :
  written_files (events (configure sample_load sample_env (sample_args (Some "/etc/net")))) =
    ["/etc/net/ifcfg-eth0."; "/etc/net/route-eth0"; "/etc/net/rule-eth0";
     "/etc/net/ifcfg-eth0"; "/etc/net/ifcfg-eth1"].
Proof. vm_compute. reflexivity. Qed.

Lemma sample_interface_file :
  last_write "/etc/net/ifcfg-eth1"
    (events (configure sample_load sample_env (sample_args (Some "/etc/net")))) =
  Some ("DEVICE=eth1" +:+ nl +:+ "IPADDR=10.0.1.5" +:+ nl +:+
        "NETWORK=10.0.1.0" +:+ nl +:+ "NETMASK=255.255.255.0").
Proof. vm_compute. reflexivity. Qed.

Lemma tables_order_irrelevant_witness :
  py_wf sample_config = true ∧
  getkey sample_config "tables" = Ok (PDict sample_tables) ∧
  getkey reordered_config "tables" = Ok (PDict (List.rev sample_tables)) ∧
  sample_tables ≡ₚ List.rev sample_tables ∧
  table_contexts sample_config (PStr "eth0") = table_contexts reordered_config (PStr "eth0").
Proof.
  assert (py_wf sample_config = true) as Hw by (vm_compute; reflexivity).
  assert (getkey sample_config "tables" = Ok (PDict sample_tables)) as H1
    by (vm_compute; reflexivity).
  assert (getkey reordered_config "tables" = Ok (PDict (List.rev sample_tables))) as H2
    by (vm_compute; reflexivity).
  assert (sample_tables ≡ₚ List.rev sample_tables) as Hp by (vm_compute; apply perm_swap).
  split_and!; [exact Hw|exact H1|exact H2|exact Hp|].
  exact (tables_order_irrelevant _ _ _ _ _ Hw H1 H2 Hp).
Defined.

Lemma table_contexts_sorted_witness :
  let ctxs := match table_contexts sample_config (PStr "eth0") with Ok c => c | Err _ => [] end in
  table_contexts sample_config (PStr "eth0") = Ok ctxs ∧
  ∃ tables items names,
    getkey sample_config "tables" = Ok tables ∧ py_iter tables = Ok items ∧
    names ≡ₚ items ∧ Sorted py_le names ∧
    Forall2 (λ table ctx, ∃ d, table_detail sample_config table = Ok d ∧
                               table_context (PStr "eth0") table d = Ok ctx) names ctxs.
Proof.
  intros ctxs.
  assert (table_contexts sample_config (PStr "eth0") = Ok ctxs) as H by (vm_compute; reflexivity).
  split; [exact H|]. exact (table_contexts_sorted _ _ _ H).
Defined.

Lemma build_ifnames_last_writer_witness :
  let ifn := match build_ifnames sample_config (PStr "eth0") with Ok m => m | Err _ => [] end in
  build_ifnames sample_config (PStr "eth0") = Ok ifn ∧
  ∃ names assignments,
    table_names sample_config = Ok names ∧
    Forall2 (λ table kv, ∃ d, table_detail sample_config table = Ok d ∧
      getkey d "primary ifname" = Ok kv.1 ∧ table_context (PStr "eth0") table d = Ok kv.2)
      names assignments ∧
    ∀ k, dict_lookup ifn k = last_assigned k assignments.
Proof.
  intros ifn.
  assert (build_ifnames sample_config (PStr "eth0") = Ok ifn) as H by (vm_compute; reflexivity).
  split; [exact H|]. exact (build_ifnames_last_writer _ _ _ H).
Defined.


Lemma main_dry_run_witness :
  let args := sample_args (Some "/etc/net") in
  YES dry_flags = false ∧
  let lines := concat (map dry_event_lines (events (configure sample_load sample_env args))) in
  main dry_flags sample_load sample_env args sample_world =
    (mk_world (w_stdout sample_world ++ fst (print_texts lines)) (w_fs sample_world),
     match snd (print_texts lines) with
     | Some e => Err e
     | None => outcome (configure sample_load sample_env args)
     end).
Proof.
  intros args. assert (YES dry_flags = false) as Hd by reflexivity.
  split; [exact Hd|]. exact (main_dry_run _ _ _ _ _ Hd).
Defined.

(** [db9] is not in the [hosts] section. *)
Lemma main_unknown_host_witness :
  let env := mk_environment "db9" "/root" in
  let args := sample_args None in
  sample_load (arg_template args) = Ok sample_config ∧
  global_vlan sample_config = Ok (PInt 100) ∧
  (getkey sample_config "hosts" ≫= py_iter) = Ok [PStr "web1"] ∧
  find_host (target_host env args) [PStr "web1"] = Ok None ∧
  main yes_flags sample_load env args sample_world =
    (mk_world (w_stdout sample_world ++ [not_found_msg (target_host env args)])
       (w_fs sample_world),
     Err (SystemExit 1)).
Proof.
  intros env args.
  assert (sample_load (arg_template args) = Ok sample_config) as Hl by (vm_compute; reflexivity).
  assert (global_vlan sample_config = Ok (PInt 100)) as Hv by (vm_compute; reflexivity).
  assert ((getkey sample_config "hosts" ≫= py_iter) = Ok [PStr "web1"]) as Hc
    by (vm_compute; reflexivity).
  assert (find_host (target_host env args) [PStr "web1"] = Ok None) as Hf
    by (vm_compute; reflexivity).
  split_and!; [exact Hl|exact Hv|exact Hc|exact Hf|].
  exact (main_unknown_host _ _ _ _ _ _ _ _ Hl Hv Hc Hf).
Defined.

Lemma configure_file_count_witness :
  let args := sample_args (Some "/etc/net") in
  sample_load (arg_template args) = Ok sample_config ∧
  global_vlan sample_config = Ok (PInt 100) ∧
  outcome (configure sample_load sample_env args) = Ok () ∧
  ∃ host detail device ifnames names,
    outcome (resolve_host sample_config (target_host sample_env args)) = Ok (host, detail) ∧
    getkey detail "device" = Ok device ∧
    build_ifnames sample_config device = Ok ifnames ∧ interface_names ifnames = Ok names ∧
    nwrites (configure sample_load sample_env args) =
      (if truthy (PInt 100) then 1 else 0) + 2 + length names.
Proof.
  intros args.
  assert (sample_load (arg_template args) = Ok sample_config) as Hl by (vm_compute; reflexivity).
  assert (global_vlan sample_config = Ok (PInt 100)) as Hv by (vm_compute; reflexivity).
  assert (outcome (configure sample_load sample_env args) = Ok ()) as Ho
    by (vm_compute; reflexivity).
  split_and!; [exact Hl|exact Hv|exact Ho|].
  exact (configure_file_count _ _ _ _ _ Hl Hv Ho).
Defined.

(** A document whose [global] section has no [vlan]: [KeyError('vlan')]. *)
Lemma configure_missing_vlan_witness :
  let args := sample_args None in
  load_file 100 novlan_files (arg_template args) = Ok novlan_config ∧
  global_vlan novlan_config = Err (KeyError (PStr "vlan")) ∧
  configure (load_file 100 novlan_files) sample_env args = Raise (KeyError (PStr "vlan")).
Proof.
  intros args.
  assert (load_file 100 novlan_files (arg_template args) = Ok novlan_config) as Hl
    by (vm_compute; reflexivity).
  assert (global_vlan novlan_config = Err (KeyError (PStr "vlan"))) as Hv
    by (vm_compute; reflexivity).
  split_and!; [exact Hl|exact Hv|]. exact (configure_missing_vlan _ _ _ _ _ Hl Hv).
Defined.



End Scenario.
