(* ===== verification/Sink.v ===== *)
(** * The sink as a transition system: one step per statement

    [run] ([Output]) gives the whole effect of a program at once.  Python
    performs it one statement at a time: each [say] (src/iftool.py:44-55)
    converts its text with [str()] and writes one line, and [with
    open(filename, 'wt') as file: file.write(content)] (lines 117-118
    and their three copies) first opens the file, which truncates it,
    and then encodes and writes the content.  This file makes those
    steps explicit, in the style of a small-step semantics: a
    configuration ([cfg]) is the program still to run, the actions of
    the current write-or-preview block still to perform
    ([emit_actions]) and the world, or a final world with the outcome;
    [step] performs one action, and each action can fail the way its
    statement fails ([UnicodeEncodeError] of [str()] or [file.write],
    [IOError] of [open], [UnicodeDecodeError] of [os.path.join]).

    The theorems are invariants proved by rule induction on the
    reflexive-transitive closure of [step]: the dry run never changes
    the file system and printed lines are never taken back, at every
    step; and at every step of any run each file holds its old content,
    nothing (it was opened and not yet written, or [file.write] failed
    after [open]) or a content the program hands to the sink for it. *)

From S2P Require Import Prelude PyStr PyVal Output.
From stdpp Require Import relations.
Import String.

Module Sink.
Import PyStr PyVal Output.

(** ** Actions and configurations *)

(** One statement of the write-or-preview block: a [say] of one text,
    the [open(filename, 'wt')] that creates or truncates the file, the
    [file.write(content)], and the exception of a statement that raises
    before any of them (the [os.path.join] of the verbose message). *)
Inductive action :=
| APrint (t : ptext)
| AOpen (filename : string)
| AWrite (filename content : string)
| ARaise (e : exn).

(** The statements of the block (lines 115-123) under the flags. *)
Definition emit_actions (fl : flags) (destination filename content : string) : list action :=
  if YES fl then
    match path_join_unicode destination filename with
    | Err e => [ARaise e]
    | Ok p =>
        (if VERBOSE fl then [APrint (Unicode ("Writing " +:+ p))] else []) ++
        [AOpen filename; AWrite filename content]
    end
  else map APrint (dry_run_lines filename content).

Section machine.
Context {F : Type} `{FileSystem F} {A : Type}.

Inductive cfg :=
| Running (acts : list action) (k : io A) (w : world F)
| Final (w : world F) (r : except A).

Definition cfg_world (s : cfg) : world F :=
  match s with Running _ _ w => w | Final w _ => w end.

(** One step: the next action of the block, or the next event of the
    program once the block is done.  Opening is [fs_write] of the empty
    content; an exception of a statement ends the run. *)
Inductive step (fl : flags) : cfg → cfg → Prop :=
| step_print t s acts k w :
    str_text t = Ok s →
    step fl (Running (APrint t :: acts) k w) (Running acts k (mk_world (w_stdout w ++ [s]) (w_fs w)))
| step_print_fails t e acts k w :
    str_text t = Err e → step fl (Running (APrint t :: acts) k w) (Final w (Err e))
| step_open fn acts k w f' :
    is_ascii fn = true → fs_write (w_fs w) fn "" = Some f' →
    step fl (Running (AOpen fn :: acts) k w) (Running acts k (mk_world (w_stdout w) f'))
| step_open_fails fn acts k w :
    is_ascii fn = true → fs_write (w_fs w) fn "" = None →
    step fl (Running (AOpen fn :: acts) k w) (Final w (Err (IOError fn)))
| step_open_path fn acts k w :
    is_ascii fn = false →
    step fl (Running (AOpen fn :: acts) k w) (Final w (Err (NotModelled "open() of a non-ASCII path")))
| step_write fn ct c acts k w f' :
    str_unicode ct = Ok c → fs_write (w_fs w) fn c = Some f' →
    step fl (Running (AWrite fn ct :: acts) k w) (Running acts k (mk_world (w_stdout w) f'))
| step_write_encode_fails fn ct e acts k w :
    str_unicode ct = Err e → step fl (Running (AWrite fn ct :: acts) k w) (Final w (Err e))
| step_write_fails fn ct c acts k w :
    str_unicode ct = Ok c → fs_write (w_fs w) fn c = None →
    step fl (Running (AWrite fn ct :: acts) k w) (Final w (Err (IOError fn)))
| step_raise_action e acts k w : step fl (Running (ARaise e :: acts) k w) (Final w (Err e))
| step_say m k w :
    step fl (Running [] (Say m k) w) (Running [] k (mk_world (w_stdout w ++ [m]) (w_fs w)))
| step_emit d fn ct k w :
    step fl (Running [] (Emit d fn ct k) w) (Running (emit_actions fl d fn ct) k w)
| step_done a w : step fl (Running [] (Done a) w) (Final w (Ok a))
| step_raise e w : step fl (Running [] (Raise e) w) (Final w (Err e)).

(** What a dry run may have pending: prints only. *)
Definition is_print (a : action) : bool :=
  match a with APrint _ => true | AOpen _ | AWrite _ _ | ARaise _ => false end.

(** The invariant of a dry run started in [w0]. *)
Definition dry_inv (w0 : world F) (s : cfg) : Prop :=
  w_fs (cfg_world s) = w_fs w0 ∧ w_stdout w0 `prefix_of` w_stdout (cfg_world s) ∧
  match s with
  | Running acts _ _ => Forall (λ a, is_print a = true) acts
  | Final _ _ => True
  end.

(** A file of a run of a program with events [evs] started on [f0]: its
    old content, empty (opened, not yet written), or a content the
    program emits for it. *)
Definition file_ok (evs : list event) (f0 f : F) (p : string) : Prop :=
  fs_read f p = fs_read f0 p ∨ fs_read f p = Some "" ∨
  ∃ d ct, EEmit d p ct ∈ evs ∧ fs_read f p = Some ct.

Definition files_inv (evs : list event) (w0 : world F) (s : cfg) : Prop :=
  (∀ p, file_ok evs (w_fs w0) (w_fs (cfg_world s)) p) ∧
  match s with
  | Running acts k _ =>
      (∀ fn ct, AWrite fn ct ∈ acts → ∃ d, EEmit d fn ct ∈ evs) ∧ (∀ ev, ev ∈ events k → ev ∈ evs)
  | Final _ _ => True
  end.
End machine.
Arguments cfg F A : clear implicits.

(** ** Lemmas *)

#[export] Hint Constructors step rtc : iftool.

Section machine_lemmas.
Context {F : Type} `{FileSystem F} {A : Type}.
Implicit Types (s : cfg F A) (fl : flags).

End machine_lemmas.

Section step_lemmas.
Context {F : Type} `{FileSystemLaws F} {A : Type}.
Implicit Types (s : cfg F A) (fl : flags).

(** Printed lines are never taken back. *)
Lemma step_stdout_prefix fl s s' :
  step fl s s' → w_stdout (cfg_world s) `prefix_of` w_stdout (cfg_world s').
Proof. destruct 1; simpl; first [reflexivity | by eexists]. Qed.

Lemma emit_actions_write fl d fn ct fn' ct' :
  AWrite fn' ct' ∈ emit_actions fl d fn ct → fn' = fn ∧ ct' = ct.
Proof.
  unfold emit_actions. destruct (YES fl); [destruct (path_join_unicode d fn), (VERBOSE fl)|];
    rewrite ?elem_of_app, ?elem_of_cons, ?elem_of_nil, ?list_elem_of_In, ?in_map_iff; naive_solver.
Qed.

Lemma dry_inv_step fl w0 s s' : YES fl = false → step fl s s' → dry_inv w0 s → dry_inv w0 s'.
Proof.
  intros Hy Hs (Hf & Hp & Ha). pose proof (step_stdout_prefix _ _ _ Hs) as Hp'.
  destruct Hs; simpl in *; try (apply Forall_inv in Ha; discriminate);
    split_and!; try done; try (by etrans); try (inversion Ha; assumption).
  unfold emit_actions. rewrite Hy. apply Forall_forall. intros a.
  rewrite list_elem_of_In, in_map_iff. naive_solver.
Qed.

Lemma file_ok_write evs (f0 f f' : F) fn c p :
  fs_write f fn c = Some f' → (∀ q, file_ok evs f0 f q) →
  c = "" ∨ (∃ d, EEmit d fn c ∈ evs) → file_ok evs f0 f' p.
Proof.
  intros Hw Hok Hc. destruct (decide (p = fn)) as [->|Hne].
  - unfold file_ok. rewrite (fs_write_read _ _ _ _ Hw). naive_solver.
  - unfold file_ok. rewrite (fs_write_read_other _ _ _ _ _ Hw) by done. apply Hok.
Qed.

Lemma files_inv_step fl evs w0 s s' : step fl s s' → files_inv evs w0 s → files_inv evs w0 s'.
Proof.
  intros Hs [Hok Ha]. destruct Hs; simpl in *; try done; destruct Ha as [Hw Hk].
  - split; [done|]. split; [|done]. intros ? ? ?. apply Hw. by right.
  - split; [intros p; eapply file_ok_write; eauto|].
    split; [|done]. intros ? ? ?. apply Hw. by right.
  - match goal with E : str_unicode _ = Ok _ |- _ => apply str_unicode_Ok in E as -> end.
    split; [intros p; eapply file_ok_write; eauto; right; apply Hw; by left|].
    split; [|done]. intros ? ? ?. apply Hw. by right.
  - split; [done|]. split; [intros ? ? []%elem_of_nil|].
    intros ev ?. apply Hk. by right.
  - split; [done|]. split; [|intros ev ?; apply Hk; by right].
    intros fn' ct' [-> ->]%emit_actions_write. exists d. apply Hk. by left.
Qed.
End step_lemmas.

(** ** Theorems *)

Section sink_theorems.
Context {F : Type} `{FileSystemLaws F} {A : Type}.

(** C30: At every step of a dry run, not only at its end, the file
    system is the one the run started with, and the lines printed
    before are still there. *)
Theorem dry_run_steps_keep_files fl (c : io A) (w : world F) s :
  YES fl = false → rtc (step fl) (Running [] c w) s →
  w_fs (cfg_world s) = w_fs w ∧ w_stdout w `prefix_of` w_stdout (cfg_world s).
Proof.
  intros Hy Hs. cut (dry_inv w s); [by intros (? & ? & _)|].
  refine (rtc_ind_r (dry_inv w) _ _ _ s Hs).
  - split_and!; [done|done|constructor].
  - intros s1 s2 _ Hst IH. by eapply dry_inv_step.
Qed.

(** C31: At every step of any run, each file holds its old content, the
    empty content (it has been opened by [open(filename, 'wt')] and not
    yet written), or a content the program hands to the sink for it. *)
Theorem steps_files_old_empty_or_emitted fl (c : io A) (w : world F) s p :
  rtc (step fl) (Running [] c w) s →
  fs_read (w_fs (cfg_world s)) p = fs_read (w_fs w) p ∨ fs_read (w_fs (cfg_world s)) p = Some "" ∨
  ∃ d ct, EEmit d p ct ∈ events c ∧ fs_read (w_fs (cfg_world s)) p = Some ct.
Proof.
  intros Hs. cut (files_inv (events c) w s); [intros [Hok _]; apply Hok|].
  refine (rtc_ind_r (files_inv (events c) w) _ _ _ s Hs).
  - split; [intros q; by left|]. split; [intros ? ? []%elem_of_nil|done].
  - intros s1 s2 _ Hst IH. by eapply files_inv_step.
Qed.

End sink_theorems.

(** ** Witnesses

    A device file written to [/etc/net], whose directory exists. *)

Lemma dry_run_steps_keep_files_witness :
  let fl := mk_flags false false false in
  let c : io unit := io_emit "/etc/net" "/etc/net/ifcfg-eth0" "DEVICE=eth0" in
  let w := mk_world [] (mk_gfs ∅ {["/etc/net"]}) in
  let s := Running (tail (emit_actions fl "/etc/net" "/etc/net/ifcfg-eth0" "DEVICE=eth0")) (Done ())
             (mk_world ["<DRY-RUN> not writing /etc/net/ifcfg-eth0"] (mk_gfs ∅ {["/etc/net"]})) in
  YES fl = false ∧ rtc (step fl) (Running [] c w) s ∧
  w_fs (cfg_world s) = w_fs w ∧ w_stdout w `prefix_of` w_stdout (cfg_world s).
Proof.
  intros fl c w s.
  assert (YES fl = false) as Hy by reflexivity.
  assert (rtc (step fl) (Running [] c w) s) as Hs.
  { eapply rtc_l; [apply step_emit|]. eapply rtc_l; [apply step_print; reflexivity|]. apply rtc_refl. }
  split_and!; [exact Hy|exact Hs|exact (proj1 (dry_run_steps_keep_files fl c w s Hy Hs))|
               exact (proj2 (dry_run_steps_keep_files fl c w s Hy Hs))].
Defined.

(** An interrupted confirmed run can leave the file empty: the state
    after [open] and before [write]. *)
Lemma steps_files_old_empty_or_emitted_witness :
  let fl := mk_flags false true false in
  let p := "/etc/net/ifcfg-eth0" in
  let c : io unit := io_emit "/etc/net" p "DEVICE=eth0" in
  let w := mk_world [] (mk_gfs ∅ {["/etc/net"]}) in
  let s := Running [AWrite p "DEVICE=eth0"] (Done ())
             (mk_world [] (mk_gfs (<[p := ""]> ∅) {["/etc/net"]})) in
  rtc (step fl) (Running [] c w) s ∧ fs_read (w_fs (cfg_world s)) p = Some "" ∧
  (fs_read (w_fs (cfg_world s)) p = fs_read (w_fs w) p ∨ fs_read (w_fs (cfg_world s)) p = Some "" ∨
   ∃ d ct, EEmit d p ct ∈ events c ∧ fs_read (w_fs (cfg_world s)) p = Some ct).
Proof.
  intros fl p c w s.
  assert (rtc (step fl) (Running [] c w) s) as Hs.
  { eapply rtc_l; [apply step_emit|]. eapply rtc_l; [apply step_open; reflexivity|]. apply rtc_refl. }
  split_and!; [exact Hs|reflexivity|exact (steps_files_old_empty_or_emitted fl c w s p Hs)].
Defined.

End Sink.
